(** * CertForge: a verification development for [certforge.go]

    CertForge is a small Go command-line tool that generates an RSA key, a
    PKCS#10 certificate signing request and, optionally, a self-signed X.509
    certificate, and that decodes PEM files.  This file embeds the parts of
    [certforge.go] that assemble and inspect those structures, and proves
    properties of them.

    Layout:
    - bytes, Go integers and the error monad;
    - the fragment of Go's [encoding/asn1] that [certforge.go] calls
      ([Marshal] of a slice of [RawValue], [Unmarshal] into a [RawValue] and
      into a slice of [RawValue]);
    - the structures of [crypto/x509] and [crypto/x509/pkix] the tool fills;
    - the functions of [certforge.go];
    - the theorems. *)

From Stdlib Require Import ZArith List Lia Bool Ascii String DecimalString.
From Stdlib.Strings Require Import Byte.
From stdpp Require Import base option list gmap strings.
From Equations Require Import Equations.
Import ListNotations.

Local Open Scope string_scope.
Local Open Scope list_scope.
Local Open Scope Z_scope.

(** ** Bytes and Go integers *)

(** A Go [byte] is carried by [Byte.byte]; arithmetic on it goes through [Z]. *)
Definition byte_to_Z (b : byte) : Z := Z.of_N (Byte.to_N b).

(** The conversion [byte(x)] of Go: the low eight bits. *)
Definition Z_to_byte (z : Z) : byte :=
  match Byte.of_N (Z.to_N (z mod 256)) with
  | Some b => b
  | None => "000"%byte
  end.

(** [int64(x)]: two's complement wrap-around to 64 bits. *)
Definition wrap64 (z : Z) : Z := (z + 2 ^ 63) mod 2 ^ 64 - 2 ^ 63.

(** [len(s)] of a Go slice, as an integer. *)
Definition len {A} (l : list A) : Z := Z.of_nat (length l).

(** [[]byte(s)] and [string(b)]: a Go string is its sequence of bytes. *)
Definition bytes_of_string (s : string) : list byte := list_byte_of_string s.
Definition string_of_bytes (b : list byte) : string := string_of_list_byte b.

(** ** Errors

    A Go [error] is carried by the text its [Error()] method returns. *)

Inductive result (A : Type) : Type :=
| Ok (a : A)
| Err (msg : string).
Arguments Ok {A} a.
Arguments Err {A} msg.

Definition bind {A B} (r : result A) (k : A -> result B) : result B :=
  match r with
  | Ok a => k a
  | Err e => Err e
  end.

Notation "'let*' x ':=' r 'in' k" := (bind r (fun x => k))
  (at level 10, x name, r at level 100, k at level 200, only parsing).
Notation "'let*' ' p ':=' r 'in' k" := (bind r (fun p : _ => k))
  (at level 10, p pattern, r at level 100, k at level 200, only parsing).

(** ** The fragment of [encoding/asn1] used by the tool *)

Module asn1.

Definition ClassUniversal : Z := 0.
Definition ClassApplication : Z := 1.
Definition ClassContextSpecific : Z := 2.
Definition ClassPrivate : Z := 3.

Definition TagOctetString : Z := 4.
Definition TagSequence : Z := 16.
Definition TagSet : Z := 17.

(** [asn1.RawValue]. *)
Record RawValue : Type := mkRawValue {
  Class : Z;
  Tag : Z;
  IsCompound : bool;
  Bytes : list byte;
  FullBytes : list byte
}.

(** [tagAndLength]. *)
Record tagAndLength : Type := mkTagAndLength {
  tl_class : Z;
  tl_tag : Z;
  tl_length : Z;
  tl_isCompound : bool
}.

(** *** Encoding *)

(** [lengthLength]:
    [numBytes = 1; for i > 255 { numBytes++; i >>= 8 }]. *)
Equations? lengthLength (i : Z) : Z by wf (Z.to_nat i) lt :=
  lengthLength i with Z_lt_dec 255 i := {
    | left _ => 1 + lengthLength (Z.shiftr i 8)
    | right _ => 1 }.
Proof.
  rewrite Z.shiftr_div_pow2 by lia.
  apply Z2Nat.inj_lt; try lia.
  - apply Z.div_pos; lia.
  - apply Z.div_lt; lia.
Qed.

(** [appendLength]:
    [for n := lengthLength(i); n > 0; n-- { dst = append(dst, byte(i >> ((n-1)*8))) }]. *)
Fixpoint appendLength_loop (n : nat) (i : Z) : list byte :=
  match n with
  | O => []
  | S n' => Z_to_byte (Z.shiftr i (Z.of_nat n' * 8)) :: appendLength_loop n' i
  end.

Definition appendLength (dst : list byte) (i : Z) : list byte :=
  dst ++ appendLength_loop (Z.to_nat (lengthLength i)) i.

(** [base128IntLength]:
    [if n == 0 { return 1 }; l := 0; for i := n; i > 0; i >>= 7 { l++ }]. *)
Equations? base128_loop (i : Z) : Z by wf (Z.to_nat i) lt :=
  base128_loop i with Z_lt_dec 0 i := {
    | left _ => 1 + base128_loop (Z.shiftr i 7)
    | right _ => 0 }.
Proof.
  rewrite Z.shiftr_div_pow2 by lia.
  apply Z2Nat.inj_lt; try lia.
  - apply Z.div_pos; lia.
  - apply Z.div_lt; lia.
Qed.

Definition base128IntLength (n : Z) : Z :=
  if n =? 0 then 1 else base128_loop n.

(** [appendBase128Int]: seven bits per byte, high bit set on all but the
    last. *)
Fixpoint appendBase128Int_loop (l : nat) (n : Z) : list byte :=
  match l with
  | O => []
  | S i =>
      let o := Z.land (byte_to_Z (Z_to_byte (Z.shiftr n (Z.of_nat i * 7)))) 0x7f in
      let o := if (Z.of_nat i =? 0) then o else Z.lor o 0x80 in
      Z_to_byte o :: appendBase128Int_loop i n
  end.

Definition appendBase128Int (dst : list byte) (n : Z) : list byte :=
  dst ++ appendBase128Int_loop (Z.to_nat (base128IntLength n)) n.

(** [appendTagAndLength]. The identifier octet is computed in [uint8]. *)
Definition appendTagAndLength (dst : list byte) (t : tagAndLength) : list byte :=
  let b := (byte_to_Z (Z_to_byte (tl_class t)) * 64) mod 256 in
  let b := if tl_isCompound t then Z.lor b 0x20 else b in
  let dst :=
    if 31 <=? tl_tag t then
      appendBase128Int (dst ++ [Z_to_byte (Z.lor b 0x1f)]) (tl_tag t)
    else
      dst ++ [Z_to_byte (Z.lor b (byte_to_Z (Z_to_byte (tl_tag t))))] in
  if 128 <=? tl_length t then
    let l := lengthLength (tl_length t) in
    appendLength (dst ++ [Z_to_byte (Z.lor 0x80 (byte_to_Z (Z_to_byte l)))]) (tl_length t)
  else
    dst ++ [Z_to_byte (tl_length t)].

(** [makeField] at type [RawValue]: the stored encoding if there is one,
    else identifier, length and content. *)
Definition marshalRawValue (rv : RawValue) : list byte :=
  match FullBytes rv with
  | _ :: _ => FullBytes rv
  | [] =>
      appendTagAndLength []
        (mkTagAndLength (Class rv) (Tag rv) (len (Bytes rv)) (IsCompound rv))
      ++ Bytes rv
  end.

(** [makeBody] at a slice type: the encodings of the elements, in order. *)
Definition marshalBody (vals : list RawValue) : list byte :=
  concat (map marshalRawValue vals).

(** [Marshal(val)] for [val] of type [[]RawValue]: a universal, constructed
    SEQUENCE around the body.  No error arises at this type. *)
Definition Marshal (vals : list RawValue) : result (list byte) :=
  let body := marshalBody vals in
  Ok (appendTagAndLength []
        (mkTagAndLength ClassUniversal TagSequence (len body) true)
      ++ body).

(** *** Decoding

    The byte slice and offset of the Go code are carried as the suffix that
    starts at the offset; every parser returns the suffix it leaves.  The
    text of the "tags don't match" error is cut to these words: the tool
    only tests whether an error was returned. *)

Definition SyntaxError {A} (msg : string) : result A :=
  Err ("asn1: syntax error: " +:+ msg).
Definition StructuralError {A} (msg : string) : result A :=
  Err ("asn1: structure error: " +:+ msg).

Definition MaxInt32 : Z := 2147483647.

(** [parseBase128Int]: the loop over [shifted], with [ret64] accumulated. *)
Fixpoint parseBase128Int_loop (bytes : list byte) (shifted ret64 : Z)
  : result (Z * list byte) :=
  match bytes with
  | [] => SyntaxError "truncated base 128 integer"
  | b0 :: rest =>
      if shifted =? 5 then StructuralError "base 128 integer too large"
      else
        let ret64 := Z.shiftl ret64 7 in
        let b := byte_to_Z b0 in
        if (shifted =? 0) && (b =? 0x80)
        then SyntaxError "integer is not minimally encoded"
        else
          let ret64 := Z.lor ret64 (Z.land b 0x7f) in
          if Z.land b 0x80 =? 0 then
            if MaxInt32 <? ret64
            then StructuralError "base 128 integer too large"
            else Ok (ret64, rest)
          else parseBase128Int_loop rest (shifted + 1) ret64
  end.

Definition parseBase128Int (bytes : list byte) : result (Z * list byte) :=
  parseBase128Int_loop bytes 0 0.

(** The loop of [parseTagAndLength] over the [numBytes] length octets. *)
Fixpoint parseLength_loop (numBytes : nat) (bytes : list byte) (length : Z)
  : result (Z * list byte) :=
  match numBytes with
  | O => Ok (length, bytes)
  | S n =>
      match bytes with
      | [] => SyntaxError "truncated tag or length"
      | b0 :: rest =>
          if 2 ^ 23 <=? length then StructuralError "length too large"
          else
            let length := Z.lor (Z.shiftl length 8) (byte_to_Z b0) in
            if length =? 0
            then StructuralError "superfluous leading zeros in length"
            else parseLength_loop n rest length
      end
  end.

(** [parseTagAndLength], the tag number: when the five low bits of the
    identifier octet are all set, the number follows in base 128. *)
Definition parseTagNumber (tag : Z) (bytes1 : list byte)
  : result (Z * list byte) :=
  if tag =? 0x1f then
    let* '(tag, bytes2) := parseBase128Int bytes1 in
    if tag <? 0x1f then SyntaxError "non-minimal tag"
    else Ok (tag, bytes2)
  else Ok (tag, bytes1).

(** [parseTagAndLength]. *)
Definition parseTagAndLength (bytes : list byte)
  : result (tagAndLength * list byte) :=
  match bytes with
  | [] => Err "asn1: internal error in parseTagAndLength"
  | b0 :: bytes1 =>
      let b := byte_to_Z b0 in
      let class := Z.shiftr b 6 in
      let isCompound := Z.land b 0x20 =? 0x20 in
      let tag := Z.land b 0x1f in
      let* '(tag, bytes2) := parseTagNumber tag bytes1 in
      match bytes2 with
      | [] => SyntaxError "truncated tag or length"
      | b1 :: bytes3 =>
          let b := byte_to_Z b1 in
          if Z.land b 0x80 =? 0 then
            Ok (mkTagAndLength class tag (Z.land b 0x7f) isCompound, bytes3)
          else
            let numBytes := Z.land b 0x7f in
            if numBytes =? 0
            then SyntaxError "indefinite length found (not DER)"
            else
              let* '(length, bytes4) :=
                parseLength_loop (Z.to_nat numBytes) bytes3 0 in
              if length <? 0x80 then StructuralError "non-minimal length"
              else Ok (mkTagAndLength class tag length isCompound, bytes4)
      end
  end.

(** [invalidLength(offset, length, sliceLength)], on the suffix after the
    header. *)
Definition invalidLength (length : Z) (after : list byte) : bool :=
  (length <? 0) || (len after <? length).

(** [parseField] at type [RawValue]: any class and tag match. *)
Definition parseFieldRawValue (bytes : list byte)
  : result (RawValue * list byte) :=
  match bytes with
  | [] => SyntaxError "sequence truncated"
  | _ :: _ =>
      let* '(t, after) := parseTagAndLength bytes in
      if invalidLength (tl_length t) after then SyntaxError "data truncated"
      else
        let n := Z.to_nat (tl_length t) in
        let innerBytes := take n after in
        let rest := drop n after in
        Ok (mkRawValue (tl_class t) (tl_tag t) (tl_isCompound t) innerBytes
              (take (length bytes - length rest) bytes),
            rest)
  end.

(** [Unmarshal(b, &v)] for [v] of type [RawValue]: the value and [rest]. *)
Definition UnmarshalRawValue (b : list byte) : result (RawValue * list byte) :=
  parseFieldRawValue b.

Definition inspect {A} (a : A) : {b : A | a = b} := exist _ a eq_refl.

Lemma parseBase128Int_loop_shorter bytes shifted ret64 v rest :
  parseBase128Int_loop bytes shifted ret64 = Ok (v, rest) ->
  (length rest < length bytes)%nat.
Proof.
  revert shifted ret64.
  induction bytes as [|b0 bytes IH]; intros shifted ret64; simpl; [discriminate|].
  destruct (shifted =? 5); [discriminate|].
  destruct ((shifted =? 0) && (byte_to_Z b0 =? 128)); [discriminate|].
  destruct (Z.land (byte_to_Z b0) 128 =? 0).
  - destruct (MaxInt32 <? _); [discriminate|].
    intros [= <- <-]. lia.
  - intros H. apply IH in H. lia.
Qed.

Lemma parseLength_loop_shorter n bytes acc v rest :
  parseLength_loop n bytes acc = Ok (v, rest) ->
  (length rest <= length bytes)%nat.
Proof.
  revert bytes acc.
  induction n as [|n IH]; intros bytes acc; simpl.
  - intros [= <- <-]. lia.
  - destruct bytes as [|b0 bytes]; [discriminate|].
    destruct (2 ^ 23 <=? acc); [discriminate|].
    destruct (_ =? 0); [discriminate|].
    intros H. apply IH in H. simpl. lia.
Qed.

Lemma parseTagNumber_shorter tag0 bytes1 tag bytes2 :
  parseTagNumber tag0 bytes1 = Ok (tag, bytes2) ->
  (length bytes2 <= length bytes1)%nat.
Proof.
  unfold parseTagNumber, parseBase128Int.
  destruct (tag0 =? 31).
  - destruct (parseBase128Int_loop bytes1 0 0) as [[v r]|] eqn:E; simpl;
      [|discriminate].
    destruct (v <? 31); [discriminate|].
    intros [= <- <-]. apply parseBase128Int_loop_shorter in E. lia.
  - intros [= <- <-]. lia.
Qed.

(** A header takes at least two bytes. *)
Lemma parseTagAndLength_shorter bytes t after :
  parseTagAndLength bytes = Ok (t, after) ->
  (S (length after) < length bytes)%nat.
Proof.
  unfold parseTagAndLength.
  destruct bytes as [|b0 bytes1]; [discriminate|].
  cbv zeta.
  destruct (parseTagNumber _ bytes1) as [[tag bytes2]|] eqn:E; simpl;
    [|discriminate].
  apply parseTagNumber_shorter in E.
  destruct bytes2 as [|b1 bytes3]; [discriminate|].
  destruct (Z.land (byte_to_Z b1) 128 =? 0).
  - intros [= <- <-]. simpl in *. lia.
  - destruct (_ =? 0); [discriminate|].
    destruct (parseLength_loop _ bytes3 0) as [[v r]|] eqn:E2; simpl;
      [|discriminate].
    destruct (v <? 128); [discriminate|].
    intros [= <- <-]. apply parseLength_loop_shorter in E2. simpl in *. lia.
Qed.

(** [parseSequenceOf], first loop: walk the elements, check that each one
    is whole, and count them.  At element type [RawValue] any tag is
    accepted. *)
Equations? countElements (bytes : list byte) : result nat
  by wf (length bytes) lt :=
  countElements [] := Ok O;
  countElements (b0 :: bs) with inspect (parseTagAndLength (b0 :: bs)) := {
    | exist _ (Err e) _ => Err e
    | exist _ (Ok (t, after)) H =>
        if invalidLength (tl_length t) after
        then SyntaxError "truncated sequence"
        else
          let* n := countElements (drop (Z.to_nat (tl_length t)) after) in
          Ok (S n) }.
Proof.
  apply (parseTagAndLength_shorter (b0 :: bs)) in H.
  rewrite length_drop. simpl in *. lia.
Qed.

(** [parseSequenceOf], second loop: [parseField] on each of the
    [numElements] slots. *)
Fixpoint parseElements (numElements : nat) (bytes : list byte)
  : result (list RawValue) :=
  match numElements with
  | O => Ok []
  | S n =>
      let* '(rv, rest) := parseFieldRawValue bytes in
      let* rvs := parseElements n rest in
      Ok (rv :: rvs)
  end.

Definition parseSequenceOf (bytes : list byte) : result (list RawValue) :=
  let* numElements := countElements bytes in
  parseElements numElements bytes.

(** [parseField] at type [[]RawValue]: the header must be a universal,
    constructed SEQUENCE; its content is a sequence of raw values. *)
Definition parseFieldRawValues (bytes : list byte)
  : result (list RawValue * list byte) :=
  match bytes with
  | [] => SyntaxError "sequence truncated"
  | _ :: _ =>
      let* '(t, after) := parseTagAndLength bytes in
      if negb ((tl_class t =? ClassUniversal) && (tl_tag t =? TagSequence))
         || negb (Bool.eqb (tl_isCompound t) true)
      then StructuralError "tags don't match"
      else if invalidLength (tl_length t) after
      then SyntaxError "data truncated"
      else
        let n := Z.to_nat (tl_length t) in
        let innerBytes := take n after in
        let* vals := parseSequenceOf innerBytes in
        Ok (vals, drop n after)
  end.

(** [Unmarshal(b, &v)] for [v] of type [[]RawValue]. *)
Definition UnmarshalRawValues (b : list byte)
  : result (list RawValue * list byte) :=
  parseFieldRawValues b.

End asn1.

(** ** Structures of [crypto/x509/pkix], [crypto/rsa], [encoding/pem] and
    [crypto/x509]

    Only the fields that [certforge.go] writes or reads are kept. *)

(** [time.Time] is carried by its instant, in nanoseconds since the Unix
    epoch; [time.Duration] is an [int64] count of nanoseconds. *)
Definition Time : Type := Z.
Definition Duration : Type := Z.

Module time.
Definition Nanosecond : Duration := 1.
Definition Second : Duration := 1000000000.
Definition Hour : Duration := 3600 * Second.

(** Multiplication of two [Duration]s: [int64] multiplication. *)
Definition mul (a b : Duration) : Duration := wrap64 (a * b).

(** [t.Add(d)]. *)
Definition Add (t : Time) (d : Duration) : Time := t + d.

(** The instant that the ASN.1 time types keep: whole seconds. *)
Definition Unix (t : Time) : Z := t / Second.
End time.

Module pkix.
(** [pkix.Name]. *)
Record Name : Type := mkName {
  CommonName : string;
  Organization : list string;
  OrganizationalUnit : list string;
  Country : list string;
  Province : list string;
  Locality : list string
}.

(** [pkix.Extension]; [Id] is an [asn1.ObjectIdentifier], a slice of
    integers. *)
Record Extension : Type := mkExtension {
  Id : list Z;
  Critical : bool;
  Value : list byte
}.
End pkix.

Module rsa.
Record PublicKey : Type := mkPublicKey { N : Z; E : Z }.
Record PrivateKey : Type := mkPrivateKey {
  Public : PublicKey;
  D : Z;
  Primes : list Z
}.
End rsa.

Module pem.
(** [pem.Block]. *)
Record Block : Type := mkBlock {
  Type_ : string;
  Bytes : list byte
}.
End pem.

Module x509.

(** [x509.KeyUsage]: a bit set. *)
Definition KeyUsageDigitalSignature : Z := Z.shiftl 1 0.
Definition KeyUsageContentCommitment : Z := Z.shiftl 1 1.
Definition KeyUsageKeyEncipherment : Z := Z.shiftl 1 2.
Definition KeyUsageDataEncipherment : Z := Z.shiftl 1 3.
Definition KeyUsageKeyAgreement : Z := Z.shiftl 1 4.
Definition KeyUsageCertSign : Z := Z.shiftl 1 5.
Definition KeyUsageCRLSign : Z := Z.shiftl 1 6.
Definition KeyUsageEncipherOnly : Z := Z.shiftl 1 7.
Definition KeyUsageDecipherOnly : Z := Z.shiftl 1 8.

(** [x509.ExtKeyUsage]. *)
Inductive ExtKeyUsage : Type :=
| ExtKeyUsageAny
| ExtKeyUsageServerAuth
| ExtKeyUsageClientAuth
| ExtKeyUsageCodeSigning
| ExtKeyUsageEmailProtection
| ExtKeyUsageIPSECEndSystem
| ExtKeyUsageIPSECTunnel
| ExtKeyUsageIPSECUser
| ExtKeyUsageTimeStamping
| ExtKeyUsageOCSPSigning
| ExtKeyUsageMicrosoftServerGatedCrypto
| ExtKeyUsageNetscapeServerGatedCrypto
| ExtKeyUsageMicrosoftCommercialCodeSigning
| ExtKeyUsageMicrosoftKernelCodeSigning.

(** [x509.SignatureAlgorithm], by its number. *)
Definition SignatureAlgorithm : Type := Z.
Definition UnknownSignatureAlgorithm : SignatureAlgorithm := 0.
Definition SHA256WithRSA : SignatureAlgorithm := 4.

(** [x509.CertificateRequest]. *)
Record CertificateRequest : Type := mkCertificateRequest {
  csrSubject : pkix.Name;
  csrSignatureAlgorithm : SignatureAlgorithm;
  csrExtensions : list pkix.Extension;
  csrExtraExtensions : list pkix.Extension
}.

(** [x509.Certificate]. *)
Record Certificate : Type := mkCertificate {
  SerialNumber : Z;
  Subject : pkix.Name;
  Issuer : pkix.Name;
  NotBefore : Time;
  NotAfter : Time;
  SignatureAlgorithm_ : SignatureAlgorithm;
  KeyUsage : Z;
  ExtKeyUsage_ : list ExtKeyUsage;
  BasicConstraintsValid : bool;
  DNSNames : list string
}.

(** What [ParsePKCS8PrivateKey] can return: the dynamic type of the key. *)
Inductive PrivateKey : Type :=
| RSAPrivateKey (key : rsa.PrivateKey)
| ECDSAPrivateKey
| Ed25519PrivateKey
| ECDHPrivateKey.

(** [asn1.ObjectIdentifier.Equal]: same length and same arcs. *)
Fixpoint oidEqual (a b : list Z) : bool :=
  match a, b with
  | [], [] => true
  | x :: a', y :: b' => (x =? y) && oidEqual a' b'
  | _, _ => false
  end.

(** The request as [ParseCertificateRequest] returns it from the encoding
    that [CreateCertificateRequest] makes of [template]: the subject and
    the algorithm are those of the template, and the extensions are the
    template's [ExtraExtensions] (the template of the tool sets no other
    field that yields an extension). *)
Definition parsedRequest (template : CertificateRequest) : CertificateRequest :=
  {| csrSubject := csrSubject template;
     csrSignatureAlgorithm := csrSignatureAlgorithm template;
     csrExtensions := csrExtraExtensions template;
     csrExtraExtensions := [] |}.

(** The certificate as [ParseCertificate] returns it from the encoding that
    [CreateCertificate] makes of [template] signed by [parent]: the issuer
    is the parent's subject, the two times are kept to the second, and the
    other fields are the template's. *)
Definition parsedCertificate (template parent : Certificate) : Certificate :=
  {| SerialNumber := SerialNumber template;
     Subject := Subject template;
     Issuer := Subject parent;
     NotBefore := time.Unix (NotBefore template) * time.Second;
     NotAfter := time.Unix (NotAfter template) * time.Second;
     SignatureAlgorithm_ := SHA256WithRSA;
     KeyUsage := KeyUsage template;
     ExtKeyUsage_ := ExtKeyUsage_ template;
     BasicConstraintsValid := BasicConstraintsValid template;
     DNSNames := DNSNames template |}.

End x509.

(** ** The library calls that are kept abstract

    Parsing of files and of the top-level structures, signature checks and
    the [String] methods of the library are operations of the Go libraries;
    the tool only looks at what they return.  They are the methods of the
    classes below. *)

(** [fmt]. [Sscanf_d s] is [fmt.Sscanf(s, "%d", &v)]: [Some n] when [n] was
    stored into [v], [None] when the scan failed and [v] kept its value.
    [Sprint_d] is the verb [%d]. *)
Class Fmt : Type := {
  Sscanf_d : string -> option Z;
  Sprint_d : Z -> string
}.

(** [os.ReadFile], [pem.Decode] and the parsers of [crypto/x509]. *)
Class Decoders : Type := {
  ReadFile : string -> result (list byte);
  pem_Decode : list byte -> option (pem.Block * list byte);
  ParseCertificate : list byte -> result x509.Certificate;
  ParseCertificateRequest : list byte -> result x509.CertificateRequest;
  ParsePKCS1PrivateKey : list byte -> result rsa.PrivateKey;
  ParsePKCS8PrivateKey : list byte -> result x509.PrivateKey
}.

(** The [String] methods and checks that the summaries print. *)
Class Stringers : Type := {
  Name_String : pkix.Name -> string;
  SignatureAlgorithm_String : x509.SignatureAlgorithm -> string;
  BigInt_String : Z -> string;
  Time_Format : string -> Time -> string;
  CheckSignature : x509.CertificateRequest -> option string;
  BitLen : Z -> Z;
  MarshalPKIXPublicKey : rsa.PublicKey -> result (list byte);
  Sum256_hex : list byte -> string;
  Validate : rsa.PrivateKey -> option string
}.

(** ** [certforge.go] *)

(** The newline character, and [fmt.Println] of one string. *)
Definition nl : string := String "010"%char EmptyString.
Definition Println (s : string) : string := s +:+ nl.

(** The verb [%t]. *)
Definition Sprint_t (b : bool) : string := if b then "true" else "false".

(** [strings.Join]. *)
Fixpoint Join (elems : list string) (sep : string) : string :=
  match elems with
  | [] => ""
  | [a] => a
  | a :: rest => a +:+ sep +:+ Join rest sep
  end.

(** [strings.Contains]: [substr] occurs in [s]. *)
Fixpoint strings_Contains (s substr : string) : bool :=
  if String.prefix substr s then true
  else match s with
       | EmptyString => false
       | String _ s' => strings_Contains s' substr
       end.

(** [contains] (lines 30-37). *)
Fixpoint contains (slice : list string) (str : string) : bool :=
  match slice with
  | [] => false
  | item :: rest => if String.eqb item str then true else contains rest str
  end.

(** A [for _, x := range xs { parts = append(parts, f(x)) }] loop. *)
Definition appendEach {A B} (f : A -> B) (xs : list A) (parts : list B) : list B :=
  fold_left (fun parts x => parts ++ [f x]) xs parts.

(** [formatName] (lines 234-262). *)
Definition formatName (name : pkix.Name) : string :=
  let parts := [] in
  let parts :=
    if negb (String.eqb (pkix.CommonName name) "")
    then parts ++ ["CN=" +:+ pkix.CommonName name]
    else parts in
  let parts := appendEach (fun org => "O=" +:+ org) (pkix.Organization name) parts in
  let parts := appendEach (fun ou => "OU=" +:+ ou) (pkix.OrganizationalUnit name) parts in
  let parts := appendEach (fun country => "C=" +:+ country) (pkix.Country name) parts in
  let parts := appendEach (fun province => "ST=" +:+ province) (pkix.Province name) parts in
  let parts := appendEach (fun locality => "L=" +:+ locality) (pkix.Locality name) parts in
  Join parts ", ".

(** The object identifier of the subjectAltName extension. *)
Definition oidSubjectAltName : list Z := [2; 5; 29; 17].

(** [printCSRInfo], the body of the loop over [csr.Extensions]
    (lines 178-195): the names that one extension adds to [dnsNames]. *)
Definition extensionDNSNames (ext : pkix.Extension) (dnsNames : list string)
  : list string :=
  if x509.oidEqual (pkix.Id ext) oidSubjectAltName then
    match asn1.UnmarshalRawValue (pkix.Value ext) with
    | Ok (seq, rest) =>
        if (len rest =? 0) then
          if (asn1.Class seq =? asn1.ClassUniversal)
             && (asn1.Tag seq =? asn1.TagSequence) then
            match asn1.UnmarshalRawValues (asn1.Bytes seq) with
            | Ok (rawValues, rest) =>
                if (len rest =? 0) then
                  fold_left
                    (fun dnsNames rv =>
                       if (asn1.Class rv =? 2) && (asn1.Tag rv =? 2)
                       then dnsNames ++ [string_of_bytes (asn1.Bytes rv)]
                       else dnsNames)
                    rawValues dnsNames
                else dnsNames
            | Err _ => dnsNames
            end
          else dnsNames
        else dnsNames
    | Err _ => dnsNames
    end
  else dnsNames.

(** [printCSRInfo], lines 176-195: the value of [dnsNames] after the loop. *)
Definition csrDNSNames (csr : x509.CertificateRequest) : list string :=
  fold_left (fun dnsNames ext => extensionDNSNames ext dnsNames)
    (x509.csrExtensions csr) [].

Section Summaries.
Context `{Stringers} `{Fmt}.

Definition RFC3339 : string := "2006-01-02T15:04:05Z07:00".

(** [printCertificateInfo], line 114. *)
Definition isSelfSigned (cert : x509.Certificate) : bool :=
  String.eqb (Name_String (x509.Subject cert)) (Name_String (x509.Issuer cert)).

(** One [if cert.KeyUsage&bit != 0 { fmt.Println(label) }]. *)
Definition keyUsageLine (keyUsage bit : Z) (label : string) : list string :=
  if negb (Z.land keyUsage bit =? 0) then [Println label] else [].

(** [printCertificateInfo], lines 118-145. *)
Definition keyUsageLines (keyUsage : Z) : list string :=
  keyUsageLine keyUsage x509.KeyUsageDigitalSignature "  Digital Signature"
  ++ keyUsageLine keyUsage x509.KeyUsageContentCommitment "  Content Commitment"
  ++ keyUsageLine keyUsage x509.KeyUsageKeyEncipherment "  Key Encipherment"
  ++ keyUsageLine keyUsage x509.KeyUsageDataEncipherment "  Data Encipherment"
  ++ keyUsageLine keyUsage x509.KeyUsageKeyAgreement "  Key Agreement"
  ++ keyUsageLine keyUsage x509.KeyUsageCertSign "  Certificate Sign"
  ++ keyUsageLine keyUsage x509.KeyUsageCRLSign "  CRL Sign"
  ++ keyUsageLine keyUsage x509.KeyUsageEncipherOnly "  Encipher Only"
  ++ keyUsageLine keyUsage x509.KeyUsageDecipherOnly "  Decipher Only".

(** [printCertificateInfo], the [switch usage] of lines 151-164. *)
Definition extKeyUsageLine (usage : x509.ExtKeyUsage) : list string :=
  match usage with
  | x509.ExtKeyUsageServerAuth => [Println "  Server Authentication"]
  | x509.ExtKeyUsageClientAuth => [Println "  Client Authentication"]
  | x509.ExtKeyUsageCodeSigning => [Println "  Code Signing"]
  | x509.ExtKeyUsageEmailProtection => [Println "  Email Protection"]
  | x509.ExtKeyUsageTimeStamping => [Println "  Time Stamping"]
  | x509.ExtKeyUsageOCSPSigning => [Println "  OCSP Signing"]
  | _ => []
  end.

(** [printCertificateInfo], lines 147-166. *)
Definition extKeyUsageLines (usages : list x509.ExtKeyUsage) : list string :=
  if 0 <? len usages then
    Println (nl +:+ "Extended Key Usage:") :: flat_map extKeyUsageLine usages
  else [].

(** The block that prints the DNS names (lines 105-111 and 197-203). *)
Definition dnsNameLines (dnsNames : list string) : list string :=
  if 0 <? len dnsNames then
    Println (nl +:+ "Subject Alternative Names:")
    :: map (fun name => "  DNS: " +:+ name +:+ nl) dnsNames
  else [].

(** [printCertificateInfo] (lines 96-167): what it writes, call by call. *)
Definition printCertificateInfo (cert : x509.Certificate) : list string :=
  [ Println ("=== Certificate Information ===" +:+ nl);
    "Subject: " +:+ formatName (x509.Subject cert) +:+ nl;
    "Issuer: " +:+ formatName (x509.Issuer cert) +:+ nl;
    "Serial Number: " +:+ BigInt_String (x509.SerialNumber cert) +:+ nl;
    "Not Before: " +:+ Time_Format RFC3339 (x509.NotBefore cert) +:+ nl;
    "Not After: " +:+ Time_Format RFC3339 (x509.NotAfter cert) +:+ nl;
    "Signature Algorithm: "
      +:+ SignatureAlgorithm_String (x509.SignatureAlgorithm_ cert) +:+ nl ]
  ++ dnsNameLines (x509.DNSNames cert)
  ++ [ nl +:+ "Self-signed: " +:+ Sprint_t (isSelfSigned cert) +:+ nl;
       Println (nl +:+ "Key Usage:") ]
  ++ keyUsageLines (x509.KeyUsage cert)
  ++ extKeyUsageLines (x509.ExtKeyUsage_ cert).

(** [printCSRInfo], lines 205-210. *)
Definition signatureLines (csr : x509.CertificateRequest) : list string :=
  match CheckSignature csr with
  | None => [nl +:+ "Signature Valid: " +:+ Sprint_t true +:+ nl]
  | Some err =>
      [nl +:+ "Signature Valid: " +:+ Sprint_t false +:+ nl;
       "Signature Error: " +:+ err +:+ nl]
  end.

(** [printCSRInfo] (lines 170-211). *)
Definition printCSRInfo (csr : x509.CertificateRequest) : list string :=
  [ Println ("=== Certificate Signing Request Information ===" +:+ nl);
    "Subject: " +:+ formatName (x509.csrSubject csr) +:+ nl;
    "Signature Algorithm: "
      +:+ SignatureAlgorithm_String (x509.csrSignatureAlgorithm csr) +:+ nl ]
  ++ dnsNameLines (csrDNSNames csr)
  ++ signatureLines csr.

(** [printRSAKeyInfo] (lines 214-231). *)
Definition printRSAKeyInfo (key : rsa.PrivateKey) : list string :=
  [ Println ("=== RSA Private Key Information ===" +:+ nl);
    "Key Size: " +:+ Sprint_d (BitLen (rsa.N (rsa.Public key))) +:+ " bits" +:+ nl;
    "Public Exponent: " +:+ Sprint_d (rsa.E (rsa.Public key)) +:+ nl ]
  ++ match MarshalPKIXPublicKey (rsa.Public key) with
     | Ok pubDER =>
         ["Public Key Fingerprint (SHA-256): " +:+ Sum256_hex pubDER +:+ nl]
     | Err _ => []
     end
  ++ match Validate key with
     | Some err => [nl +:+ "Key Validation Error: " +:+ err +:+ nl]
     | None => [Println (nl +:+ "Key is valid")]
     end.

Context `{Decoders}.

(** [decodeFile] (lines 40-93).  [Ok out] is the return of [nil] after
    [out] was written; [Err msg] is the return of an error. *)
Definition decodeFile (filePath : string) : result (list string) :=
  match ReadFile filePath with
  | Err err => Err ("Error reading file: " +:+ err)
  | Ok data =>
      match pem_Decode data with
      | None => Err "Failed to parse PEM block from file"
      | Some (block, _) =>
          if String.eqb (pem.Type_ block) "CERTIFICATE" then
            match ParseCertificate (pem.Bytes block) with
            | Err err => Err ("Failed to parse certificate: " +:+ err)
            | Ok cert => Ok (printCertificateInfo cert)
            end
          else if String.eqb (pem.Type_ block) "CERTIFICATE REQUEST" then
            match ParseCertificateRequest (pem.Bytes block) with
            | Err err => Err ("Failed to parse CSR: " +:+ err)
            | Ok csr => Ok (printCSRInfo csr)
            end
          else if String.eqb (pem.Type_ block) "RSA PRIVATE KEY" then
            match ParsePKCS1PrivateKey (pem.Bytes block) with
            | Err err => Err ("Failed to parse RSA private key: " +:+ err)
            | Ok key => Ok (printRSAKeyInfo key)
            end
          else if String.eqb (pem.Type_ block) "PRIVATE KEY" then
            match ParsePKCS8PrivateKey (pem.Bytes block) with
            | Err err => Err ("Failed to parse private key: " +:+ err)
            | Ok (x509.RSAPrivateKey rsaKey) => Ok (printRSAKeyInfo rsaKey)
            | Ok _ => Err "Unsupported private key type"
            end
          else Err ("Unsupported PEM block type: " +:+ pem.Type_ block)
      end
  end.

End Summaries.


(** *** [main]: the generation path (lines 362-651)

    The command-line flags and the answers read from standard input are the
    inputs.  An answer is the value of its variable after
    [strings.TrimSpace] (and [strings.ToLower] where [main] lowers it).
    The clock, the random numbers, the library calls that can fail and the
    file system are the methods of the class [System] below. *)

Record Flags : Type := mkFlags {
  selfSignedFlag : bool;
  daysFlag : Z;
  outputDirFlag : string
}.

Record Answers : Type := mkAnswers {
  commonName : string;
  organization : string;
  organizationalUnit : string;
  country : string;
  state : string;
  locality : string;
  emailAddress : string;
  keySizeStr : string;
  filePrefix : string;
  selfSigned : string;
  validDaysStr : string;
  addSANs : string;
  sanLines : list string
}.

(** [validSizes := map[int]bool{2048: true, 3072: true, 4096: true}]. *)
Definition validSizes : gmap Z bool :=
  <[2048 := true]> (<[3072 := true]> (<[4096 := true]> ∅)).

(** Indexing a Go map: the zero value when the key is missing. *)
Definition mapIndex (m : gmap Z bool) (k : Z) : bool := default false (m !! k).

Section Generation.
Context `{Fmt}.

(** Lines 404-416: the key size. *)
Definition main_keySize (keySizeStr : string) : Z :=
  let keySize := 2048 in
  if negb (String.eqb keySizeStr "") then
    let keySize :=
      match Sscanf_d keySizeStr with Some n => n | None => keySize end in
    if negb (mapIndex validSizes keySize) then 2048 else keySize
  else keySize.

(** Lines 427-436: whether a self-signed certificate is made. *)
Definition main_createSelfsigned (flags : Flags) (selfSigned : string) : bool :=
  let createSelfsigned := selfSignedFlag flags in
  if negb (selfSignedFlag flags)
  then String.eqb selfSigned "y" || String.eqb selfSigned "yes"
  else createSelfsigned.

(** Lines 428 and 438-450: the validity, in days. *)
Definition main_validDays (flags : Flags) (createSelfsigned : bool)
    (validDaysStr : string) : Z :=
  let validDays := daysFlag flags in
  if createSelfsigned && negb (selfSignedFlag flags) then
    if negb (String.eqb validDaysStr "") then
      let validDays :=
        match Sscanf_d validDaysStr with Some n => n | None => validDays end in
      if validDays <=? 0 then 365 else validDays
    else validDays
  else validDays.

(** Lines 460-467: the names are read until a blank line (or the end of
    the input, where the read returns the empty string). *)
Fixpoint readSANs (lines : list string) : list string :=
  match lines with
  | [] => []
  | san :: rest => if String.eqb san "" then [] else san :: readSANs rest
  end.

(** Lines 452-468. *)
Definition main_sans (addSANs : string) (lines : list string) : list string :=
  if String.eqb addSANs "y" || String.eqb addSANs "yes"
  then readSANs lines
  else [].

(** Lines 479-486. *)
Definition main_subj (a : Answers) : pkix.Name :=
  {| pkix.CommonName := commonName a;
     pkix.Organization := [organization a];
     pkix.OrganizationalUnit := [organizationalUnit a];
     pkix.Country := [country a];
     pkix.Province := [state a];
     pkix.Locality := [locality a] |}.

(** Lines 496-511: the subjectAltName extension.  An error of
    [asn1.Marshal] ends the run. *)
Definition sanExtension (sans : list string) : result pkix.Extension :=
  let rawValues :=
    appendEach
      (fun san => asn1.mkRawValue 2 2 false (bytes_of_string san) [])
      sans [] in
  match asn1.Marshal rawValues with
  | Err err => Err ("Error encoding SANs: " +:+ err)
  | Ok sequence =>
      Ok {| pkix.Id := [2; 5; 29; 17];
            pkix.Critical := false;
            pkix.Value := sequence |}
  end.

(** Lines 489-514: the request template. *)
Definition main_template (subj : pkix.Name) (sans : list string)
  : result x509.CertificateRequest :=
  let template :=
    {| x509.csrSubject := subj;
       x509.csrSignatureAlgorithm := x509.SHA256WithRSA;
       x509.csrExtensions := [];
       x509.csrExtraExtensions := [] |} in
  if 0 <? len sans then
    let* sanExtension := sanExtension sans in
    Ok {| x509.csrSubject := x509.csrSubject template;
          x509.csrSignatureAlgorithm := x509.csrSignatureAlgorithm template;
          x509.csrExtensions := x509.csrExtensions template;
          x509.csrExtraExtensions := [sanExtension] |}
  else Ok template.

(** Lines 587-588: [notBefore.Add(time.Duration(validDays) * 24 * time.Hour)]. *)
Definition main_notAfter (notBefore : Time) (validDays : Z) : Time :=
  time.Add notBefore (time.mul (time.mul (wrap64 validDays) 24) time.Hour).

(** Lines 597-615: the certificate template. *)
Definition main_certTemplate (serialNumber : Z) (subj : pkix.Name)
    (notBefore : Time) (validDays : Z) (sans : list string)
    (commonName : string) : x509.Certificate :=
  let notAfter := main_notAfter notBefore validDays in
  let dnsNames := [] in
  let dnsNames := if 0 <? len sans then sans else dnsNames in
  let dnsNames :=
    if negb (contains dnsNames commonName) && strings_Contains commonName "."
    then dnsNames ++ [commonName]
    else dnsNames in
  {| x509.SerialNumber := serialNumber;
     x509.Subject := subj;
     x509.Issuer := pkix.mkName "" [] [] [] [] [];
     x509.NotBefore := notBefore;
     x509.NotAfter := notAfter;
     x509.SignatureAlgorithm_ := x509.UnknownSignatureAlgorithm;
     x509.KeyUsage :=
       Z.lor x509.KeyUsageKeyEncipherment x509.KeyUsageDigitalSignature;
     x509.ExtKeyUsage_ := [x509.ExtKeyUsageServerAuth];
     x509.BasicConstraintsValid := true;
     x509.DNSNames := dnsNames |}.

(** What one run of the generation path yields when it reaches its end:
    the key size asked of [rsa.GenerateKey], the request as a decoder reads
    it back, and the certificate as a decoder reads it back when one is
    made. *)
Record Outcome : Type := mkOutcome {
  outKeySize : Z;
  outSANs : list string;
  outValidDays : Z;
  outCSR : x509.CertificateRequest;
  outCertificate : option x509.Certificate
}.

End Generation.

(** ** [main] as a whole: the command line, the files and the output

    The run is a function of a world: the files on disk, by path, and what
    was written to standard output, call by call.  [os.Exit(1)] ends the run
    with code 1; a return from [main] ends it with code 0. *)

(** Line 27: the value of [version] when the build does not set it. *)
Definition version : string := "development".

(** [printHelp] (lines 265-325): what it writes, call by call. *)
Definition printHelp : list string :=
  [
    Println "CertForge - TLS Certificate Generator";
    Println "----------------------------------";
    Println (nl +:+ "Description:");
    Println "  CertForge is a tool for generating SSL/TLS certificates and keys.";
    Println "  It can create Certificate Signing Requests (CSRs) for submission to a CA";
    Println "  or generate self-signed certificates for development and testing.";
    Println (nl +:+ "Usage:");
    Println "  certforge [options]";
    Println "  certforge --decode <file>";
    Println (nl +:+ "Options:");
    Println "  -h, --help      Show this help message and exit";
    Println "  -v, --version   Show version information";
    Println "  -s              Create a self-signed certificate instead of just CSR";
    Println "  -days=<number>  Validity period in days for self-signed certificates (default: 365)";
    Println "  -o=<directory>  Output directory for generated files (default: current directory)";
    Println "  --decode <file> Decode and display information about a certificate, CSR, or key file";
    Println (nl +:+ "Features:");
    Println "  - RSA private key generation with customizable key size";
    Println "  - Certificate Signing Request (CSR) creation";
    Println "  - Self-signed certificate generation";
    Println "  - Subject Alternative Names (SANs) support";
    Println "  - Interactive prompts for all required certificate fields";
    Println "  - Decoding of certificate, CSR, and key files";
    Println (nl +:+ "Output Files:");
    Println "  - <prefix>.key  Private key file";
    Println "  - <prefix>.csr  Certificate Signing Request file";
    Println "  - <prefix>.crt  Self-signed certificate file (if selected)";
    Println (nl +:+ "Examples:");
    Println "  # Generate a certificate interactively";
    Println "  certforge";
    Println "  # Generate a self-signed certificate with 2-year validity";
    Println "  certforge -s -days=730";
    Println "  # Generate certificates in a specific directory";
    Println "  certforge -o=/path/to/certs";
    Println "  # Generate a self-signed certificate in a specific directory";
    Println "  certforge -s -o=/path/to/certs";
    Println "  # Decode and display information about a certificate";
    Println "  certforge --decode cert.crt";
    Println "  # Decode and display information about a CSR";
    Println "  certforge --decode cert.csr";
    Println "  # Decode and display information about a private key";
    Println "  certforge --decode cert.key";
    Println "  # Check the details of a generated certificate using OpenSSL";
    Println "  openssl x509 -in cert.crt -text -noout";
    Println "  # View a generated CSR using OpenSSL";
    Println "  openssl req -in cert.csr -text -noout" ].

(** The flags of lines 329-336; the three that the generation path reads are
    the [Flags] above. *)
Record CommandLine : Type := mkCommandLine {
  helpFlag : bool;
  shortHelpFlag : bool;
  versionFlag : bool;
  shortVersionFlag : bool;
  decodeFlag : string;
  generationFlags : Flags
}.

Record World : Type := mkWorld {
  files : gmap string (list byte);
  stdout : list string
}.

Inductive step (A : Type) : Type :=
| Next (a : A) (w : World)
| Exit (code : Z) (w : World).
Arguments Next {A} a w.
Arguments Exit {A} code w.

Definition M (A : Type) : Type := World -> step A.

Definition ret {A} (a : A) : M A := fun w => Next a w.

Definition bindM {A B} (m : M A) (k : A -> M B) : M B :=
  fun w => match m w with
           | Next a w' => k a w'
           | Exit code w' => Exit code w'
           end.

Notation "'run*' x ':=' m 'in' k" := (bindM m (fun x => k))
  (at level 10, x name, m at level 100, k at level 200, only parsing).

Definition worldOf {A} (s : step A) : World :=
  match s with Next _ w => w | Exit _ w => w end.

Definition codeOf {A} (s : step A) : Z :=
  match s with Next _ _ => 0 | Exit code _ => code end.

(** One [fmt.Print], [fmt.Println] or [fmt.Printf] call. *)
Definition write (s : string) (w : World) : World :=
  mkWorld (files w) (stdout w ++ [s]).

Definition Print (s : string) : M unit := fun w => Next tt (write s w).

Definition PrintAll (ss : list string) : M unit :=
  fun w => Next tt (mkWorld (files w) (stdout w ++ ss)).

(** [if err != nil { fmt.Printf(report, err); os.Exit(1) }]. *)
Definition orExit {A} (r : result A) (report : string) : M A :=
  fun w => match r with
           | Ok a => Next a w
           | Err err => Exit 1 (write (report +:+ err +:+ nl) w)
           end.

(** The calls into the operating system and the libraries that the
    generation path makes.  [Create_error] and [MkdirAll_error] tell which
    paths cannot be created, [Write_error] which writes fail and what had
    reached the file by then; [pem_EncodeToBytes] is what [pem.Encode]
    writes for a block. *)
Class System : Type := {
  GenerateKey : Z -> result rsa.PrivateKey;
  MarshalPKCS1PrivateKey : rsa.PrivateKey -> list byte;
  CreateCertificateRequest :
    x509.CertificateRequest -> rsa.PrivateKey -> result (list byte);
  CreateCertificate :
    x509.Certificate -> x509.Certificate -> rsa.PublicKey -> rsa.PrivateKey ->
    result (list byte);
  rand_Int : Z -> result Z;
  time_Now : Time;
  pem_EncodeToBytes : pem.Block -> list byte;
  filepath_Join : string -> string -> string;
  MkdirAll_error : string -> option string;
  Create_error : string -> option string;
  Write_error : string -> list byte -> option (string * list byte)
}.

Section Run.
Context `{Fmt} `{Stringers} `{Decoders} `{System}.

(** [os.Create(path)] followed by the error check: the file is there and
    empty, or the run ends. *)
Definition createFile (path : string) (report : string) : M unit :=
  fun w => match Create_error path with
           | Some err => Exit 1 (write (report +:+ err +:+ nl) w)
           | None => Next tt (mkWorld (<[path := []]> (files w)) (stdout w))
           end.

(** [pem.Encode(file, block)] followed by the error check. *)
Definition encodeTo (path : string) (block : pem.Block) (report : string)
  : M unit :=
  fun w => match Write_error path (pem_EncodeToBytes block) with
           | Some (err, written) =>
               Exit 1 (write (report +:+ err +:+ nl)
                         (mkWorld (<[path := written]> (files w)) (stdout w)))
           | None =>
               Next tt (mkWorld (<[path := pem_EncodeToBytes block]> (files w))
                          (stdout w))
           end.

(** Lines 408-416: the notice about the key size. *)
Definition keySizeNotice (keySizeStr : string) : list string :=
  if negb (String.eqb keySizeStr "") then
    let keySize :=
      match Sscanf_d keySizeStr with Some n => n | None => 2048 end in
    if negb (mapIndex validSizes keySize)
    then [Println "Invalid key size. Using default: 2048"]
    else []
  else [].

(** Lines 443-449: the notice about the validity. *)
Definition validDaysNotice (flags : Flags) (validDaysStr : string) : list string :=
  if negb (String.eqb validDaysStr "") then
    let validDays :=
      match Sscanf_d validDaysStr with
      | Some n => n
      | None => daysFlag flags
      end in
    if validDays <=? 0
    then [Println "Invalid validity period. Using default: 365 days"]
    else []
  else [].

(** Lines 362-468: what the prompts write. *)
Definition promptOutput (flags : Flags) (a : Answers) : list string :=
  [ Println "CertForge - TLS Certificate Generator";
    Println "----------------------------------";
    "Common Name (domain name, e.g. example.com): ";
    "Organization (e.g. Company Inc): ";
    "Organizational Unit (e.g. IT Department): ";
    "Country (2 letter code, e.g. US): ";
    "State/Province (e.g. California): ";
    "Locality/City (e.g. San Francisco): ";
    "Email Address: ";
    "RSA Key Size (2048, 3072, or 4096) [default: 2048]: " ]
  ++ keySizeNotice (keySizeStr a)
  ++ [ "Output file prefix [default: cert]: " ]
  ++ (if negb (selfSignedFlag flags)
      then [ nl +:+ "Do you want to create a self-signed certificate? [y/N]: " ]
      else [])
  ++ (if main_createSelfsigned flags (selfSigned a) && negb (selfSignedFlag flags)
      then "Certificate validity in days [default: 365]: "
           :: validDaysNotice flags (validDaysStr a)
      else [])
  ++ [ Println (nl +:+ "Do you want to add Subject Alternative Names (SANs)? [y/N]: ") ]
  ++ (if String.eqb (addSANs a) "y" || String.eqb (addSANs a) "yes"
      then [ Println "Enter Subject Alternative Names (one per line, blank line to finish):" ]
      else []).

(** Lines 419-424. *)
Definition main_filePrefix (a : Answers) : string :=
  if String.eqb (filePrefix a) "" then "cert" else filePrefix a.

(** Lines 533-542: the paths of the key, the request and the certificate. *)
Definition main_paths (flags : Flags) (a : Answers) : string * string * string :=
  let outputDir := outputDirFlag flags in
  let keyPath := main_filePrefix a +:+ ".key" in
  let csrPath := main_filePrefix a +:+ ".csr" in
  let crtPath := main_filePrefix a +:+ ".crt" in
  if negb (String.eqb outputDir "") then
    (filepath_Join outputDir keyPath, filepath_Join outputDir csrPath,
     filepath_Join outputDir crtPath)
  else (keyPath, csrPath, crtPath).

Definition keyPathOf flags a : string := fst (fst (main_paths flags a)).
Definition csrPathOf flags a : string := snd (fst (main_paths flags a)).
Definition crtPathOf flags a : string := snd (main_paths flags a).

(** Lines 470-521: the key and the encoded request. *)
Definition main_build (a : Answers)
  : M (rsa.PrivateKey * list byte) :=
  let keySize := main_keySize (keySizeStr a) in
  let sans := main_sans (addSANs a) (sanLines a) in
  run* _p := Print (nl +:+ "Generating RSA private key (" +:+ Sprint_d keySize
                    +:+ " bits)..." +:+ nl) in
  run* privateKey :=
    orExit (GenerateKey keySize) "Error generating private key: " in
  let subj := main_subj a in
  run* template := orExit (main_template subj sans) "" in
  run* _p :=
    (if 0 <? len sans
     then Print ("Added " +:+ Sprint_d (len sans)
                 +:+ " Subject Alternative Names to the CSR" +:+ nl)
     else ret tt) in
  run* csrBytes :=
    orExit (CreateCertificateRequest template privateKey) "Error creating CSR: " in
  ret (privateKey, csrBytes).

(** Lines 523-582: the output directory, the key file and the request
    file. *)
Definition main_save (flags : Flags) (a : Answers)
    (privateKey : rsa.PrivateKey) (csrBytes : list byte) : M unit :=
  let outputDir := outputDirFlag flags in
  run* _d :=
    (if negb (String.eqb outputDir "")
     then orExit (match MkdirAll_error outputDir with
                  | Some err => Err err
                  | None => Ok tt
                  end) "Error creating output directory: "
     else ret tt) in
  let keyPath := keyPathOf flags a in
  let csrPath := csrPathOf flags a in
  run* _c := createFile keyPath "Error creating key file: " in
  run* _e :=
    encodeTo keyPath
      (pem.mkBlock "RSA PRIVATE KEY" (MarshalPKCS1PrivateKey privateKey))
      "Error encoding private key: " in
  run* _c := createFile csrPath "Error creating CSR file: " in
  run* _e :=
    encodeTo csrPath (pem.mkBlock "CERTIFICATE REQUEST" csrBytes)
      "Error encoding CSR: " in
  run* _p := Print (Println (nl +:+ "Success!")) in
  run* _p := Print ("Private key saved to: " +:+ keyPath +:+ nl) in
  Print ("CSR saved to: " +:+ csrPath +:+ nl).

(** Lines 584-648: the self-signed certificate, or the closing advice. *)
Definition main_certificate (flags : Flags) (a : Answers)
    (privateKey : rsa.PrivateKey) : M unit :=
  let createSelfsigned := main_createSelfsigned flags (selfSigned a) in
  let validDays := main_validDays flags createSelfsigned (validDaysStr a) in
  let sans := main_sans (addSANs a) (sanLines a) in
  let crtPath := crtPathOf flags a in
  if createSelfsigned then
    let notBefore := time_Now in
    let notAfter := main_notAfter notBefore validDays in
    run* serialNumber :=
      orExit (rand_Int (Z.shiftl 1 128)) "Failed to generate serial number: " in
    let certTemplate :=
      main_certTemplate serialNumber (main_subj a) notBefore validDays sans
        (commonName a) in
    run* derBytes :=
      orExit (CreateCertificate certTemplate certTemplate
                (rsa.Public privateKey) privateKey)
        "Failed to create certificate: " in
    run* _c := createFile crtPath "Failed to create certificate file: " in
    run* _e :=
      encodeTo crtPath (pem.mkBlock "CERTIFICATE" derBytes)
        "Failed to encode certificate: " in
    run* _p := Print ("Self-signed certificate saved to: " +:+ crtPath +:+ nl) in
    Print ("Certificate is valid for " +:+ Sprint_d validDays +:+ " days (until "
           +:+ Time_Format "2006-01-02" notAfter +:+ ")" +:+ nl)
  else
    Print (Println (nl +:+ "You can now submit the CSR file to your Certificate Authority.")).

(** Lines 362-651: the generation path. *)
Definition main_generation (flags : Flags) (a : Answers) : M unit :=
  run* _p := PrintAll (promptOutput flags a) in
  run* built := main_build a in
  run* _s := main_save flags a (fst built) (snd built) in
  run* _c := main_certificate flags a (fst built) in
  Print (Println "Keep your private key file secure and do not share it with anyone.").

(** [main] (lines 327-651). *)
Definition main (cl : CommandLine) (a : Answers) : M unit :=
  if helpFlag cl || shortHelpFlag cl then PrintAll printHelp
  else if versionFlag cl || shortVersionFlag cl
  then Print ("CertForge " +:+ version +:+ nl)
  else if negb (String.eqb (decodeFlag cl) "") then
    match decodeFile (decodeFlag cl) with
    | Err err => fun w => Exit 1 (write ("Error: " +:+ err +:+ nl) w)
    | Ok out => PrintAll out
    end
  else main_generation (generationFlags cl) a.

(** [if err != nil { fmt.Printf(report, err); os.Exit(1) }], as to the
    outcome: the run ends there with the report. *)
Definition orFail {A} (r : result A) (report : string) : result A :=
  match r with
  | Ok a => Ok a
  | Err err => Err (report +:+ err)
  end.

(** [os.Create(path)] and [pem.Encode(file, block)] with their error
    checks, as to the outcome. *)
Definition fileSaved (path : string) (block : pem.Block)
    (createReport encodeReport : string) : result unit :=
  match Create_error path with
  | Some err => Err (createReport +:+ err)
  | None =>
      match Write_error path (pem_EncodeToBytes block) with
      | Some (err, _) => Err (encodeReport +:+ err)
      | None => Ok tt
      end
  end.

(** [main], generation path (lines 404-651), as to what it produces.  Every
    call that can end the run with [os.Exit(1)] is made in the order of the
    source, and its error is the result; when the run reaches its end the
    result is the outcome.  [x509.CreateCertificate] is called with the
    template as both template and parent (lines 618-619). *)
Definition main_generate (flags : Flags) (a : Answers) : result Outcome :=
  let keySize := main_keySize (keySizeStr a) in
  let createSelfsigned := main_createSelfsigned flags (selfSigned a) in
  let validDays := main_validDays flags createSelfsigned (validDaysStr a) in
  let sans := main_sans (addSANs a) (sanLines a) in
  let* privateKey :=
    orFail (GenerateKey keySize) "Error generating private key: " in
  let subj := main_subj a in
  let* template := main_template subj sans in
  let* csrBytes :=
    orFail (CreateCertificateRequest template privateKey) "Error creating CSR: " in
  let outputDir := outputDirFlag flags in
  let* _d :=
    (if negb (String.eqb outputDir "")
     then orFail (match MkdirAll_error outputDir with
                  | Some err => Err err
                  | None => Ok tt
                  end) "Error creating output directory: "
     else Ok tt) in
  let* _k :=
    fileSaved (keyPathOf flags a)
      (pem.mkBlock "RSA PRIVATE KEY" (MarshalPKCS1PrivateKey privateKey))
      "Error creating key file: " "Error encoding private key: " in
  let* _r :=
    fileSaved (csrPathOf flags a) (pem.mkBlock "CERTIFICATE REQUEST" csrBytes)
      "Error creating CSR file: " "Error encoding CSR: " in
  let csr := x509.parsedRequest template in
  if createSelfsigned then
    let notBefore := time_Now in
    let* serialNumber :=
      orFail (rand_Int (Z.shiftl 1 128)) "Failed to generate serial number: " in
    let certTemplate :=
      main_certTemplate serialNumber subj notBefore validDays sans
        (commonName a) in
    let* derBytes :=
      orFail (CreateCertificate certTemplate certTemplate
                (rsa.Public privateKey) privateKey)
        "Failed to create certificate: " in
    let* _c :=
      fileSaved (crtPathOf flags a) (pem.mkBlock "CERTIFICATE" derBytes)
        "Failed to create certificate file: " "Failed to encode certificate: " in
    Ok {| outKeySize := keySize;
          outSANs := sans;
          outValidDays := validDays;
          outCSR := csr;
          outCertificate :=
            Some (x509.parsedCertificate certTemplate certTemplate) |}
  else
    Ok {| outKeySize := keySize;
          outSANs := sans;
          outValidDays := validDays;
          outCSR := csr;
          outCertificate := None |}.

End Run.

(** ** DER, as X.690 words it

    The definite-length encoding of a value: an identifier octet (class in
    the two high bits, then the constructed bit, then the tag number when it
    is below 31), the length octets (one octet below 128; else the count of
    base-256 digits with the high bit set, then the digits, most significant
    first, without leading zeros), and the content. *)

Module DER.

Definition identifier (class : Z) (constructed : bool) (tag : Z) : byte :=
  Z_to_byte (class * 64 + (if constructed then 32 else 0) + tag).

(** The [k] low base-256 digits of [n], most significant first. *)
Fixpoint digits (k : nat) (n : Z) : list byte :=
  match k with
  | O => []
  | S k' => Z_to_byte (n / 256 ^ Z.of_nat k') :: digits k' n
  end.

(** The number of base-256 digits of [n]. *)
Definition numDigits (n : Z) : Z := Z.log2 n / 8 + 1.

Definition lengthOctets (n : Z) : list byte :=
  if n <? 128 then [Z_to_byte n]
  else Z_to_byte (128 + numDigits n) :: digits (Z.to_nat (numDigits n)) n.

Definition tlv (class : Z) (constructed : bool) (tag : Z) (content : list byte)
  : list byte :=
  identifier class constructed tag :: lengthOctets (len content) ++ content.

(** A raw value with tag 2 in the context-specific class (class 2), whose
    content is the bytes of the name. *)
Definition dNSName (name : string) : list byte :=
  tlv 2 false 2 (bytes_of_string name).

(** A SEQUENCE (universal class, constructed, tag 16) of the names, in
    order. *)
Definition sequenceOfNames (names : list string) : list byte :=
  tlv 0 true 16 (concat (map dNSName names)).

End DER.

(** ** Notions used in the statements *)

(** The raw value that lines 501-503 make of one name. *)
Definition dnsRawValue (san : string) : asn1.RawValue :=
  asn1.mkRawValue 2 2 false (bytes_of_string san) [].

(** The raw value that [parseField] returns for an encoded name. *)
Definition parsedDNSValue (san : string) : asn1.RawValue :=
  asn1.mkRawValue 2 2 false (bytes_of_string san) (DER.dNSName san).



(** "Contains a dot": the character occurs in the string. *)
Definition hasDot (s : string) : Prop := In "."%char (list_ascii_of_string s).

(** The size that the answer asks for: none for an empty answer or when
    the scan stores nothing, else the integer scanned. *)
Definition requestedKeySize `{Fmt} (keySizeStr : string) : option Z :=
  if String.eqb keySizeStr "" then None else Sscanf_d keySizeStr.

Definition allowedKeySize (n : Z) : Prop := n = 2048 \/ n = 3072 \/ n = 4096.

(** The parts in the order CN, O, OU, C, ST, L, one per value; the common
    name gives a part only when it is not empty. *)
Definition renderedParts (name : pkix.Name) : list string :=
  (if String.eqb (pkix.CommonName name) "" then []
   else ["CN=" +:+ pkix.CommonName name])
  ++ map (fun v => "O=" +:+ v) (pkix.Organization name)
  ++ map (fun v => "OU=" +:+ v) (pkix.OrganizationalUnit name)
  ++ map (fun v => "C=" +:+ v) (pkix.Country name)
  ++ map (fun v => "ST=" +:+ v) (pkix.Province name)
  ++ map (fun v => "L=" +:+ v) (pkix.Locality name).

(** The identity as the spec words it: six optional strings, a field left
    blank being absent.  Its rendering has one part per field that is
    present, in the order CN, O, OU, C, ST, L. *)
Definition identityPart (label value : string) : list string :=
  if String.eqb value "" then [] else [label +:+ value].

Definition identityParts (a : Answers) : list string :=
  identityPart "CN=" (commonName a)
  ++ identityPart "O=" (organization a)
  ++ identityPart "OU=" (organizationalUnit a)
  ++ identityPart "C=" (country a)
  ++ identityPart "ST=" (state a)
  ++ identityPart "L=" (locality a).

(** The length of the parts, each counted with a separator of two
    characters. *)
Definition weight (parts : list string) : nat :=
  list_sum (map (fun part => String.length part + 2)%nat parts).

(** One of the five fields after the common name is left blank. *)
Definition blankField (a : Answers) : Prop :=
  organization a = "" \/ organizationalUnit a = "" \/ country a = ""
  \/ state a = "" \/ locality a = "".

(** The block types that [decodeFile] knows. *)
Definition knownBlockType (t : string) : Prop :=
  t = "CERTIFICATE" \/ t = "CERTIFICATE REQUEST" \/ t = "RSA PRIVATE KEY"
  \/ t = "PRIVATE KEY".

(** The failures of [decodeFile]: the file cannot be read; it holds no PEM
    block; the bytes of the first block do not parse as the structure that
    its type names; the block is a PKCS#8 key that is not an RSA key; the
    block type is not a known one. *)
Definition decodeFailure `{Decoders} (filePath : string) : Prop :=
  (exists err, ReadFile filePath = Err err)
  \/ (exists data, ReadFile filePath = Ok data /\ pem_Decode data = None)
  \/ (exists data block rest,
        ReadFile filePath = Ok data /\
        pem_Decode data = Some (block, rest) /\
        ((pem.Type_ block = "CERTIFICATE" /\
          exists err, ParseCertificate (pem.Bytes block) = Err err)
         \/ (pem.Type_ block = "CERTIFICATE REQUEST" /\
             exists err, ParseCertificateRequest (pem.Bytes block) = Err err)
         \/ (pem.Type_ block = "RSA PRIVATE KEY" /\
             exists err, ParsePKCS1PrivateKey (pem.Bytes block) = Err err)
         \/ (pem.Type_ block = "PRIVATE KEY" /\
             exists err, ParsePKCS8PrivateKey (pem.Bytes block) = Err err)
         \/ (pem.Type_ block = "PRIVATE KEY" /\
             exists key, ParsePKCS8PrivateKey (pem.Bytes block) = Ok key /\
                         forall rsaKey, key <> x509.RSAPrivateKey rsaKey)
         \/ ~ knownBlockType (pem.Type_ block))).

(** The largest number of days whose length in nanoseconds fits an
    [int64]. *)
Definition maxDurationDays : Z := 106751.

(** ** Instances for the examples

    A scanner of ASCII decimal numerals for [fmt.Sscanf] with [%d] (an
    optional sign, then digits; the value must fit an [int64]), and decimal
    printing for [%d]. *)

Definition digitValue (c : ascii) : option Z :=
  let n := Z.of_nat (nat_of_ascii c) in
  if (48 <=? n) && (n <=? 57) then Some (n - 48) else None.

Fixpoint scanDigits (s : string) (acc : Z) : Z :=
  match s with
  | EmptyString => acc
  | String c s' =>
      match digitValue c with
      | Some d => scanDigits s' (10 * acc + d)
      | None => acc
      end
  end.

Definition scanNumber (s : string) : option Z :=
  match s with
  | EmptyString => None
  | String c _ =>
      match digitValue c with
      | Some _ => Some (scanDigits s 0)
      | None => None
      end
  end.

Definition scanDecimal (s : string) : option Z :=
  let signed :=
    match s with
    | String "-"%char s' => option_map Z.opp (scanNumber s')
    | String "+"%char s' => scanNumber s'
    | _ => scanNumber s
    end in
  match signed with
  | Some n => if (- 2 ^ 63 <=? n) && (n <? 2 ^ 63) then Some n else None
  | None => None
  end.

Definition decimalFmt : Fmt :=
  {| Sscanf_d := scanDecimal;
     Sprint_d := fun z => DecimalString.NilZero.string_of_int (Z.to_int z) |}.

(** The three sizes as they are typed, with their values. *)
Definition typedSizes : list (string * Z) :=
  [("2048", 2048); ("3072", 3072); ("4096", 4096)].

(** The text starts with a decimal digit. *)
Definition startsWithDigit (s : string) : bool :=
  match s with
  | String c _ => match digitValue c with Some _ => true | None => false end
  | EmptyString => false
  end.

(** Printing for the examples: names through [formatName], numbers in
    decimal, every signature and key taken as valid. *)
Definition plainStringers : Stringers :=
  {| Name_String := formatName;
     SignatureAlgorithm_String :=
       fun a => if a =? x509.SHA256WithRSA then "SHA256-RSA" else "0";
     BigInt_String := fun z => DecimalString.NilZero.string_of_int (Z.to_int z);
     Time_Format := fun _ t => DecimalString.NilZero.string_of_int (Z.to_int t);
     CheckSignature := fun _ => None;
     BitLen := fun n => if n =? 0 then 0 else Z.log2 (Z.abs n) + 1;
     MarshalPKIXPublicKey := fun _ => Err "unsupported";
     Sum256_hex := fun _ => "";
     Validate := fun _ => None |}.

(** A file system with three files, for the examples: an EC key in a block
    of a type the tool does not know, an Ed25519 key in a PKCS#8 block, and
    a file without a PEM block. *)
Definition memoryDecoders : Decoders :=
  {| ReadFile := fun path =>
       if String.eqb path "ec.pem" then Ok ["001"%byte]
       else if String.eqb path "ed25519.pem" then Ok ["002"%byte]
       else if String.eqb path "notes.txt" then Ok []
       else Err ("open " +:+ path +:+ ": no such file or directory");
     pem_Decode := fun data =>
       match data with
       | ["001"%byte] => Some (pem.mkBlock "EC PRIVATE KEY" [], [])
       | ["002"%byte] => Some (pem.mkBlock "PRIVATE KEY" [], [])
       | _ => None
       end;
     ParseCertificate := fun _ => Err "x509: malformed certificate";
     ParseCertificateRequest := fun _ => Err "asn1: syntax error: sequence truncated";
     ParsePKCS1PrivateKey := fun _ => Err "asn1: syntax error: sequence truncated";
     ParsePKCS8PrivateKey := fun _ => Ok x509.Ed25519PrivateKey |}.

(** ** Inputs of the examples *)

Definition exampleSubject : pkix.Name :=
  {| pkix.CommonName := "example.com";
     pkix.Organization := ["Example Inc"];
     pkix.OrganizationalUnit := ["IT"];
     pkix.Country := ["US"];
     pkix.Province := ["California"];
     pkix.Locality := ["San Francisco"] |}.

Definition exampleSANs : list string := ["example.com"; "www.example.com"].

(** The identity of a user who gives a common name and leaves every other
    field blank. *)
Definition bareAnswers : Answers :=
  {| commonName := "example.com";
     organization := ""; organizationalUnit := ""; country := "";
     state := ""; locality := ""; emailAddress := "";
     keySizeStr := ""; filePrefix := ""; selfSigned := "";
     validDaysStr := ""; addSANs := ""; sanLines := [] |}.

Definition selfSignedFlags : Flags :=
  {| selfSignedFlag := true; daysFlag := 730; outputDirFlag := "" |}.

Definition exampleAnswers : Answers :=
  {| commonName := "example.com";
     organization := "Example Inc"; organizationalUnit := "IT";
     country := "US"; state := "California"; locality := "San Francisco";
     emailAddress := "admin@example.com";
     keySizeStr := "4096"; filePrefix := "cert"; selfSigned := "";
     validDaysStr := ""; addSANs := "y";
     sanLines := ["example.com"; "www.example.com"; ""] |}.

(** The instant of the examples: 1 800 000 000.5 seconds after the epoch. *)
Definition exampleNow : Time := 1800000000500000000.

Definition exampleCertificate : x509.Certificate :=
  let certTemplate :=
    main_certTemplate 77 (main_subj exampleAnswers) exampleNow 730
      exampleSANs "example.com" in
  x509.parsedCertificate certTemplate certTemplate.


(** [certforge -s -days=106752]. *)
Definition longFlags : Flags :=
  {| selfSignedFlag := true; daysFlag := 106752; outputDirFlag := "" |}.

(** [certforge -s -days=-200000]. *)
Definition farPastFlags : Flags :=
  {| selfSignedFlag := true; daysFlag := -200000; outputDirFlag := "" |}.

(** [certforge -s -days=-5]. *)
Definition pastFlags : Flags :=
  {| selfSignedFlag := true; daysFlag := -5; outputDirFlag := "" |}.

(** ** Notions used in the properties of a whole run *)

(** The nine usages that [printCertificateInfo] names, by bit number. *)
Definition keyUsageNames : list (Z * string) :=
  [ (0, "  Digital Signature"); (1, "  Content Commitment");
    (2, "  Key Encipherment"); (3, "  Data Encipherment");
    (4, "  Key Agreement"); (5, "  Certificate Sign"); (6, "  CRL Sign");
    (7, "  Encipher Only"); (8, "  Decipher Only") ].

(** The usages that the [switch] of lines 151-164 names. *)
Definition namedUsage (usage : x509.ExtKeyUsage) : bool :=
  match usage with
  | x509.ExtKeyUsageServerAuth | x509.ExtKeyUsageClientAuth
  | x509.ExtKeyUsageCodeSigning | x509.ExtKeyUsageEmailProtection
  | x509.ExtKeyUsageTimeStamping | x509.ExtKeyUsageOCSPSigning => true
  | _ => false
  end.

Section RunNotions.
Context `{Fmt} `{Stringers} `{Decoders} `{System}.

(** What lines 553-560, 571-578 and 634-641 write into the three files. *)
Definition keyPEM (privateKey : rsa.PrivateKey) : list byte :=
  pem_EncodeToBytes
    (pem.mkBlock "RSA PRIVATE KEY" (MarshalPKCS1PrivateKey privateKey)).

Definition csrPEM (csrBytes : list byte) : list byte :=
  pem_EncodeToBytes (pem.mkBlock "CERTIFICATE REQUEST" csrBytes).

Definition crtPEM (derBytes : list byte) : list byte :=
  pem_EncodeToBytes (pem.mkBlock "CERTIFICATE" derBytes).

(** Every call of lines 470-578 succeeds: the key is generated, the request
    is built, the output directory is there, and the two files are created
    and written. *)
Definition savesCleanly (flags : Flags) (a : Answers)
    (privateKey : rsa.PrivateKey) (csrBytes : list byte) : Prop :=
  GenerateKey (main_keySize (keySizeStr a)) = Ok privateKey /\
  (exists template,
     main_template (main_subj a) (main_sans (addSANs a) (sanLines a))
       = Ok template /\
     CreateCertificateRequest template privateKey = Ok csrBytes) /\
  (outputDirFlag flags <> "" -> MkdirAll_error (outputDirFlag flags) = None) /\
  Create_error (keyPathOf flags a) = None /\
  Write_error (keyPathOf flags a) (keyPEM privateKey) = None /\
  Create_error (csrPathOf flags a) = None /\
  Write_error (csrPathOf flags a) (csrPEM csrBytes) = None.

(** The certificate template of lines 597-615 in a run. *)
Definition certTemplateOf (flags : Flags) (a : Answers) (serialNumber : Z)
  : x509.Certificate :=
  main_certTemplate serialNumber (main_subj a) time_Now
    (main_validDays flags (main_createSelfsigned flags (selfSigned a))
       (validDaysStr a))
    (main_sans (addSANs a) (sanLines a)) (commonName a).

(** Every call of lines 587-641 succeeds. *)
Definition certifiesCleanly (flags : Flags) (a : Answers)
    (privateKey : rsa.PrivateKey) (derBytes : list byte) : Prop :=
  exists serialNumber,
    rand_Int (Z.shiftl 1 128) = Ok serialNumber /\
    CreateCertificate (certTemplateOf flags a serialNumber)
      (certTemplateOf flags a serialNumber) (rsa.Public privateKey) privateKey
      = Ok derBytes /\
    Create_error (crtPathOf flags a) = None /\
    Write_error (crtPathOf flags a) (crtPEM derBytes) = None.

(** A call made before any file is created fails. *)
Definition failsBeforeFiles (flags : Flags) (a : Answers) : Prop :=
  (exists err, GenerateKey (main_keySize (keySizeStr a)) = Err err)
  \/ (exists privateKey template err,
        GenerateKey (main_keySize (keySizeStr a)) = Ok privateKey /\
        main_template (main_subj a) (main_sans (addSANs a) (sanLines a))
          = Ok template /\
        CreateCertificateRequest template privateKey = Err err)
  \/ (exists err, outputDirFlag flags <> "" /\
                  MkdirAll_error (outputDirFlag flags) = Some err)
  \/ (exists err, Create_error (keyPathOf flags a) = Some err).

(** One of the modes that only print: help, version or decode. *)
Definition inspects (cl : CommandLine) : bool :=
  helpFlag cl || shortHelpFlag cl || versionFlag cl || shortVersionFlag cl
  || negb (String.eqb (decodeFlag cl) "").

End RunNotions.

(** A computation changes no file outside [paths], only adds to the output,
    and ends with code 0 or 1. *)
Definition touchesOnly {A} (paths : string -> Prop) (m : M A) : Prop :=
  forall w,
    (forall p, ~ paths p -> files (worldOf (m w)) !! p = files w !! p) /\
    (exists out, stdout (worldOf (m w)) = stdout w ++ out) /\
    (codeOf (m w) = 0 \/ codeOf (m w) = 1).

(** ** A system for the examples

    A key of 12 bits; encodings that are short texts; a PEM armour that is
    the block type, a line feed and the bytes; a file system in which
    nothing can be created under [/readonly]; and the certificate as given
    by the parameter, so that a failing signer can be had. *)

Definition exampleKey : rsa.PrivateKey :=
  rsa.mkPrivateKey (rsa.mkPublicKey 3233 17) 2753 [61; 53].

Definition exampleSystemWith (certificate : result (list byte)) : System :=
  {| GenerateKey := fun bits =>
       if bits <? 2 then Err "crypto/rsa: too few primes of given length"
       else Ok exampleKey;
     MarshalPKCS1PrivateKey := fun key =>
       bytes_of_string "key " ++ [Z_to_byte (rsa.E (rsa.Public key))];
     CreateCertificateRequest := fun template _ =>
       Ok (bytes_of_string ("csr " +:+ formatName (x509.csrSubject template)));
     CreateCertificate := fun _ _ _ _ => certificate;
     rand_Int := fun _ => Ok 77;
     time_Now := exampleNow;
     pem_EncodeToBytes := fun block =>
       bytes_of_string (pem.Type_ block) ++ ["010"%byte] ++ pem.Bytes block;
     filepath_Join := fun dir name => dir +:+ "/" +:+ name;
     MkdirAll_error := fun dir =>
       if String.prefix "/readonly" dir
       then Some ("mkdir " +:+ dir +:+ ": read-only file system")
       else None;
     Create_error := fun path =>
       if String.prefix "/readonly" path
       then Some ("open " +:+ path +:+ ": read-only file system")
       else None;
     Write_error := fun _ _ => None |}.

Definition exampleSystem : System :=
  exampleSystemWith (Ok (bytes_of_string "certificate")).

Definition failingSigner : System :=
  exampleSystemWith (Err "x509: unsupported public key type").

(** What the example run yields. *)
Definition exampleOutcome : Outcome :=
  match @main_generate decimalFmt exampleSystem selfSignedFlags exampleAnswers with
  | Ok out => out
  | Err _ => mkOutcome 0 [] 0 (x509.mkCertificateRequest exampleSubject 0 [] []) None
  end.

(** Answers that ask for a key of 1024 bits, and for one of "4096 bits". *)
Definition weakKeyAnswers : Answers :=
  {| commonName := "example.com";
     organization := "Example Inc"; organizationalUnit := "IT";
     country := "US"; state := "California"; locality := "San Francisco";
     emailAddress := "admin@example.com";
     keySizeStr := "1024"; filePrefix := "cert"; selfSigned := "";
     validDaysStr := ""; addSANs := ""; sanLines := [] |}.

Definition wordyKeyAnswers : Answers :=
  {| commonName := "example.com";
     organization := "Example Inc"; organizationalUnit := "IT";
     country := "US"; state := "California"; locality := "San Francisco";
     emailAddress := "admin@example.com";
     keySizeStr := "4096 bits"; filePrefix := "cert"; selfSigned := "";
     validDaysStr := ""; addSANs := ""; sanLines := [] |}.

(** The first line of [data], and what follows it. *)
Fixpoint splitLine (data : list byte) : option (list byte * list byte) :=
  match data with
  | [] => None
  | b :: rest =>
      if Byte.eqb b "010"%byte then Some ([], rest)
      else match splitLine rest with
           | Some (line, after) => Some (b :: line, after)
           | None => None
           end
  end.

(** Decoders that read the files of a world and undo the encodings of
    [exampleSystem]. *)
Definition worldDecoders (w : World) : Decoders :=
  {| ReadFile := fun path =>
       match files w !! path with
       | Some data => Ok data
       | None => Err ("open " +:+ path +:+ ": no such file or directory")
       end;
     pem_Decode := fun data =>
       match splitLine data with
       | Some (type, bytes) => Some (pem.mkBlock (string_of_bytes type) bytes, [])
       | None => None
       end;
     ParseCertificate := fun _ => Err "x509: malformed certificate";
     ParseCertificateRequest := fun _ => Err "asn1: syntax error: sequence truncated";
     ParsePKCS1PrivateKey := fun bytes =>
       if decide (map byte_to_Z bytes
                  = map byte_to_Z (bytes_of_string "key " ++ [Z_to_byte 17]))
       then Ok exampleKey
       else Err "asn1: syntax error: sequence truncated";
     ParsePKCS8PrivateKey := fun _ => Err "asn1: syntax error: sequence truncated" |}.

Definition emptyWorld : World := mkWorld ∅ [].

(** [certforge] with no flag, [certforge -h] and [certforge --decode cert.key]. *)
Definition plainCommand : CommandLine :=
  mkCommandLine false false false false "" (mkFlags false 365 "").

Definition helpCommand : CommandLine :=
  mkCommandLine false true false false "cert.key" (mkFlags false 365 "").

Definition decodeCommand : CommandLine :=
  mkCommandLine false false false false "cert.key" (mkFlags false 365 "").

(** The world that the example run leaves, starting with no file. *)
Definition exampleRunWorld : World :=
  worldOf (@main_generation decimalFmt plainStringers exampleSystem
             selfSignedFlags exampleAnswers emptyWorld).

(** [certforge -o=/readonly/certs]. *)
Definition readOnlyFlags : Flags :=
  {| selfSignedFlag := false; daysFlag := 365; outputDirFlag := "/readonly/certs" |}.

(** * Theorems *)

(** ** Bytes *)

Lemma byte_to_Z_range (b : byte) : 0 <= byte_to_Z b < 256.
Proof.
  unfold byte_to_Z. pose proof (Byte.to_N_bounded b). lia.
Qed.

Lemma byte_to_Z_to_byte (z : Z) : byte_to_Z (Z_to_byte z) = z mod 256.
Proof.
  unfold byte_to_Z, Z_to_byte.
  assert (Hr : 0 <= z mod 256 < 256) by (apply Z.mod_pos_bound; lia).
  destruct (Byte.of_N (Z.to_N (z mod 256))) as [b|] eqn:E.
  - apply Byte.to_of_N in E. rewrite E. lia.
  - apply Byte.of_N_None_iff in E. lia.
Qed.

Lemma Z_to_byte_mod (z : Z) : Z_to_byte (z mod 256) = Z_to_byte z.
Proof.
  unfold Z_to_byte. rewrite Z.mod_mod by lia. reflexivity.
Qed.

Lemma len_app {A} (l k : list A) : len (l ++ k) = len l + len k.
Proof. unfold len. rewrite length_app. lia. Qed.

Lemma len_nonneg {A} (l : list A) : 0 <= len l.
Proof. unfold len. lia. Qed.

(** ** The append loops *)

Lemma appendEach_map {A B} (f : A -> B) (xs : list A) (parts : list B) :
  appendEach f xs parts = parts ++ map f xs.
Proof.
  unfold appendEach. revert parts.
  induction xs as [|x xs IH]; intros parts; simpl.
  - rewrite app_nil_r. reflexivity.
  - rewrite IH, <- app_assoc. reflexivity.
Qed.

(** ** The length octets: the loops of [encoding/asn1] against X.690 *)

Lemma lengthLength_unfold i :
  asn1.lengthLength i = if 255 <? i then 1 + asn1.lengthLength (Z.shiftr i 8) else 1.
Proof.
  rewrite asn1.lengthLength_equation_1. 
  destruct (Z_lt_dec 255 i) as [Hlt|Hge]; simpl.
  - destruct (Z.ltb_spec 255 i); [reflexivity|lia].
  - destruct (Z.ltb_spec 255 i); [lia|reflexivity].
Qed.

Lemma lengthLength_numDigits i : asn1.lengthLength i = DER.numDigits i.
Proof.
  unfold DER.numDigits.
  assert (Hwf : forall n : nat, forall i, Z.to_nat i = n -> asn1.lengthLength i = Z.log2 i / 8 + 1).
  { induction n as [n IH] using lt_wf_ind. intros j Hj.
    rewrite lengthLength_unfold.
    destruct (Z.ltb_spec 255 j) as [Hlt|Hge].
    - rewrite (IH (Z.to_nat (Z.shiftr j 8))); [| |reflexivity].
      + rewrite Z.log2_shiftr by lia.
        assert (8 <= Z.log2 j) by (apply Z.log2_le_pow2; lia).
        rewrite Z.max_r by lia.
        replace (Z.log2 j) with ((Z.log2 j - 8) + 1 * 8) at 2 by lia.
        rewrite Z.div_add by lia. lia.
      + subst n. rewrite Z.shiftr_div_pow2 by lia.
        apply Z2Nat.inj_lt; try lia.
        * apply Z.div_pos; lia.
        * apply Z.div_lt; lia.
    - destruct (Z_le_gt_dec j 0) as [Hn|Hp].
      + rewrite Z.log2_nonpos by lia. reflexivity.
      + assert (Z.log2 j < 8) by (apply Z.log2_lt_pow2; lia).
        pose proof (Z.log2_nonneg j).
        rewrite Z.div_small by lia. reflexivity. }
  apply (Hwf (Z.to_nat i)). reflexivity.
Qed.

Lemma appendLength_loop_digits k n :
  0 <= n -> asn1.appendLength_loop k n = DER.digits k n.
Proof.
  intros Hn. induction k as [|k IH]; simpl; [reflexivity|].
  rewrite IH. f_equal. f_equal.
  rewrite Z.shiftr_div_pow2 by lia.
  f_equal. rewrite (Z.mul_comm (Z.of_nat k) 8), Z.pow_mul_r by lia. reflexivity.
Qed.

Lemma numDigits_bound n : 0 <= n < 2 ^ 63 -> 1 <= DER.numDigits n <= 8.
Proof.
  intros Hn. unfold DER.numDigits.
  destruct (Z.eq_dec n 0) as [->|Hnz]; [vm_compute; split; discriminate|].
  assert (Z.log2 n < 63) by (apply Z.log2_lt_pow2; lia).
  pose proof (Z.log2_nonneg n).
  assert (0 <= Z.log2 n / 8) by (apply Z.div_pos; lia).
  assert (Z.log2 n / 8 < 8) by (apply Z.div_lt_upper_bound; lia).
  lia.
Qed.

Lemma lengthOctets_code n :
  0 <= n < 2 ^ 63 ->
  forall dst class tag compound,
    tag < 31 ->
    asn1.appendTagAndLength dst (asn1.mkTagAndLength class tag n compound) =
    dst ++ Z_to_byte
        (Z.lor (if compound
                then Z.lor ((byte_to_Z (Z_to_byte class) * 64) mod 256) 32
                else (byte_to_Z (Z_to_byte class) * 64) mod 256)
               (byte_to_Z (Z_to_byte tag)))
      :: DER.lengthOctets n.
Proof.
  intros Hn dst class tag compound Htag.
  unfold asn1.appendTagAndLength, DER.lengthOctets. cbn [asn1.tl_class asn1.tl_tag asn1.tl_length asn1.tl_isCompound].
  destruct (Z.leb_spec 31 tag); [lia|].
  destruct (Z.leb_spec 128 n), (Z.ltb_spec n 128); try lia.
  - unfold asn1.appendLength. rewrite lengthLength_numDigits.
    rewrite appendLength_loop_digits by lia.
    rewrite <- !app_assoc. simpl. do 3 f_equal.
    pose proof (numDigits_bound n Hn) as Hb.
    rewrite byte_to_Z_to_byte, Z.mod_small by lia.
    assert (Hc : DER.numDigits n = 1 \/ DER.numDigits n = 2 \/ DER.numDigits n = 3 \/
                 DER.numDigits n = 4 \/ DER.numDigits n = 5 \/ DER.numDigits n = 6 \/
                 DER.numDigits n = 7 \/ DER.numDigits n = 8) by lia.
    destruct Hc as [-> | [-> | [-> | [-> | [-> | [-> | [-> | ->]]]]]]]; reflexivity.
  - rewrite <- app_assoc. reflexivity.
Qed.

Lemma land_disjoint_low a b :
  0 <= b < 256 -> Z.land (a * 2 ^ 8) b = 0.
Proof.
  intros Hb. apply Z.bits_inj'. intros i Hi.
  rewrite Z.land_spec, Z.bits_0.
  destruct (Z.lt_ge_cases i 8) as [Hlt|Hge].
  - rewrite Z.mul_pow2_bits_low by lia. reflexivity.
  - destruct (Z.eq_dec b 0) as [->|Hnz].
    + rewrite Z.bits_0. apply andb_false_r.
    + rewrite (Z.bits_above_log2 b i); [apply andb_false_r|lia|].
      assert (Z.log2 b < 8) by (apply Z.log2_lt_pow2; lia). lia.
Qed.

Lemma lor_shiftl8 a b :
  0 <= b < 256 -> Z.lor (Z.shiftl a 8) b = a * 256 + b.
Proof.
  intros Hb. rewrite Z.shiftl_mul_pow2 by lia.
  rewrite <- Z.lxor_lor by (apply land_disjoint_low; exact Hb).
  rewrite <- Z.add_nocarry_lxor by (apply land_disjoint_low; exact Hb).
  reflexivity.
Qed.

Lemma land_low7 n : 0 <= n < 128 -> Z.land n 127 = n /\ Z.land n 128 = 0.
Proof.
  intros Hn.
  assert (H7 : Z.land n 127 = n).
  { change 127 with (Z.ones 7). rewrite Z.land_ones by lia.
    apply Z.mod_small. lia. }
  split; [exact H7|].
  rewrite <- H7, <- Z.land_assoc. change (Z.land 127 128) with 0.
  apply Z.land_0_r.
Qed.

(** The digits of [n] read back by the length loop. *)
Lemma parseLength_loop_digits n rest k acc v r :
  0 <= n ->
  asn1.parseLength_loop k (DER.digits k n ++ rest) acc = Ok (v, r) ->
  v = acc * 256 ^ Z.of_nat k + n mod 256 ^ Z.of_nat k /\ r = rest.
Proof.
  intros Hn. revert acc.
  induction k as [|k IH]; intros acc; simpl asn1.parseLength_loop.
  - intros [= <- <-]. split; [|reflexivity].
    change (256 ^ Z.of_nat 0) with 1. rewrite Z.mod_1_r. lia.
  - cbn [DER.digits app].
    destruct (2 ^ 23 <=? acc); [discriminate|].
    rewrite byte_to_Z_to_byte.
    rewrite lor_shiftl8 by (apply Z.mod_pos_bound; lia).
    destruct (_ =? 0); [discriminate|].
    intros Hloop. apply IH in Hloop as [-> ->]. split; [|reflexivity].
    rewrite Nat2Z.inj_succ, Z.pow_succ_r by lia.
    set (p := 256 ^ Z.of_nat k).
    assert (Hp : 0 < p) by (apply Z.pow_pos_nonneg; lia).
    rewrite (Z.mul_comm 256 p), (Z.rem_mul_r n p 256) by lia.
    lia.
Qed.
Lemma numDigits_covers n : 0 <= n -> n < 256 ^ DER.numDigits n.
Proof.
  intros Hn. unfold DER.numDigits.
  destruct (Z.eq_dec n 0) as [->|Hnz]; [reflexivity|].
  pose proof (Z.log2_spec n ltac:(lia)) as [_ Hup].
  pose proof (Z.log2_nonneg n) as Hl.
  eapply Z.lt_le_trans; [exact Hup|].
  change 256 with (2 ^ 8).
  assert (0 <= Z.log2 n / 8) by (apply Z.div_pos; lia).
  rewrite <- Z.pow_mul_r by lia.
  apply Z.pow_le_mono_r; [lia|].
  pose proof (Z.div_mod (Z.log2 n) 8 ltac:(lia)).
  pose proof (Z.mod_pos_bound (Z.log2 n) 8 ltac:(lia)).
  lia.
Qed.

(** Reading back a header whose tag number is below 31: when the parser
    accepts it, it returns the encoded length and stops at the content. *)
Lemma parseTagAndLength_header (b0 : byte) n rest t after :
  0 <= n < 2 ^ 63 ->
  Z.land (byte_to_Z b0) 31 <> 31 ->
  asn1.parseTagAndLength (b0 :: DER.lengthOctets n ++ rest) = Ok (t, after) ->
  t = asn1.mkTagAndLength (Z.shiftr (byte_to_Z b0) 6) (Z.land (byte_to_Z b0) 31)
        n (Z.land (byte_to_Z b0) 32 =? 32)
  /\ after = rest.
Proof.
  intros Hn Htag. unfold asn1.parseTagAndLength, asn1.parseTagNumber.
  cbv zeta.
  destruct (Z.eqb_spec (Z.land (byte_to_Z b0) 31) 31) as [|_]; [contradiction|].
  cbn [bind]. unfold DER.lengthOctets.
  destruct (Z.ltb_spec n 128) as [Hsmall|Hbig].
  - cbn [app]. rewrite byte_to_Z_to_byte, Z.mod_small by lia.
    destruct (land_low7 n ltac:(lia)) as [H7 H8]. rewrite H7, H8.
    cbn [Z.eqb]. intros [= <- <-]. split; reflexivity.
  - cbn [app].
    pose proof (numDigits_bound n Hn) as Hb.
    rewrite byte_to_Z_to_byte.
    assert (Hk : Z.land ((128 + DER.numDigits n) mod 256) 128 = 128 /\
                 Z.land ((128 + DER.numDigits n) mod 256) 127 = DER.numDigits n).
    { assert (Hc : DER.numDigits n = 1 \/ DER.numDigits n = 2 \/ DER.numDigits n = 3 \/
                   DER.numDigits n = 4 \/ DER.numDigits n = 5 \/ DER.numDigits n = 6 \/
                   DER.numDigits n = 7 \/ DER.numDigits n = 8) by lia.
      destruct Hc as [-> | [-> | [-> | [-> | [-> | [-> | [-> | ->]]]]]]];
        split; reflexivity. }
    destruct Hk as [-> ->]. cbn [Z.eqb].
    destruct (Z.eqb_spec (DER.numDigits n) 0) as [|_]; [lia|].
    destruct (asn1.parseLength_loop _ _ 0) as [[v r]|] eqn:E; cbn [bind];
      [|discriminate].
    apply parseLength_loop_digits in E as [-> ->]; [|lia].
    rewrite Z2Nat.id by lia.
    rewrite Z.mod_small by (split; [lia|apply numDigits_covers; lia]).
    rewrite Z.mul_0_l, Z.add_0_l.
    destruct (Z.ltb_spec n 128) as [|_]; [lia|].
    intros [= <- <-]. split; reflexivity.
Qed.

(** The class that [parseTagAndLength] reports is in the two high bits of
    the first byte. *)
Lemma parseTagAndLength_class b0 bytes t after :
  asn1.parseTagAndLength (b0 :: bytes) = Ok (t, after) ->
  asn1.tl_class t = Z.shiftr (byte_to_Z b0) 6.
Proof.
  unfold asn1.parseTagAndLength. cbv zeta.
  destruct (asn1.parseTagNumber _ bytes) as [[tag bytes2]|]; cbn [bind];
    [|discriminate].
  destruct bytes2 as [|b1 bytes3]; [discriminate|].
  destruct (Z.land (byte_to_Z b1) 128 =? 0).
  - intros [= <- <-]. reflexivity.
  - destruct (_ =? 0); [discriminate|].
    destruct (asn1.parseLength_loop _ bytes3 0) as [[v r]|]; cbn [bind];
      [|discriminate].
    destruct (v <? 128); [discriminate|].
    intros [= <- <-]. reflexivity.
Qed.

(** ** The subjectAltName extension that [main] builds *)

Lemma marshalRawValue_dNSName (san : string) :
  len (bytes_of_string san) < 2 ^ 63 ->
  asn1.marshalRawValue (dnsRawValue san) = DER.dNSName san.
Proof.
  intros Hlen. unfold asn1.marshalRawValue, dnsRawValue, DER.dNSName, DER.tlv.
  cbn [asn1.FullBytes asn1.Class asn1.Tag asn1.Bytes asn1.IsCompound].
  rewrite lengthOctets_code by (pose proof (len_nonneg (bytes_of_string san)); lia).
  reflexivity.
Qed.

Lemma len_concat_elem {A} (l : list A) (ls : list (list A)) :
  In l ls -> len l <= len (concat ls).
Proof.
  induction ls as [|k ls IH]; simpl; [contradiction|].
  intros [->|Hin]; rewrite len_app.
  - pose proof (len_nonneg (concat ls)). lia.
  - pose proof (len_nonneg k). specialize (IH Hin). lia.
Qed.

Lemma len_dNSName (san : string) :
  len (bytes_of_string san) < len (DER.dNSName san).
Proof.
  unfold DER.dNSName, DER.tlv, len. simpl length.
  rewrite length_app. lia.
Qed.

Lemma marshalBody_names (sans : list string) :
  len (concat (map DER.dNSName sans)) < 2 ^ 63 ->
  asn1.marshalBody (map dnsRawValue sans) = concat (map DER.dNSName sans).
Proof.
  intros Hlen. unfold asn1.marshalBody. rewrite map_map. f_equal.
  apply map_ext_in. intros san Hin. apply marshalRawValue_dNSName.
  pose proof (len_concat_elem (DER.dNSName san) (map DER.dNSName sans)
                (in_map _ _ _ Hin)).
  pose proof (len_dNSName san). lia.
Qed.

(** The extension of lines 496-511, in closed form. *)
Lemma sanExtension_value (sans : list string) :
  len (concat (map DER.dNSName sans)) < 2 ^ 63 ->
  sanExtension sans =
  Ok {| pkix.Id := [2; 5; 29; 17];
        pkix.Critical := false;
        pkix.Value := DER.sequenceOfNames sans |}.
Proof.
  intros Hlen. unfold sanExtension, asn1.Marshal.
  rewrite appendEach_map. cbn [app].
  change (map (fun san => asn1.mkRawValue 2 2 false (bytes_of_string san) []) sans)
    with (map dnsRawValue sans).
  rewrite marshalBody_names by exact Hlen.
  unfold asn1.TagSequence, asn1.ClassUniversal.
  rewrite lengthOctets_code
    by (pose proof (len_nonneg (concat (map DER.dNSName sans))); lia).
  reflexivity.
Qed.

Lemma main_template_sans (subj : pkix.Name) (sans : list string) :
  0 < len sans ->
  len (concat (map DER.dNSName sans)) < 2 ^ 63 ->
  main_template subj sans =
  Ok {| x509.csrSubject := subj;
        x509.csrSignatureAlgorithm := x509.SHA256WithRSA;
        x509.csrExtensions := [];
        x509.csrExtraExtensions :=
          [ {| pkix.Id := [2; 5; 29; 17];
               pkix.Critical := false;
               pkix.Value := DER.sequenceOfNames sans |} ] |}.
Proof.
  intros Hpos Hlen. unfold main_template.
  destruct (Z.ltb_spec 0 (len sans)) as [_|]; [|lia].
  rewrite sanExtension_value by exact Hlen. reflexivity.
Qed.

(** C2.  For a non-empty list of names, the request template carries one
    extra extension; its identifier is 2.5.29.17 and its value is the DER
    encoding of a SEQUENCE that holds, for each name in order, one value of
    tag 2 in the context-specific class (class 2) whose content is the bytes
    of the name.  (The bound is the one every Go slice meets.) *)
Theorem san_extension_is_der_sequence (subj : pkix.Name) (sans : list string) :
  0 < len sans ->
  len (concat (map DER.dNSName sans)) < 2 ^ 63 ->
  exists template ext,
    main_template subj sans = Ok template /\
    x509.csrExtraExtensions template = [ext] /\
    pkix.Id ext = [2; 5; 29; 17] /\
    pkix.Value ext =
      DER.tlv asn1.ClassUniversal true asn1.TagSequence
        (concat (map (fun san =>
                        DER.tlv asn1.ClassContextSpecific false 2
                          (bytes_of_string san)) sans)).
Proof.
  intros Hpos Hlen.
  eexists _, _. split; [apply main_template_sans; assumption|].
  repeat split.
Qed.

Lemma san_extension_is_der_sequence_witness :
  0 < len exampleSANs /\
  len (concat (map DER.dNSName exampleSANs)) < 2 ^ 63 /\
  exists template ext,
    main_template exampleSubject exampleSANs = Ok template /\
    x509.csrExtraExtensions template = [ext] /\
    pkix.Id ext = [2; 5; 29; 17] /\
    pkix.Value ext =
      DER.tlv asn1.ClassUniversal true asn1.TagSequence
        (concat (map (fun san =>
                        DER.tlv asn1.ClassContextSpecific false 2
                          (bytes_of_string san)) exampleSANs)).
Proof.
  split; [reflexivity|]. split; [reflexivity|].
  apply (san_extension_is_der_sequence exampleSubject exampleSANs); reflexivity.
Defined.

(** The bytes for the names "a.b" and "c.de":
    [30 0b  82 03 "a.b"  82 04 "c.de"]. *)
Example sanExtension_example :
  option_map (map byte_to_Z)
    (match sanExtension ["a.b"; "c.de"] with
     | Ok ext => Some (pkix.Value ext)
     | Err _ => None
     end)
  = Some [48; 11; 130; 3; 97; 46; 98; 130; 4; 99; 46; 100; 101].
Proof. reflexivity. Qed.

(** ** What [printCSRInfo] reads from the extension *)

(** [Unmarshal] into a slice refuses input whose first value is not in the
    universal class. *)
Lemma UnmarshalRawValues_class (b0 : byte) (bytes : list byte) :
  Z.shiftr (byte_to_Z b0) 6 <> asn1.ClassUniversal ->
  exists msg, asn1.UnmarshalRawValues (b0 :: bytes) = Err msg.
Proof.
  intros Hclass. unfold asn1.UnmarshalRawValues, asn1.parseFieldRawValues.
  destruct (asn1.parseTagAndLength (b0 :: bytes)) as [[t after]|msg] eqn:E;
    cbn [bind]; [|eauto].
  apply parseTagAndLength_class in E. rewrite E.
  destruct (Z.eqb_spec (Z.shiftr (byte_to_Z b0) 6) asn1.ClassUniversal) as [|_];
    [contradiction|].
  cbn [andb negb orb]. unfold asn1.StructuralError. eauto.
Qed.

(** [Unmarshal] into a [RawValue], on the extension value that [main]
    builds: when it succeeds, it returns the SEQUENCE, whose content is the
    concatenation of the encoded names, and leaves nothing. *)
Lemma UnmarshalRawValue_sequenceOfNames (sans : list string) seq rest :
  len (concat (map DER.dNSName sans)) < 2 ^ 63 ->
  asn1.UnmarshalRawValue (DER.sequenceOfNames sans) = Ok (seq, rest) ->
  asn1.Class seq = asn1.ClassUniversal /\
  asn1.Tag seq = asn1.TagSequence /\
  asn1.Bytes seq = concat (map DER.dNSName sans) /\
  rest = [].
Proof.
  intros Hlen.
  unfold asn1.UnmarshalRawValue, asn1.parseFieldRawValue, DER.sequenceOfNames,
    DER.tlv.
  set (body := concat (map DER.dNSName sans)) in *.
  pose proof (len_nonneg body) as Hnn.
  destruct (asn1.parseTagAndLength _) as [[t after]|msg] eqn:E; cbn [bind];
    [|discriminate].
  apply parseTagAndLength_header in E as [-> ->];
    [|lia|vm_compute; discriminate].
  cbn [asn1.tl_length asn1.tl_class asn1.tl_tag asn1.tl_isCompound].
  unfold asn1.invalidLength.
  destruct (Z.ltb_spec (len body) 0) as [|_]; [lia|].
  destruct (Z.ltb_spec (len body) (len body)) as [|_]; [lia|].
  cbn [orb].
  assert (Hto : Z.to_nat (len body) = length body) by (unfold len; lia).
  rewrite !Hto, take_ge, drop_ge by lia.
  intros [= <- <-]. repeat split.
Qed.

(** The loop body of [printCSRInfo] adds no name for the extension that
    [main] builds. *)
Lemma extensionDNSNames_sequenceOfNames (sans dnsNames : list string) :
  0 < len sans ->
  len (concat (map DER.dNSName sans)) < 2 ^ 63 ->
  extensionDNSNames
    {| pkix.Id := [2; 5; 29; 17];
       pkix.Critical := false;
       pkix.Value := DER.sequenceOfNames sans |} dnsNames
  = dnsNames.
Proof.
  intros Hpos Hlen. unfold extensionDNSNames.
  cbn [pkix.Id pkix.Value].
  change (x509.oidEqual [2; 5; 29; 17] oidSubjectAltName) with true. cbv iota.
  destruct (asn1.UnmarshalRawValue (DER.sequenceOfNames sans))
    as [[seq rest]|msg] eqn:E; [|reflexivity].
  apply UnmarshalRawValue_sequenceOfNames in E as (Hc & Ht & Hb & ->);
    [|exact Hlen].
  rewrite Hc, Ht, Hb. cbn [len length Z.of_nat Z.eqb andb].
  change (asn1.ClassUniversal =? asn1.ClassUniversal) with true.
  change (asn1.TagSequence =? asn1.TagSequence) with true. cbv iota.
  destruct sans as [|san sans]; [unfold len in Hpos; simpl in Hpos; lia|].
  cbn [map concat]. unfold DER.dNSName at 1, DER.tlv at 1. cbn [app].
  destruct (UnmarshalRawValues_class (DER.identifier 2 false 2)
              (DER.lengthOctets (len (bytes_of_string san))
               ++ bytes_of_string san ++ concat (map DER.dNSName sans)))
    as [msg Hmsg]; [vm_compute; discriminate|].
  rewrite <- app_assoc. rewrite Hmsg. reflexivity.
Qed.

(** C1 (the code departs from the claim).  For every non-empty list of names,
    the request that [main] builds, once decoded, yields no DNS name at all
    in [printCSRInfo]: the second [asn1.Unmarshal] of lines 185 is given the
    content of the SEQUENCE, which starts with a context-specific value, and
    a slice target demands a SEQUENCE header there.  So the names reported
    are never the names supplied. *)
Theorem csr_decode_loses_san_names (subj : pkix.Name) (sans : list string) :
  0 < len sans ->
  len (concat (map DER.dNSName sans)) < 2 ^ 63 ->
  exists template,
    main_template subj sans = Ok template /\
    csrDNSNames (x509.parsedRequest template) = [] /\
    csrDNSNames (x509.parsedRequest template) <> sans.
Proof.
  intros Hpos Hlen. eexists. split; [apply main_template_sans; assumption|].
  assert (Hnames :
    csrDNSNames
      (x509.parsedRequest
         {| x509.csrSubject := subj;
            x509.csrSignatureAlgorithm := x509.SHA256WithRSA;
            x509.csrExtensions := [];
            x509.csrExtraExtensions :=
              [ {| pkix.Id := [2; 5; 29; 17];
                   pkix.Critical := false;
                   pkix.Value := DER.sequenceOfNames sans |} ] |}) = []).
  { unfold csrDNSNames, x509.parsedRequest.
    cbn [x509.csrExtensions x509.csrExtraExtensions fold_left].
    apply extensionDNSNames_sequenceOfNames; assumption. }
  split; [exact Hnames|].
  rewrite Hnames. intros <-. unfold len in Hpos. simpl in Hpos. lia.
Qed.

Lemma csr_decode_loses_san_names_witness :
  0 < len exampleSANs /\
  len (concat (map DER.dNSName exampleSANs)) < 2 ^ 63 /\
  exists template,
    main_template exampleSubject exampleSANs = Ok template /\
    csrDNSNames (x509.parsedRequest template) = [] /\
    csrDNSNames (x509.parsedRequest template) <> exampleSANs.
Proof.
  split; [reflexivity|]. split; [reflexivity|].
  apply (csr_decode_loses_san_names exampleSubject exampleSANs); reflexivity.
Defined.

(** The run of the examples, step by step: the first [Unmarshal] returns the
    SEQUENCE, the second one fails on its content, and no name is kept. *)
Example csr_decode_example :
  match main_template exampleSubject exampleSANs with
  | Ok template =>
      match x509.csrExtensions (x509.parsedRequest template) with
      | [ext] =>
          match asn1.UnmarshalRawValue (pkix.Value ext) with
          | Ok (seq, []) =>
              asn1.Tag seq = asn1.TagSequence /\
              asn1.UnmarshalRawValues (asn1.Bytes seq)
                = Err "asn1: structure error: tags don't match" /\
              csrDNSNames (x509.parsedRequest template) = []
          | _ => False
          end
      | _ => False
      end
  | Err _ => False
  end.
Proof. vm_compute. repeat split. Qed.

(** ** Reading the extension value back with [asn1.Unmarshal] *)

Lemma pow256_pos k : 0 < 256 ^ Z.of_nat k.
Proof. apply Z.pow_pos_nonneg; lia. Qed.

Lemma parseLength_loop_digits_ok n rest k acc :
  0 <= n < 2 ^ 31 ->
  acc = n / 256 ^ Z.of_nat k ->
  (forall k', k = S k' -> 0 < n / 256 ^ Z.of_nat k') ->
  asn1.parseLength_loop k (DER.digits k n ++ rest) acc = Ok (n, rest).
Proof.
  intros Hn. revert acc.
  induction k as [|k IH]; intros acc Hacc Htop; cbn [asn1.parseLength_loop DER.digits app].
  - subst acc. change (256 ^ Z.of_nat 0) with 1. rewrite Z.div_1_r. reflexivity.
  - pose proof (pow256_pos k) as Hp.
    assert (Hstep : n / 256 ^ Z.of_nat k / 256 = acc).
    { subst acc. rewrite Z.div_div by lia.
      rewrite Nat2Z.inj_succ, Z.pow_succ_r by lia.
      f_equal. lia. }
    assert (Hlt : acc < 2 ^ 23).
    { rewrite <- Hstep. apply Z.div_lt_upper_bound; [lia|].
      assert (n / 256 ^ Z.of_nat k <= n) by (apply Z.div_le_upper_bound; nia).
      lia. }
    destruct (Z.leb_spec (2 ^ 23) acc) as [|_]; [lia|].
    rewrite byte_to_Z_to_byte.
    rewrite lor_shiftl8 by (apply Z.mod_pos_bound; lia).
    assert (Hnew : acc * 256 + (n / 256 ^ Z.of_nat k) mod 256 = n / 256 ^ Z.of_nat k).
    { rewrite <- Hstep.
      pose proof (Z.div_mod (n / 256 ^ Z.of_nat k) 256 ltac:(lia)). lia. }
    rewrite Hnew.
    specialize (Htop k eq_refl).
    destruct (Z.eqb_spec (n / 256 ^ Z.of_nat k) 0) as [|_]; [lia|].
    apply IH; [reflexivity|].
    intros k' ->. 
    rewrite Nat2Z.inj_succ, Z.pow_succ_r in Htop by lia.
    pose proof (pow256_pos k') as Hp'.
    assert (n / (256 * 256 ^ Z.of_nat k') <= n / 256 ^ Z.of_nat k'); [|lia].
    apply Z.div_le_compat_l; lia.
Qed.

Lemma numDigits_top n :
  128 <= n -> 0 < n / 256 ^ (DER.numDigits n - 1).
Proof.
  intros Hn. unfold DER.numDigits.
  replace (Z.log2 n / 8 + 1 - 1) with (Z.log2 n / 8) by lia.
  pose proof (Z.log2_spec n ltac:(lia)) as [Hlow _].
  pose proof (Z.log2_nonneg n) as Hl.
  assert (H0 : 0 <= Z.log2 n / 8) by (apply Z.div_pos; lia).
  assert (Hle : 256 ^ (Z.log2 n / 8) <= n).
  { eapply Z.le_trans; [|exact Hlow].
    change 256 with (2 ^ 8). rewrite <- Z.pow_mul_r by lia.
    apply Z.pow_le_mono_r; [lia|].
    pose proof (Z.div_mod (Z.log2 n) 8 ltac:(lia)).
    pose proof (Z.mod_pos_bound (Z.log2 n) 8 ltac:(lia)). lia. }
  assert (0 < 256 ^ (Z.log2 n / 8)) by (apply Z.pow_pos_nonneg; lia).
  apply Z.div_str_pos. lia.
Qed.

Lemma numDigits_bound31 n : 0 <= n < 2 ^ 31 -> 1 <= DER.numDigits n <= 4.
Proof.
  intros Hn. unfold DER.numDigits.
  destruct (Z.eq_dec n 0) as [->|Hnz]; [vm_compute; split; discriminate|].
  assert (Z.log2 n < 31) by (apply Z.log2_lt_pow2; lia).
  pose proof (Z.log2_nonneg n).
  assert (0 <= Z.log2 n / 8) by (apply Z.div_pos; lia).
  assert (Z.log2 n / 8 < 4) by (apply Z.div_lt_upper_bound; lia).
  lia.
Qed.

(** A header whose tag number is below 31 and whose length is below 2^31 is
    read back as it was written. *)
Lemma parseTagAndLength_header_ok (b0 : byte) n rest :
  0 <= n < 2 ^ 31 ->
  Z.land (byte_to_Z b0) 31 <> 31 ->
  asn1.parseTagAndLength (b0 :: DER.lengthOctets n ++ rest)
  = Ok (asn1.mkTagAndLength (Z.shiftr (byte_to_Z b0) 6) (Z.land (byte_to_Z b0) 31)
          n (Z.land (byte_to_Z b0) 32 =? 32), rest).
Proof.
  intros Hn Htag.
  destruct (asn1.parseTagAndLength (b0 :: DER.lengthOctets n ++ rest))
    as [[t after]|msg] eqn:E.
  - apply parseTagAndLength_header in E as [-> ->]; [reflexivity|lia|exact Htag].
  - exfalso. revert E.
    unfold asn1.parseTagAndLength, asn1.parseTagNumber. cbv zeta.
    destruct (Z.eqb_spec (Z.land (byte_to_Z b0) 31) 31) as [|_]; [contradiction|].
    cbn [bind]. unfold DER.lengthOctets.
    destruct (Z.ltb_spec n 128) as [Hsmall|Hbig]; cbn [app].
    + rewrite byte_to_Z_to_byte, Z.mod_small by lia.
      destruct (land_low7 n ltac:(lia)) as [H7 H8]. rewrite H8.
      cbn [Z.eqb]. discriminate.
    + pose proof (numDigits_bound31 n Hn) as Hb.
      rewrite byte_to_Z_to_byte.
      assert (Hk : Z.land ((128 + DER.numDigits n) mod 256) 128 = 128 /\
                   Z.land ((128 + DER.numDigits n) mod 256) 127 = DER.numDigits n).
      { assert (Hc : DER.numDigits n = 1 \/ DER.numDigits n = 2 \/
                     DER.numDigits n = 3 \/ DER.numDigits n = 4) by lia.
        destruct Hc as [-> | [-> | [-> | ->]]]; split; reflexivity. }
      destruct Hk as [-> ->]. cbn [Z.eqb].
      destruct (Z.eqb_spec (DER.numDigits n) 0) as [|_]; [lia|].
      rewrite parseLength_loop_digits_ok.
      * cbn [bind]. destruct (Z.ltb_spec n 128) as [|_]; [lia|]. discriminate.
      * exact Hn.
      * rewrite Z2Nat.id by lia. symmetry. apply Z.div_small.
        split; [lia|apply numDigits_covers; lia].
      * intros k' Hk'.
        replace (Z.of_nat k') with (DER.numDigits n - 1) by lia.
        apply numDigits_top. exact Hbig.
Qed.

Lemma countElements_unfold (b0 : byte) (bs : list byte) :
  asn1.countElements (b0 :: bs) =
  match asn1.parseTagAndLength (b0 :: bs) with
  | Err e => Err e
  | Ok (t, after) =>
      if asn1.invalidLength (asn1.tl_length t) after
      then asn1.SyntaxError "truncated sequence"
      else bind (asn1.countElements (drop (Z.to_nat (asn1.tl_length t)) after))
             (fun n => Ok (S n))
  end.
Proof.
  rewrite asn1.countElements_equation_2.
  unfold asn1.inspect.
  assert (Hgen : forall r (Hr : asn1.parseTagAndLength (b0 :: bs) = r),
    asn1.countElements_unfold_clause_2 b0 bs (exist _ r Hr) =
    match r with
    | Err e => Err e
    | Ok (t, after) =>
        if asn1.invalidLength (asn1.tl_length t) after
        then asn1.SyntaxError "truncated sequence"
        else bind (asn1.countElements (drop (Z.to_nat (asn1.tl_length t)) after))
               (fun n => Ok (S n))
    end).
  { intros [[t after]|e] Hr; reflexivity. }
  apply Hgen.
Qed.

(** One encoded value, followed by anything, is read back by [parseField]. *)
Lemma parseFieldRawValue_dNSName (san : string) (rest : list byte) :
  len (bytes_of_string san) < 2 ^ 31 ->
  asn1.parseFieldRawValue (DER.dNSName san ++ rest)
  = Ok (asn1.mkRawValue 2 2 false (bytes_of_string san) (DER.dNSName san), rest).
Proof.
  intros Hlen. pose proof (len_nonneg (bytes_of_string san)) as Hnn.
  unfold asn1.parseFieldRawValue, DER.dNSName, DER.tlv. cbn [app].
  rewrite <- app_assoc.
  rewrite parseTagAndLength_header_ok by (try lia; vm_compute; discriminate).
  cbn [bind asn1.tl_length asn1.tl_class asn1.tl_tag asn1.tl_isCompound].
  unfold asn1.invalidLength.
  destruct (Z.ltb_spec (len (bytes_of_string san)) 0) as [|_]; [lia|].
  rewrite len_app.
  pose proof (len_nonneg rest).
  destruct (Z.ltb_spec (len (bytes_of_string san) + len rest)
              (len (bytes_of_string san))) as [|_]; [lia|].
  cbn [orb].
  assert (Hto : Z.to_nat (len (bytes_of_string san)) = length (bytes_of_string san))
    by (unfold len; lia).
  rewrite Hto, take_app_length, drop_app_length.
  set (hdr := DER.lengthOctets (len (bytes_of_string san))).
  assert (Hfull :
    take (length (DER.identifier 2 false 2 :: hdr ++ bytes_of_string san ++ rest)
          - length rest)
      (DER.identifier 2 false 2 :: hdr ++ bytes_of_string san ++ rest)
    = DER.identifier 2 false 2 :: hdr ++ bytes_of_string san).
  { replace (DER.identifier 2 false 2 :: hdr ++ bytes_of_string san ++ rest)
      with ((DER.identifier 2 false 2 :: hdr ++ bytes_of_string san) ++ rest)
      by (cbn [app]; rewrite <- app_assoc; reflexivity).
    replace (length ((DER.identifier 2 false 2 :: hdr ++ bytes_of_string san) ++ rest)
             - length rest)%nat
      with (length (DER.identifier 2 false 2 :: hdr ++ bytes_of_string san))
      by (rewrite (length_app _ rest); lia).
    apply take_app_length. }
  rewrite Hfull. reflexivity.
Qed.

Lemma len_concat_tail (san : string) (sans : list string) :
  len (concat (map DER.dNSName (san :: sans))) < 2 ^ 31 ->
  len (bytes_of_string san) < 2 ^ 31 /\
  len (concat (map DER.dNSName sans)) < 2 ^ 31.
Proof.
  cbn [map concat]. rewrite len_app. intros Hlen.
  pose proof (len_dNSName san).
  pose proof (len_nonneg (concat (map DER.dNSName sans))).
  pose proof (len_nonneg (bytes_of_string san)).
  lia.
Qed.

Lemma countElements_names (sans : list string) :
  len (concat (map DER.dNSName sans)) < 2 ^ 31 ->
  asn1.countElements (concat (map DER.dNSName sans)) = Ok (length sans).
Proof.
  induction sans as [|san sans IH]; intros Hlen.
  - reflexivity.
  - destruct (len_concat_tail san sans Hlen) as [Hsan Htail].
    pose proof (len_nonneg (bytes_of_string san)) as Hnn.
    cbn [map concat]. unfold DER.dNSName at 1, DER.tlv at 1. cbn [app].
    rewrite countElements_unfold, <- app_assoc.
    rewrite parseTagAndLength_header_ok by (try lia; vm_compute; discriminate).
    cbn [asn1.tl_length]. unfold asn1.invalidLength.
    destruct (Z.ltb_spec (len (bytes_of_string san)) 0) as [|_]; [lia|].
    rewrite len_app.
    pose proof (len_nonneg (concat (map DER.dNSName sans))).
    destruct (Z.ltb_spec (len (bytes_of_string san)
                          + len (concat (map DER.dNSName sans)))
                (len (bytes_of_string san))) as [|_]; [lia|].
    cbn [orb].
    replace (Z.to_nat (len (bytes_of_string san)))
      with (length (bytes_of_string san)) by (unfold len; lia).
    rewrite drop_app_length, IH by exact Htail. reflexivity.
Qed.

Lemma parseElements_names (sans : list string) :
  len (concat (map DER.dNSName sans)) < 2 ^ 31 ->
  asn1.parseElements (length sans) (concat (map DER.dNSName sans))
  = Ok (map parsedDNSValue sans).
Proof.
  induction sans as [|san sans IH]; intros Hlen.
  - reflexivity.
  - destruct (len_concat_tail san sans Hlen) as [Hsan Htail].
    cbn [map concat length asn1.parseElements].
    rewrite parseFieldRawValue_dNSName by exact Hsan.
    cbn [bind]. rewrite IH by exact Htail. reflexivity.
Qed.

(** [Unmarshal] into a slice, given the whole extension value, returns one
    raw value per name, in order, and leaves nothing. *)
Lemma UnmarshalRawValues_sequenceOfNames (sans : list string) :
  len (concat (map DER.dNSName sans)) < 2 ^ 31 ->
  asn1.UnmarshalRawValues (DER.sequenceOfNames sans)
  = Ok (map parsedDNSValue sans, []).
Proof.
  intros Hlen.
  unfold asn1.UnmarshalRawValues, asn1.parseFieldRawValues, DER.sequenceOfNames,
    DER.tlv.
  set (body := concat (map DER.dNSName sans)) in *.
  pose proof (len_nonneg body) as Hnn.
  rewrite parseTagAndLength_header_ok by (try lia; vm_compute; discriminate).
  cbn [bind asn1.tl_length asn1.tl_class asn1.tl_tag asn1.tl_isCompound].
  change (negb ((Z.shiftr (byte_to_Z (DER.identifier 0 true 16)) 6 =? asn1.ClassUniversal)
                && (Z.land (byte_to_Z (DER.identifier 0 true 16)) 31 =? asn1.TagSequence))
          || negb (Bool.eqb (Z.land (byte_to_Z (DER.identifier 0 true 16)) 32 =? 32) true))
    with false. cbv iota.
  unfold asn1.invalidLength.
  destruct (Z.ltb_spec (len body) 0) as [|_]; [lia|].
  destruct (Z.ltb_spec (len body) (len body)) as [|_]; [lia|].
  cbn [orb].
  replace (Z.to_nat (len body)) with (length body) by (unfold len; lia).
  rewrite take_ge, drop_ge by lia.
  unfold asn1.parseSequenceOf. subst body.
  rewrite countElements_names by exact Hlen. cbn [bind].
  rewrite parseElements_names by exact Hlen. reflexivity.
Qed.

(** The extension value round-trips through [asn1.Unmarshal] when the value
    itself is read into the slice: one raw value of class 2 and tag 2 per
    name, in order, whose bytes are the name's. *)
Lemma sequenceOfNames_round_trip (sans : list string) :
  len (concat (map DER.dNSName sans)) < 2 ^ 31 ->
  exists rawValues,
    asn1.UnmarshalRawValues (DER.sequenceOfNames sans) = Ok (rawValues, []) /\
    map (fun rv => string_of_bytes (asn1.Bytes rv)) rawValues = sans /\
    Forall (fun rv => asn1.Class rv = 2 /\ asn1.Tag rv = 2) rawValues.
Proof.
  intros Hlen. exists (map parsedDNSValue sans).
  split; [apply UnmarshalRawValues_sequenceOfNames; exact Hlen|].
  split.
  - rewrite map_map. unfold parsedDNSValue, string_of_bytes, bytes_of_string.
    cbn [asn1.Bytes].
    rewrite <- (map_id sans) at 2. apply map_ext.
    intros san. apply string_of_list_byte_of_string.
  - apply List.Forall_forall. intros rv Hin.
    apply in_map_iff in Hin as (san & <- & _).
    split; reflexivity.
Qed.

Example sequenceOfNames_round_trip_example :
  option_map (map (fun rv => string_of_bytes (asn1.Bytes rv)))
    (match asn1.UnmarshalRawValues (DER.sequenceOfNames exampleSANs) with
     | Ok (rawValues, []) => Some rawValues
     | _ => None
     end)
  = Some exampleSANs.
Proof. reflexivity. Qed.

(** ** What the parser accepts is a DER encoding *)

Lemma Z_to_byte_to_Z (b : byte) : Z_to_byte (byte_to_Z b) = b.
Proof.
  unfold Z_to_byte. rewrite Z.mod_small by apply byte_to_Z_range.
  unfold byte_to_Z. rewrite N2Z.id, Byte.of_to_N. reflexivity.
Qed.

(** A byte is the identifier octet of its own class, constructed bit and
    tag. *)
Lemma identifier_of_byte (b0 : byte) :
  DER.identifier (Z.shiftr (byte_to_Z b0) 6) (Z.land (byte_to_Z b0) 32 =? 32)
    (Z.land (byte_to_Z b0) 31) = b0.
Proof. destruct b0; reflexivity. Qed.

Lemma short_length_byte (b1 : byte) :
  Z.land (byte_to_Z b1) 128 = 0 ->
  Z.land (byte_to_Z b1) 127 = byte_to_Z b1 /\ byte_to_Z b1 < 128.
Proof.
  destruct b1; intros Hb; vm_compute in Hb; try discriminate Hb;
    split; reflexivity.
Qed.

Lemma long_length_byte (b1 : byte) :
  Z.land (byte_to_Z b1) 128 <> 0 ->
  b1 = Z_to_byte (128 + Z.land (byte_to_Z b1) 127).
Proof.
  destruct b1; intros Hb; try reflexivity; exfalso; apply Hb; reflexivity.
Qed.

Lemma parseLength_loop_canonical k : forall bytes acc v rest,
  0 <= acc ->
  asn1.parseLength_loop k bytes acc = Ok (v, rest) ->
  bytes = DER.digits k v ++ rest /\
  acc * 256 ^ Z.of_nat k <= v < (acc + 1) * 256 ^ Z.of_nat k /\
  (acc = 0 -> forall k', k = S k' -> 256 ^ Z.of_nat k' <= v).
Proof.
  induction k as [|k IH]; intros bytes acc v rest Hacc;
    cbn [asn1.parseLength_loop DER.digits app].
  - intros [= <- <-]. change (256 ^ Z.of_nat 0) with 1.
    split; [reflexivity|]. split; [lia|]. intros _ k' [=].
  - destruct bytes as [|b bs]; [discriminate|].
    destruct (2 ^ 23 <=? acc); [discriminate|].
    pose proof (byte_to_Z_range b) as Hb.
    rewrite lor_shiftl8 by exact Hb.
    destruct (Z.eqb_spec (acc * 256 + byte_to_Z b) 0) as [|Hnz]; [discriminate|].
    intros Hloop. apply IH in Hloop as (-> & Hrange & _); [|lia].
    pose proof (pow256_pos k) as Hp.
    rewrite Nat2Z.inj_succ, Z.pow_succ_r by lia.
    assert (Hdiv : v / 256 ^ Z.of_nat k = acc * 256 + byte_to_Z b).
    { symmetry. apply (Z.div_unique_pos v (256 ^ Z.of_nat k) _
                         (v - (acc * 256 + byte_to_Z b) * 256 ^ Z.of_nat k)); nia. }
    split; [|split].
    + rewrite Hdiv. f_equal.
      rewrite <- Z_to_byte_mod.
      replace ((acc * 256 + byte_to_Z b) mod 256) with (byte_to_Z b)
        by (rewrite Z.add_comm, Z.mod_add, Z.mod_small by lia; reflexivity).
      symmetry. apply Z_to_byte_to_Z.
    + nia.
    + intros -> k' [= <-]. nia.
Qed.

Lemma numDigits_of_range k v :
  256 ^ Z.of_nat k <= v < 256 ^ Z.of_nat (S k) ->
  DER.numDigits v = Z.of_nat (S k).
Proof.
  intros [Hlo Hhi]. unfold DER.numDigits.
  pose proof (pow256_pos k) as Hp.
  assert (Hv : 0 < v) by lia.
  change 256 with (2 ^ 8) in Hlo, Hhi.
  rewrite <- Z.pow_mul_r in Hlo, Hhi by lia.
  apply Z.log2_le_pow2 in Hlo; [|lia].
  apply Z.log2_lt_pow2 in Hhi; [|lia].
  assert (Z.log2 v / 8 = Z.of_nat k); [|lia].
  symmetry. apply (Z.div_unique_pos _ 8 _ (Z.log2 v - 8 * Z.of_nat k)); lia.
Qed.

(** A header that the parser accepts, with a tag number below 31, is the
    DER header of what it reports. *)
Lemma parseTagAndLength_canonical bytes t after :
  asn1.parseTagAndLength bytes = Ok (t, after) ->
  asn1.tl_tag t < 31 ->
  bytes = DER.identifier (asn1.tl_class t) (asn1.tl_isCompound t) (asn1.tl_tag t)
          :: DER.lengthOctets (asn1.tl_length t) ++ after.
Proof.
  unfold asn1.parseTagAndLength.
  destruct bytes as [|b0 bytes1]; [discriminate|]. cbv zeta.
  unfold asn1.parseTagNumber.
  destruct (Z.eqb_spec (Z.land (byte_to_Z b0) 31) 31) as [Heq|Hne].
  { unfold asn1.parseBase128Int.
    destruct (asn1.parseBase128Int_loop bytes1 0 0) as [[tag bytes2]|];
      cbn [bind]; [|discriminate].
    destruct (Z.ltb_spec tag 31); [discriminate|]. cbn [bind].
    destruct bytes2 as [|b1 bytes3]; [discriminate|].
    destruct (Z.land (byte_to_Z b1) 128 =? 0).
    - intros [= <- <-]. cbn [asn1.tl_tag]. lia.
    - destruct (_ =? 0); [discriminate|].
      destruct (asn1.parseLength_loop _ bytes3 0) as [[v r]|]; cbn [bind];
        [|discriminate].
      destruct (v <? 128); [discriminate|].
      intros [= <- <-]. cbn [asn1.tl_tag]. lia. }
  cbn [bind].
  destruct bytes1 as [|b1 bytes3]; [discriminate|].
  destruct (Z.eqb_spec (Z.land (byte_to_Z b1) 128) 0) as [Hshort|Hlong].
  - intros [= <- <-] _.
    cbn [asn1.tl_class asn1.tl_tag asn1.tl_length asn1.tl_isCompound].
    rewrite identifier_of_byte.
    destruct (short_length_byte b1 Hshort) as [-> Hlt].
    unfold DER.lengthOctets.
    destruct (Z.ltb_spec (byte_to_Z b1) 128) as [_|]; [|lia].
    rewrite Z_to_byte_to_Z. reflexivity.
  - destruct (Z.eqb_spec (Z.land (byte_to_Z b1) 127) 0) as [|Hk]; [discriminate|].
    destruct (asn1.parseLength_loop _ bytes3 0) as [[v r]|] eqn:E; cbn [bind];
      [|discriminate].
    destruct (Z.ltb_spec v 128) as [|Hv]; [discriminate|].
    intros [= <- <-] _.
    cbn [asn1.tl_class asn1.tl_tag asn1.tl_length asn1.tl_isCompound].
    rewrite identifier_of_byte.
    apply parseLength_loop_canonical in E as (-> & Hrange & Htop); [|lia].
    assert (Hkpos : 0 < Z.land (byte_to_Z b1) 127).
    { pose proof (Z.land_nonneg (byte_to_Z b1) 127). lia. }
    destruct (Z.to_nat (Z.land (byte_to_Z b1) 127)) as [|k] eqn:Ek; [lia|].
    specialize (Htop eq_refl k eq_refl).
    assert (Hnum : DER.numDigits v = Z.of_nat (S k))
      by (apply numDigits_of_range; lia).
    unfold DER.lengthOctets.
    destruct (Z.ltb_spec v 128) as [|_]; [lia|].
    rewrite Hnum, Nat2Z.id.
    replace (Z.of_nat (S k)) with (Z.land (byte_to_Z b1) 127) by lia.
    rewrite <- long_length_byte by exact Hlong.
    reflexivity.
Qed.

(** What [Unmarshal] into a [RawValue] accepts, with a tag number below 31,
    is the DER encoding of the value it returns, followed by [rest]. *)
Lemma UnmarshalRawValue_canonical value seq rest :
  asn1.UnmarshalRawValue value = Ok (seq, rest) ->
  asn1.Tag seq < 31 ->
  value = DER.tlv (asn1.Class seq) (asn1.IsCompound seq) (asn1.Tag seq)
            (asn1.Bytes seq) ++ rest.
Proof.
  unfold asn1.UnmarshalRawValue, asn1.parseFieldRawValue.
  destruct value as [|b0 bytes]; [discriminate|].
  destruct (asn1.parseTagAndLength (b0 :: bytes)) as [[t after]|msg] eqn:E;
    cbn [bind]; [|discriminate].
  unfold asn1.invalidLength.
  destruct (Z.ltb_spec (asn1.tl_length t) 0) as [|Hnn]; [discriminate|].
  destruct (Z.ltb_spec (len after) (asn1.tl_length t)) as [|Hle]; [discriminate|].
  cbn [orb]. intros [= <- <-]. cbn [asn1.Tag asn1.Class asn1.IsCompound asn1.Bytes].
  intros Htag. rewrite (parseTagAndLength_canonical _ _ _ E Htag).
  unfold DER.tlv. cbn [app]. f_equal.
  assert (Hlen : len (take (Z.to_nat (asn1.tl_length t)) after) = asn1.tl_length t).
  { unfold len in *. rewrite length_take. lia. }
  rewrite Hlen, <- app_assoc, take_drop. reflexivity.
Qed.


(** ** Absent and malformed subjectAltName extensions *)

Lemma len_eqb_0 {A} (l : list A) : (len l =? 0) = match l with [] => true | _ => false end.
Proof. destruct l; reflexivity. Qed.



Section SummariesFacts.
Context `{Stringers}.


End SummariesFacts.


Example absent_san_summary :
  @printCSRInfo plainStringers
    (x509.mkCertificateRequest exampleSubject x509.SHA256WithRSA [] [])
  = [ "=== Certificate Signing Request Information ===" +:+ nl +:+ nl;
      "Subject: CN=example.com, O=Example Inc, OU=IT, C=US, ST=California, L=San Francisco"
        +:+ nl;
      "Signature Algorithm: SHA256-RSA" +:+ nl;
      nl +:+ "Signature Valid: true" +:+ nl ].
Proof. reflexivity. Qed.

(** ** The DNS names of the self-signed certificate *)

Lemma contains_In (slice : list string) (str : string) :
  contains slice str = true <-> In str slice.
Proof.
  induction slice as [|item rest IH]; simpl.
  - split; [discriminate|contradiction].
  - destruct (String.eqb_spec item str) as [->|Hne].
    + split; [intros _; left; reflexivity|reflexivity].
    + rewrite IH. split; [intros Hin; right; exact Hin|].
      intros [Heq|Hin]; [contradiction|exact Hin].
Qed.

Lemma strings_Contains_dot (s : string) :
  strings_Contains s "." = true <-> hasDot s.
Proof.
  unfold hasDot. induction s as [|c s IH].
  - simpl. split; [discriminate|contradiction].
  - cbn [strings_Contains String.prefix list_ascii_of_string In].
    destruct (ascii_dec "." c) as [<-|Hne].
    + replace (String.prefix "" s) with true by (destruct s; reflexivity).
      split; [intros _; left; reflexivity|reflexivity].
    + rewrite IH. split; [intros Hin; right; exact Hin|].
      intros [Heq|Hin]; [congruence|exact Hin].
Qed.

Lemma main_certTemplate_DNSNames serialNumber subj notBefore validDays sans cn :
  x509.DNSNames (main_certTemplate serialNumber subj notBefore validDays sans cn)
  = if negb (contains sans cn) && strings_Contains cn "."
    then sans ++ [cn] else sans.
Proof.
  unfold main_certTemplate. cbn [x509.DNSNames].
  destruct sans as [|san sans]; reflexivity.
Qed.

(** C3.  The DNS names of the generated certificate are the names supplied,
    followed by the common name exactly when the common name contains a dot
    and is not among the names supplied; otherwise they are the names
    supplied. *)
Theorem certificate_dns_names serialNumber subj notBefore validDays
    (sans : list string) (cn : string) :
  let certTemplate :=
    main_certTemplate serialNumber subj notBefore validDays sans cn in
  let cert := x509.parsedCertificate certTemplate certTemplate in
  (x509.DNSNames cert = sans ++ [cn] <-> hasDot cn /\ ~ In cn sans) /\
  (~ (hasDot cn /\ ~ In cn sans) -> x509.DNSNames cert = sans).
Proof.
  cbv zeta. unfold x509.parsedCertificate. cbn [x509.DNSNames].
  rewrite main_certTemplate_DNSNames.
  pose proof (contains_In sans cn) as Hin.
  pose proof (strings_Contains_dot cn) as Hdot.
  destruct (contains sans cn) eqn:Ec, (strings_Contains cn ".") eqn:Ed;
    cbn [negb andb].
  - split.
    + split.
      * intros Heq. apply (f_equal (@length string)) in Heq.
        rewrite length_app in Heq. simpl in Heq. lia.
      * intros [_ Hnot]. exfalso. apply Hnot, Hin. reflexivity.
    + reflexivity.
  - split.
    + split.
      * intros Heq. apply (f_equal (@length string)) in Heq.
        rewrite length_app in Heq. simpl in Heq. lia.
      * intros [_ Hnot]. exfalso. apply Hnot, Hin. reflexivity.
    + reflexivity.
  - split.
    + split; [|reflexivity].
      intros _. split; [apply Hdot; reflexivity|].
      intros Hc. apply Hin in Hc. discriminate.
    + intros Hnot. exfalso. apply Hnot.
      split; [apply Hdot; reflexivity|].
      intros Hc. apply Hin in Hc. discriminate.
  - split.
    + split.
      * intros Heq. apply (f_equal (@length string)) in Heq.
        rewrite length_app in Heq. simpl in Heq. lia.
      * intros [Hd _]. apply Hdot in Hd. discriminate.
    + reflexivity.
Qed.

Lemma certificate_dns_names_witness :
  ~ (hasDot "example.com" /\ ~ In "example.com" exampleSANs) /\
  x509.DNSNames
    (x509.parsedCertificate
       (main_certTemplate 1 exampleSubject 0 730 exampleSANs "example.com")
       (main_certTemplate 1 exampleSubject 0 730 exampleSANs "example.com"))
  = exampleSANs.
Proof.
  assert (Hnot : ~ (hasDot "example.com" /\ ~ In "example.com" exampleSANs)).
  { intros [_ Hn]. apply Hn. left. reflexivity. }
  split; [exact Hnot|].
  exact (proj2 (certificate_dns_names 1 exampleSubject 0 730 exampleSANs
                  "example.com") Hnot).
Defined.

Example certificate_dns_names_appended :
  x509.DNSNames
    (main_certTemplate 1 exampleSubject 0 365 ["www.example.com"] "example.com")
  = ["www.example.com"; "example.com"].
Proof. reflexivity. Qed.

Example certificate_dns_names_no_dot :
  x509.DNSNames (main_certTemplate 1 exampleSubject 0 365 [] "localhost") = [].
Proof. reflexivity. Qed.

(** ** The key size *)

Lemma validSizes_true (keySize : Z) :
  mapIndex validSizes keySize = true <->
  keySize = 2048 \/ keySize = 3072 \/ keySize = 4096.
Proof.
  unfold mapIndex, validSizes.
  destruct (decide (keySize = 2048)) as [->|H1].
  { rewrite lookup_insert_eq. simpl. intuition. }
  rewrite lookup_insert_ne by congruence.
  destruct (decide (keySize = 3072)) as [->|H2].
  { rewrite lookup_insert_eq. simpl. intuition. }
  rewrite lookup_insert_ne by congruence.
  destruct (decide (keySize = 4096)) as [->|H3].
  { rewrite lookup_insert_eq. simpl. intuition. }
  rewrite lookup_insert_ne by congruence.
  rewrite lookup_empty. simpl. intuition discriminate.
Qed.

Section KeySize.
Context `{Fmt} `{System}.

(** C4, amended.  The size asked for is the integer that [fmt.Sscanf]
    stores from the answer (none for an empty answer or a failed scan), not
    the answer as it is typed.  When that integer is 2048, 3072 or 4096 it
    is the key size; in every other case the key size is 2048.  The key
    size is the argument of [rsa.GenerateKey]: when that call fails for it
    the run ends with the error, and the key that the run goes on with is
    the one returned for it.  Since the scan reads the leading numeral and
    ignores what follows, an answer that is one of the three sizes followed
    by text that does not start with a digit gives that size. *)
Theorem key_size_validation (a : Answers) (w : World) :
  let keySize := main_keySize (keySizeStr a) in
  (forall n, requestedKeySize (keySizeStr a) = Some n -> allowedKeySize n ->
             keySize = n) /\
  ((forall n, requestedKeySize (keySizeStr a) = Some n -> ~ allowedKeySize n) ->
   keySize = 2048) /\
  (forall err,
     GenerateKey keySize = Err err ->
     codeOf (main_build a w) = 1 /\
     last (stdout (worldOf (main_build a w)))
     = Some ("Error generating private key: " +:+ err +:+ nl)) /\
  (forall privateKey csrBytes w',
     main_build a w = Next (privateKey, csrBytes) w' ->
     GenerateKey keySize = Ok privateKey) /\
  (forall typed n rest,
     In (typed, n) typedSizes -> startsWithDigit rest = false ->
     @main_keySize decimalFmt (typed +:+ rest) = n).
Proof.
  cbv zeta. split; [|split; [|split; [|split]]].
  - unfold requestedKeySize, main_keySize, allowedKeySize.
    destruct (String.eqb (keySizeStr a) "") eqn:Eempty; cbn [negb];
      [discriminate|].
    destruct (Sscanf_d (keySizeStr a)) as [n|]; [|discriminate].
    pose proof (validSizes_true n) as Hvalid.
    destruct (mapIndex validSizes n) eqn:Ev; cbn [negb].
    + intros m [= <-] _. reflexivity.
    + intros m [= <-] Hallowed. apply Hvalid in Hallowed. discriminate.
  - unfold requestedKeySize, main_keySize, allowedKeySize.
    destruct (String.eqb (keySizeStr a) "") eqn:Eempty; cbn [negb];
      [reflexivity|].
    destruct (Sscanf_d (keySizeStr a)) as [n|]; [|reflexivity].
    pose proof (validSizes_true n) as Hvalid.
    destruct (mapIndex validSizes n) eqn:Ev; cbn [negb]; [|reflexivity].
    intros Hnot. exfalso. apply (Hnot n eq_refl). apply Hvalid. reflexivity.
  - intros err Hgen. unfold main_build, bindM, Print, orExit, write.
    rewrite Hgen. cbn [codeOf worldOf stdout].
    split; [reflexivity|apply last_snoc].
  - intros privateKey csrBytes w'.
    unfold main_build, bindM, Print, orExit, ret.
    destruct (GenerateKey (main_keySize (keySizeStr a))) as [key|err];
      [|discriminate].
    destruct (main_template _ _) as [template|err]; [|discriminate].
    destruct (0 <? len _);
      destruct (CreateCertificateRequest template key) as [bytes|err];
      try discriminate; intros [= <- _ _]; reflexivity.
  - intros typed n rest Hin Hrest.
    assert (Hscan : forall acc,
      scanDigits rest acc = acc).
    { intros acc. destruct rest as [|c rest]; [reflexivity|].
      unfold startsWithDigit in Hrest. cbn [scanDigits].
      destruct (digitValue c); [discriminate|reflexivity]. }
    unfold typedSizes in Hin.
    destruct Hin as [[= <- <-]|[[= <- <-]|[[= <- <-]|[]]]];
      cbv [String.append];
      unfold main_keySize, Sscanf_d, decimalFmt, scanDecimal, scanNumber;
      cbn;
      repeat match goal with
             | |- context [digitValue ?c] =>
                 let v := eval vm_compute in (digitValue c) in
                 change (digitValue c) with v
             end;
      cbv iota beta; rewrite Hscan; reflexivity.
Qed.

End KeySize.

Lemma key_size_validation_witness :
  (forall n, @requestedKeySize decimalFmt (keySizeStr weakKeyAnswers) = Some n ->
             ~ allowedKeySize n) /\
  @main_keySize decimalFmt (keySizeStr weakKeyAnswers) = 2048.
Proof.
  assert (Hreq : forall n,
            @requestedKeySize decimalFmt (keySizeStr weakKeyAnswers) = Some n ->
            ~ allowedKeySize n).
  { intros n Hn. vm_compute in Hn. injection Hn as <-.
    unfold allowedKeySize. lia. }
  split; [exact Hreq|].
  exact (proj1 (proj2 (@key_size_validation decimalFmt exampleSystem
                         weakKeyAnswers emptyWorld)) Hreq).
Defined.

(** C4, as stated, fails: the answer "4096 bits" is none of the three sizes,
    yet the scan reads 4096 from it, and the key is generated with 4096
    bits, not with 2048. *)
Lemma key_size_kept_with_trailing_text :
  ~ In (keySizeStr wordyKeyAnswers) ["2048"; "3072"; "4096"] /\
  @main_keySize decimalFmt (keySizeStr wordyKeyAnswers) = 4096 /\
  @main_keySize decimalFmt (keySizeStr wordyKeyAnswers) <> 2048 /\
  exists csrBytes w',
    @main_build decimalFmt exampleSystem wordyKeyAnswers emptyWorld
    = Next (exampleKey, csrBytes) w' /\
    stdout w'
    = [nl +:+ "Generating RSA private key (4096 bits)..." +:+ nl].
Proof.
  split; [intros [Hc|[Hc|[Hc|[]]]]; discriminate Hc|].
  split; [reflexivity|]. split; [vm_compute; discriminate|].
  eexists _, _. vm_compute. split; reflexivity.
Qed.

Example key_size_4096 : @main_keySize decimalFmt "4096" = 4096.
Proof. reflexivity. Qed.

Example key_size_not_a_number : @main_keySize decimalFmt "large" = 2048.
Proof. reflexivity. Qed.

Example key_size_empty : @main_keySize decimalFmt "" = 2048.
Proof. reflexivity. Qed.

(** [Sscanf] stops at the first character that is not a digit and ignores
    what follows, so this answer asks for 4096. *)
Example key_size_trailing_text : @main_keySize decimalFmt "4096 bits" = 4096.
Proof. reflexivity. Qed.

(** ** The distinguished-name formatter *)

Lemma formatName_parts (name : pkix.Name) :
  formatName name = Join (renderedParts name) ", ".
Proof.
  unfold formatName, renderedParts. cbv zeta.
  rewrite !appendEach_map, <- !app_assoc.
  destruct (String.eqb (pkix.CommonName name) ""); reflexivity.
Qed.

Lemma length_append (s t : string) :
  String.length (s +:+ t) = (String.length s + String.length t)%nat.
Proof.
  induction s as [|c s IH]; [reflexivity|].
  change (String c s +:+ t) with (String c (s +:+ t)).
  cbn [String.length]. rewrite IH. reflexivity.
Qed.

Lemma weight_app (l k : list string) :
  weight (l ++ k) = (weight l + weight k)%nat.
Proof. unfold weight. rewrite map_app, list_sum_app. reflexivity. Qed.

(** The joined string has the length of its parts and of the separators
    between them. *)
Lemma Join_length (parts : list string) :
  String.length (Join parts ", ") = (weight parts - 2)%nat.
Proof.
  induction parts as [|p parts IH]; [reflexivity|].
  destruct parts as [|q parts].
  - change (Join [p] ", ") with p. unfold weight. simpl. lia.
  - change (Join (p :: q :: parts) ", ")
      with (p +:+ ", " +:+ Join (q :: parts) ", ").
    rewrite !length_append, IH. unfold weight. simpl. lia.
Qed.

(** The subject that [main] assembles lists every one of the five fields,
    blank or not; the identity lists a field only when it is not blank. *)
Lemma blank_fields_weigh (a : Answers) :
  blankField a ->
  (weight (identityParts a) < weight (renderedParts (main_subj a)))%nat /\
  (4 <= weight (renderedParts (main_subj a)))%nat.
Proof.
  unfold blankField, identityParts, renderedParts, main_subj, identityPart.
  cbn [pkix.CommonName pkix.Organization pkix.OrganizationalUnit pkix.Country
       pkix.Province pkix.Locality map].
  rewrite !weight_app.
  set (cn := weight (if String.eqb (commonName a) "" then []
                     else ["CN=" +:+ commonName a])).
  destruct (String.eqb_spec (organization a) "") as [Ho|Ho];
    destruct (String.eqb_spec (organizationalUnit a) "") as [Hou|Hou];
    destruct (String.eqb_spec (country a) "") as [Hc|Hc];
    destruct (String.eqb_spec (state a) "") as [Hst|Hst];
    destruct (String.eqb_spec (locality a) "") as [Hl|Hl];
    unfold weight; simpl; rewrite ?length_append; simpl;
    intros Hblank;
    try (exfalso; destruct Hblank as [Hb|[Hb|[Hb|[Hb|Hb]]]]; contradiction);
    lia.
Qed.

(** C5 (the code departs from the claim).  [formatName] itself joins one
    part per listed value in the order CN, O, OU, C, ST, L, and leaves out
    an empty common name and a field that lists no value.  But [main] stores
    each of the five other fields as a one-element list, also when the
    answer is blank (lines 481-485), and [formatName] guards only the common
    name against the empty string.  So in the subject of every request that
    [main] builds, a field that is absent from the identity is rendered as
    an empty part: the rendering differs from that of the identity as soon
    as one of the five fields is blank, and agrees with it when none is. *)
Theorem blank_fields_rendered_empty (a : Answers) (sans : list string) :
  exists template,
    main_template (main_subj a) sans = Ok template /\
    let name := x509.csrSubject (x509.parsedRequest template) in
    (forall any : pkix.Name, formatName any = Join (renderedParts any) ", ") /\
    (blankField a -> formatName name <> Join (identityParts a) ", ") /\
    (~ blankField a -> formatName name = Join (identityParts a) ", ") /\
    (organization a = "" -> In "O=" (renderedParts name)) /\
    (organizationalUnit a = "" -> In "OU=" (renderedParts name)) /\
    (country a = "" -> In "C=" (renderedParts name)) /\
    (state a = "" -> In "ST=" (renderedParts name)) /\
    (locality a = "" -> In "L=" (renderedParts name)).
Proof.
  assert (Htemplate : exists template,
    main_template (main_subj a) sans = Ok template /\
    x509.csrSubject (x509.parsedRequest template) = main_subj a).
  { unfold main_template, sanExtension, asn1.Marshal.
    destruct (0 <? len sans); cbn [bind]; eexists; split; reflexivity. }
  destruct Htemplate as (template & Ht & Hsubj).
  exists template. split; [exact Ht|]. cbv zeta. rewrite Hsubj.
  split; [exact formatName_parts|].
  split; [|split].
  - intros Hblank Heq.
    destruct (blank_fields_weigh a Hblank) as [Hlt Hfour].
    apply (f_equal String.length) in Heq.
    rewrite formatName_parts, !Join_length in Heq. lia.
  - intros Hnone. rewrite formatName_parts. f_equal.
    unfold blankField, identityParts, renderedParts, main_subj, identityPart
      in *.
    cbn [pkix.CommonName pkix.Organization pkix.OrganizationalUnit pkix.Country
         pkix.Province pkix.Locality map].
    destruct (String.eqb_spec (organization a) "");
      destruct (String.eqb_spec (organizationalUnit a) "");
      destruct (String.eqb_spec (country a) "");
      destruct (String.eqb_spec (state a) "");
      destruct (String.eqb_spec (locality a) "");
      try (exfalso; apply Hnone; tauto).
    reflexivity.
  - unfold renderedParts, main_subj.
    cbn [pkix.CommonName pkix.Organization pkix.OrganizationalUnit pkix.Country
         pkix.Province pkix.Locality map].
    repeat split; intros ->; rewrite !in_app_iff; cbn [In]; tauto.
Qed.

Lemma blank_fields_rendered_empty_witness :
  blankField bareAnswers /\
  exists template,
    main_template (main_subj bareAnswers) [] = Ok template /\
    formatName (x509.csrSubject (x509.parsedRequest template))
    <> Join (identityParts bareAnswers) ", ".
Proof.
  assert (Hblank : blankField bareAnswers) by (left; reflexivity).
  split; [exact Hblank|].
  destruct (blank_fields_rendered_empty bareAnswers [])
    as (template & Ht & _ & Hdiffer & _).
  exists template. split; [exact Ht|exact (Hdiffer Hblank)].
Defined.

(** What the decoder prints for the request of a user who gives only the
    common name, and what the identity would read. *)
Example formatName_blank_answers :
  formatName (main_subj bareAnswers) = "CN=example.com, O=, OU=, C=, ST=, L="
  /\ Join (identityParts bareAnswers) ", " = "CN=example.com".
Proof. split; reflexivity. Qed.

Example formatName_example :
  formatName exampleSubject
  = "CN=example.com, O=Example Inc, OU=IT, C=US, ST=California, L=San Francisco".
Proof. reflexivity. Qed.

Example formatName_no_common_name :
  formatName (pkix.mkName "" ["A"; "B"] [] ["US"] [] []) = "O=A, O=B, C=US".
Proof. reflexivity. Qed.

(** ** The generation path as a whole *)

(** Walks through the calls of [main_generate] in their order, one case per
    result. *)
Ltac outcome_cases :=
  repeat (match goal with
          | p : _ * _ |- _ => destruct p
          | |- context [bind (match ?x with Ok _ => _ | Err _ => _ end) _] =>
              destruct x eqn:?
          | |- context [bind (if ?b then _ else _) _] => destruct b eqn:?
          | |- context [bind (match ?x with Some _ => _ | None => _ end) _] =>
              destruct x eqn:?
          | |- context [bind ?r _] => destruct r eqn:?
          | |- context [if ?b then _ else _] => destruct b eqn:?
          end; cbn [bind]).

Section GenerationFacts.
Context `{Fmt} `{System}.

(** The certificate of a run is the decoded view of the template signed by
    itself; the template holds the number that was drawn and the instant
    that was read. *)
Lemma main_generate_certificate flags a out cert :
  main_generate flags a = Ok out ->
  outCertificate out = Some cert ->
  exists serialNumber,
    let certTemplate :=
      main_certTemplate serialNumber (main_subj a) time_Now (outValidDays out)
        (outSANs out) (commonName a) in
    cert = x509.parsedCertificate certTemplate certTemplate /\
    outValidDays out =
      main_validDays flags (main_createSelfsigned flags (selfSigned a))
        (validDaysStr a) /\
    outSANs out = main_sans (addSANs a) (sanLines a) /\
    main_createSelfsigned flags (selfSigned a) = true.
Proof.
  unfold main_generate, orFail, fileSaved. cbv zeta.
  outcome_cases; try discriminate;
    intros [= <-]; cbn [outCertificate outValidDays outSANs];
    try discriminate;
    intros [= <-]; eexists; repeat split.
Qed.

(** When every call succeeds the run yields its outcome, with a certificate
    when one is asked for. *)
Lemma main_generate_clean flags a privateKey csrBytes :
  savesCleanly flags a privateKey csrBytes ->
  (main_createSelfsigned flags (selfSigned a) = false
   \/ exists derBytes, certifiesCleanly flags a privateKey derBytes) ->
  exists out,
    main_generate flags a = Ok out /\
    (main_createSelfsigned flags (selfSigned a) = true ->
     exists cert, outCertificate out = Some cert).
Proof.
  intros (Hg & (template & Ht & Hc) & Hdir & Hck & Hwk & Hcc & Hwc) Hcert.
  unfold keyPEM, csrPEM in *.
  unfold main_generate, orFail, fileSaved. cbv zeta.
  rewrite Hg. cbn [bind]. rewrite Ht. cbn [bind]. rewrite Hc. cbn [bind].
  assert (Hmk :
    (if negb (String.eqb (outputDirFlag flags) "")
     then match match MkdirAll_error (outputDirFlag flags) with
                | Some err => Err err
                | None => Ok tt
                end with
          | Ok a0 => Ok a0
          | Err err => Err ("Error creating output directory: " +:+ err)
          end
     else Ok tt) = Ok tt).
  { destruct (String.eqb_spec (outputDirFlag flags) ""); cbn [negb];
      [reflexivity|]. rewrite Hdir by assumption. reflexivity. }
  rewrite Hmk. cbn [bind]. rewrite Hck, Hwk. cbn [bind].
  rewrite Hcc, Hwc. cbn [bind].
  destruct (main_createSelfsigned flags (selfSigned a)) eqn:Hs.
  - destruct Hcert as [[=]|(derBytes & serialNumber & Hr & Hd & Hcr & Hwr)].
    unfold certTemplateOf, crtPEM in *. rewrite Hs in Hd.
    rewrite Hr. cbn [bind]. rewrite Hd. cbn [bind]. rewrite Hcr, Hwr.
    cbn [bind]. eexists. split; [reflexivity|]. intros _.
    cbn [outCertificate]. eauto.
  - eexists. split; [reflexivity|discriminate].
Qed.

Context `{Stringers}.

(** C6.  Every self-signed certificate that a run produces has its issuer
    equal to its subject, so the decoder's self-signed flag is true; its
    key usage is exactly digital signature plus key encipherment (the
    decoder lists these two and no other), and its extended key usage is
    the one-element list of server authentication. *)
Theorem self_signed_certificate_profile flags a out cert :
  main_generate flags a = Ok out ->
  outCertificate out = Some cert ->
  x509.Subject cert = x509.Issuer cert /\
  isSelfSigned cert = true /\
  x509.KeyUsage cert
    = x509.KeyUsageDigitalSignature + x509.KeyUsageKeyEncipherment /\
  keyUsageLines (x509.KeyUsage cert)
    = [Println "  Digital Signature"; Println "  Key Encipherment"] /\
  x509.ExtKeyUsage_ cert = [x509.ExtKeyUsageServerAuth] /\
  extKeyUsageLines (x509.ExtKeyUsage_ cert)
    = [Println (nl +:+ "Extended Key Usage:");
       Println "  Server Authentication"].
Proof.
  intros Hrun Hcert.
  destruct (main_generate_certificate _ _ _ _ Hrun Hcert) as (serial & -> & _).
  unfold isSelfSigned, x509.parsedCertificate, main_certTemplate.
  cbn [x509.Subject x509.Issuer x509.KeyUsage x509.ExtKeyUsage_].
  rewrite String.eqb_refl. repeat split.
Qed.

End GenerationFacts.

Lemma self_signed_certificate_profile_witness :
  @main_generate decimalFmt exampleSystem selfSignedFlags exampleAnswers
    = Ok exampleOutcome /\
  outCertificate exampleOutcome = Some exampleCertificate /\
  x509.Subject exampleCertificate = x509.Issuer exampleCertificate /\
  @isSelfSigned plainStringers exampleCertificate = true /\
  x509.KeyUsage exampleCertificate
    = x509.KeyUsageDigitalSignature + x509.KeyUsageKeyEncipherment /\
  keyUsageLines (x509.KeyUsage exampleCertificate)
    = [Println "  Digital Signature"; Println "  Key Encipherment"] /\
  x509.ExtKeyUsage_ exampleCertificate = [x509.ExtKeyUsageServerAuth] /\
  extKeyUsageLines (x509.ExtKeyUsage_ exampleCertificate)
    = [Println (nl +:+ "Extended Key Usage:");
       Println "  Server Authentication"].
Proof.
  assert (Hrun : @main_generate decimalFmt exampleSystem selfSignedFlags
                   exampleAnswers = Ok exampleOutcome) by reflexivity.
  assert (Hcert : outCertificate exampleOutcome = Some exampleCertificate)
    by reflexivity.
  split; [exact Hrun|]. split; [exact Hcert|].
  exact (@self_signed_certificate_profile decimalFmt exampleSystem
           plainStringers selfSignedFlags exampleAnswers
           exampleOutcome exampleCertificate Hrun Hcert).
Defined.

(** ** The decoder's errors *)

(** Closes [~ decodeFailure] on a branch where the block type is [Ht] and
    its parser succeeded. *)
Ltac decode_succeeds Ep Ht :=
  let Hc := fresh "Hc" in
  let Hp' := fresh "Hp" in
  let Hp := fresh "Hp" in
  intros [[? [=]] | [(? & [= <-] & Hp) | (? & ? & ? & [= <-] & Hp & Hc)]];
  [congruence|];
  assert (Hp' := Hp);
  rewrite Ep in Hp';
  injection Hp' as <- <-;
  decompose [or and ex] Hc; clear Hc;
  try congruence;
  try (match goal with
       | Hall : forall _, _ <> _ |- _ => eapply Hall; congruence
       end);
  try (match goal with
       | Hk : ~ _ |- _ => apply Hk; rewrite Ht; tauto
       end).

Section DecodeFacts.
Context `{Stringers} `{Fmt} `{Decoders}.

(** C7.  [decodeFile] returns an error exactly when the file cannot be
    read, or holds no PEM block, or the bytes of its first block do not
    parse as the structure that the block type names, or the block type is
    none of the four known ones, or the block is a PKCS#8 key that is not
    an RSA key; in every other case it returns [nil]. *)
Theorem decodeFile_error_iff (filePath : string) :
  ((exists msg, decodeFile filePath = Err msg) <-> decodeFailure filePath) /\
  ((exists out, decodeFile filePath = Ok out) <-> ~ decodeFailure filePath).
Proof.
  assert (Hdec : (exists msg, decodeFile filePath = Err msg /\ decodeFailure filePath)
                 \/ (exists out, decodeFile filePath = Ok out /\ ~ decodeFailure filePath)).
  { unfold decodeFile, decodeFailure, knownBlockType.
    destruct (ReadFile filePath) as [data|err].
    2:{ left. eauto 8. }
    destruct (pem_Decode data) as [[block rest]|] eqn:Ep.
    2:{ left. eexists. split; [reflexivity|]. right. left. eauto. }
    destruct (String.eqb_spec (pem.Type_ block) "CERTIFICATE") as [Ht|Hn1].
    { destruct (ParseCertificate (pem.Bytes block)) as [cert|err] eqn:E.
      - right. eexists. split; [reflexivity|]. decode_succeeds Ep Ht.
      - left. eexists. split; [reflexivity|]. right. right.
        exists data, block, rest. split; [reflexivity|]. split; [exact Ep|]. left. eauto. }
    destruct (String.eqb_spec (pem.Type_ block) "CERTIFICATE REQUEST") as [Ht|Hn2].
    { destruct (ParseCertificateRequest (pem.Bytes block)) as [csr|err] eqn:E.
      - right. eexists. split; [reflexivity|]. decode_succeeds Ep Ht.
      - left. eexists. split; [reflexivity|]. right. right.
        exists data, block, rest. split; [reflexivity|]. split; [exact Ep|]. right. left. eauto. }
    destruct (String.eqb_spec (pem.Type_ block) "RSA PRIVATE KEY") as [Ht|Hn3].
    { destruct (ParsePKCS1PrivateKey (pem.Bytes block)) as [key|err] eqn:E.
      - right. eexists. split; [reflexivity|]. decode_succeeds Ep Ht.
      - left. eexists. split; [reflexivity|]. right. right.
        exists data, block, rest. split; [reflexivity|]. split; [exact Ep|]. right. right. left. eauto. }
    destruct (String.eqb_spec (pem.Type_ block) "PRIVATE KEY") as [Ht|Hn4].
    { destruct (ParsePKCS8PrivateKey (pem.Bytes block)) as [key|err] eqn:E.
      - destruct key as [rsaKey| | |].
        1:{ right. eexists. split; [reflexivity|]. decode_succeeds Ep Ht. }
        all: left; eexists; (split; [reflexivity|]); right; right;
          exists data, block, rest; (split; [reflexivity|]); (split; [exact Ep|]);
          right; right; right; right; left; (split; [exact Ht|]);
          eexists; (split; [exact E|]); discriminate.
      - left. eexists. split; [reflexivity|]. right. right.
        exists data, block, rest. split; [reflexivity|]. split; [exact Ep|].
        right. right. right. left. eauto. }
    left. eexists. split; [reflexivity|]. right. right.
    exists data, block, rest. split; [reflexivity|]. split; [exact Ep|].
    right. right. right. right. right. intuition. }
  destruct Hdec as [(msg & Hmsg & Hfail) | (out & Hout & Hnot)].
  - split; split.
    + intros _. exact Hfail.
    + intros _. eauto.
    + intros [out Hout]. congruence.
    + intros Hnot. contradiction.
  - split; split.
    + intros [msg Hmsg]. congruence.
    + intros Hfail. contradiction.
    + intros _. exact Hnot.
    + intros _. eauto.
Qed.

End DecodeFacts.

Example decodeFile_missing_file :
  @decodeFile plainStringers decimalFmt memoryDecoders "cert.crt"
  = Err "Error reading file: open cert.crt: no such file or directory".
Proof. reflexivity. Qed.

Example decodeFile_no_block :
  @decodeFile plainStringers decimalFmt memoryDecoders "notes.txt"
  = Err "Failed to parse PEM block from file".
Proof. reflexivity. Qed.

Example decodeFile_unknown_block :
  @decodeFile plainStringers decimalFmt memoryDecoders "ec.pem"
  = Err "Unsupported PEM block type: EC PRIVATE KEY".
Proof. reflexivity. Qed.

Example decodeFile_key_not_rsa :
  @decodeFile plainStringers decimalFmt memoryDecoders "ed25519.pem"
  = Err "Unsupported private key type".
Proof. reflexivity. Qed.

(** ** The validity window *)

Lemma wrap64_small (z : Z) : - 2 ^ 63 <= z < 2 ^ 63 -> wrap64 z = z.
Proof.
  intros Hz. unfold wrap64. rewrite Z.mod_small by lia. lia.
Qed.

(** Within [maxDurationDays], lines 587-588 add [validDays] times 24 hours. *)
Lemma main_notAfter_in_range (notBefore validDays : Z) :
  - maxDurationDays <= validDays <= maxDurationDays ->
  main_notAfter notBefore validDays
  = notBefore + validDays * (24 * time.Hour).
Proof.
  unfold maxDurationDays, main_notAfter, time.Add, time.mul, time.Hour,
    time.Second.
  intros Hd.
  rewrite (wrap64_small validDays) by lia.
  rewrite (wrap64_small (validDays * 24)) by lia.
  rewrite wrap64_small by lia.
  lia.
Qed.

(** Keeping whole seconds commutes with adding whole seconds. *)
Lemma Unix_add_seconds (t k : Z) :
  time.Unix (t + k * time.Second) * time.Second
  = time.Unix t * time.Second + k * time.Second.
Proof.
  unfold time.Unix, time.Second. rewrite Z.div_add by lia. lia.
Qed.

Lemma parsedCertificate_window serialNumber subj notBefore validDays sans cn :
  - maxDurationDays <= validDays <= maxDurationDays ->
  let certTemplate :=
    main_certTemplate serialNumber subj notBefore validDays sans cn in
  let cert := x509.parsedCertificate certTemplate certTemplate in
  x509.NotAfter cert = x509.NotBefore cert + validDays * (24 * time.Hour).
Proof.
  intros Hd. cbv zeta. unfold x509.parsedCertificate, main_certTemplate.
  cbn [x509.NotAfter x509.NotBefore].
  rewrite main_notAfter_in_range by exact Hd.
  replace (validDays * (24 * time.Hour))
    with ((validDays * 24 * 3600) * time.Second)
    by (unfold time.Hour; lia).
  apply Unix_add_seconds.
Qed.

Section ValidityFacts.
Context `{Fmt} `{System}.

(** The window of the certificate of a run, within [maxDurationDays]. *)
Lemma main_generate_window flags a out cert :
  main_generate flags a = Ok out ->
  outCertificate out = Some cert ->
  - maxDurationDays <= outValidDays out <= maxDurationDays ->
  x509.NotAfter cert
  = x509.NotBefore cert + outValidDays out * (24 * time.Hour).
Proof.
  intros Hrun Hcert Hd.
  destruct (main_generate_certificate _ _ _ _ Hrun Hcert) as (serial & -> & _).
  apply parsedCertificate_window. exact Hd.
Qed.

(** C9, amended.  For a validity of [d] days with [d] between -106751 and
    106751, the NotAfter of the generated certificate is its NotBefore
    plus exactly [d] times 24 hours; so is the NotAfter of the template
    that is signed. *)
Theorem certificate_validity_window flags a out cert :
  main_generate flags a = Ok out ->
  outCertificate out = Some cert ->
  - maxDurationDays <= outValidDays out <= maxDurationDays ->
  x509.NotAfter cert
  = x509.NotBefore cert + outValidDays out * (24 * time.Hour) /\
  main_notAfter time_Now (outValidDays out)
  = time_Now + outValidDays out * (24 * time.Hour).
Proof.
  intros Hrun Hcert Hd. split.
  - exact (main_generate_window _ _ _ _ Hrun Hcert Hd).
  - apply main_notAfter_in_range. exact Hd.
Qed.

(** With [-s], the days of the [-days] flag are used as they are. *)
Lemma main_validDays_flag flags createSelfsigned validDaysStr :
  selfSignedFlag flags = true ->
  main_validDays flags createSelfsigned validDaysStr = daysFlag flags.
Proof.
  intros Hs. unfold main_validDays. rewrite Hs.
  rewrite andb_false_r. reflexivity.
Qed.

(** At the prompt, a non-empty answer never leaves a validity that is zero
    or negative. *)
Lemma main_validDays_prompt flags validDaysStr :
  selfSignedFlag flags = false ->
  validDaysStr <> "" ->
  0 < main_validDays flags true validDaysStr.
Proof.
  intros Hs Hne. unfold main_validDays. rewrite Hs. cbn [negb andb].
  destruct (String.eqb_spec validDaysStr "") as [|_]; [contradiction|].
  cbn [negb].
  destruct (Sscanf_d validDaysStr) as [n|].
  - destruct (Z.leb_spec n 0); lia.
  - destruct (Z.leb_spec (daysFlag flags) 0); lia.
Qed.

(** C10, amended.  With [-s], whatever is answered, the value of [-days]
    is the validity, unchecked.  When it is zero or negative (and not below
    -106751), every certificate that the run produces has its NotAfter at
    or before its NotBefore; and the run does produce one whenever none of
    its library and file calls fails.  The check for a positive value is
    made only on a non-empty answer at the prompt. *)
Theorem flag_days_not_validated flags a :
  selfSignedFlag flags = true ->
  - maxDurationDays <= daysFlag flags <= 0 ->
  (forall out cert,
     main_generate flags a = Ok out ->
     outCertificate out = Some cert ->
     outValidDays out = daysFlag flags /\
     x509.NotAfter cert <= x509.NotBefore cert) /\
  (forall privateKey csrBytes derBytes,
     savesCleanly flags a privateKey csrBytes ->
     certifiesCleanly flags a privateKey derBytes ->
     exists out cert,
       main_generate flags a = Ok out /\ outCertificate out = Some cert) /\
  (forall flags' validDaysStr,
     selfSignedFlag flags' = false -> validDaysStr <> "" ->
     0 < main_validDays flags' true validDaysStr).
Proof.
  intros Hs Hd.
  assert (Hc : main_createSelfsigned flags (selfSigned a) = true)
    by (unfold main_createSelfsigned; rewrite Hs; reflexivity).
  split; [|split; [|intros; apply main_validDays_prompt; assumption]].
  - intros out cert Hrun Hcert.
    destruct (main_generate_certificate _ _ _ _ Hrun Hcert)
      as (serial & Hcert_eq & Hdays & _).
    rewrite main_validDays_flag in Hdays by exact Hs.
    split; [exact Hdays|].
    assert (Hw := main_generate_window _ _ _ _ Hrun Hcert).
    rewrite Hdays in Hw. unfold maxDurationDays in *.
    rewrite Hw by lia. unfold time.Hour, time.Second. lia.
  - intros privateKey csrBytes derBytes Hsave Hcert.
    destruct (main_generate_clean flags a privateKey csrBytes Hsave)
      as (out & Hrun & Hsome); [right; eauto|].
    destruct (Hsome Hc) as [cert Hcert'].
    exists out, cert. split; assumption.
Qed.

End ValidityFacts.

(** C9, as stated, fails: with 106752 days the product with 24 hours leaves
    the range of [int64] and wraps, and the certificate ends before it
    starts. *)
Lemma certificate_validity_overflow :
  exists out cert,
    @main_generate decimalFmt exampleSystem longFlags exampleAnswers = Ok out /\
    outCertificate out = Some cert /\
    outValidDays out = 106752 /\
    x509.NotAfter cert <> x509.NotBefore cert + 106752 * (24 * time.Hour) /\
    x509.NotAfter cert < x509.NotBefore cert.
Proof.
  eexists _, _. split; [reflexivity|]. split; [reflexivity|].
  split; [reflexivity|]. split; [vm_compute; discriminate|reflexivity].
Qed.

Lemma certificate_validity_window_witness :
  exists out cert,
    @main_generate decimalFmt exampleSystem selfSignedFlags exampleAnswers
      = Ok out /\
    outCertificate out = Some cert /\
    - maxDurationDays <= outValidDays out <= maxDurationDays /\
    x509.NotAfter cert = x509.NotBefore cert + 730 * (24 * time.Hour) /\
    main_notAfter exampleNow 730 = exampleNow + 730 * (24 * time.Hour).
Proof.
  exists exampleOutcome, exampleCertificate.
  assert (Hrun : @main_generate decimalFmt exampleSystem selfSignedFlags
                   exampleAnswers = Ok exampleOutcome) by reflexivity.
  assert (Hcert : outCertificate exampleOutcome = Some exampleCertificate)
    by reflexivity.
  assert (Hd : - maxDurationDays <= outValidDays exampleOutcome <= maxDurationDays)
    by (vm_compute; split; discriminate).
  split; [exact Hrun|]. split; [exact Hcert|]. split; [exact Hd|].
  exact (@certificate_validity_window decimalFmt exampleSystem selfSignedFlags
           exampleAnswers exampleOutcome exampleCertificate Hrun Hcert Hd).
Defined.

(** C10, as stated, fails: with -200000 days the product wraps to a positive
    duration, and the certificate produced ends after it starts. *)
Lemma negative_days_wrap_to_future :
  exists out cert,
    @main_generate decimalFmt exampleSystem farPastFlags exampleAnswers
      = Ok out /\
    outCertificate out = Some cert /\
    outValidDays out = -200000 /\
    x509.NotBefore cert < x509.NotAfter cert.
Proof.
  eexists _, _. split; [reflexivity|]. split; [reflexivity|].
  split; reflexivity.
Qed.

Lemma flag_days_not_validated_witness :
  selfSignedFlag pastFlags = true /\
  - maxDurationDays <= daysFlag pastFlags <= 0 /\
  (exists out cert,
     @main_generate decimalFmt exampleSystem pastFlags exampleAnswers = Ok out /\
     outCertificate out = Some cert /\
     outValidDays out = daysFlag pastFlags /\
     x509.NotAfter cert <= x509.NotBefore cert).
Proof.
  assert (Hs : selfSignedFlag pastFlags = true) by reflexivity.
  assert (Hd : - maxDurationDays <= daysFlag pastFlags <= 0)
    by (vm_compute; split; discriminate).
  split; [exact Hs|]. split; [exact Hd|].
  eexists _, _. split; [reflexivity|]. split; [reflexivity|].
  apply (proj1 (@flag_days_not_validated decimalFmt exampleSystem pastFlags
                  exampleAnswers Hs Hd)); reflexivity.
Defined.

Example prompt_days_validated :
  @main_validDays decimalFmt
    {| selfSignedFlag := false; daysFlag := 365; outputDirFlag := "" |}
    true "-5" = 365.
Proof. reflexivity. Qed.

Example prompt_blank_keeps_flag :
  @main_validDays decimalFmt
    {| selfSignedFlag := false; daysFlag := -5; outputDirFlag := "" |}
    true "" = -5.
Proof. reflexivity. Qed.

(** * Further properties of the code *)

(** ** [contains] *)

(** X1.  [contains] answers whether the string is an element of the slice;
    on a concatenation it is the disjunction of the two answers, so an
    element appended to a slice is always found. *)
Theorem contains_membership (slice more : list string) (str : string) :
  (contains slice str = true <-> In str slice) /\
  (contains slice str = false <-> ~ In str slice) /\
  contains (slice ++ more) str = contains slice str || contains more str /\
  contains (slice ++ [str]) str = true.
Proof.
  assert (Happ : forall l k, contains (l ++ k) str = contains l str || contains k str).
  { induction l as [|item l IH]; intros k; simpl; [reflexivity|].
    destruct (String.eqb item str); [reflexivity|apply IH]. }
  pose proof (contains_In slice str) as Hin.
  split; [exact Hin|]. split; [|split].
  - destruct (contains slice str); split; try discriminate; try reflexivity.
    + intros Hnot. exfalso. apply Hnot, Hin. reflexivity.
    + intros _ Hc. apply Hin in Hc. discriminate.
  - apply Happ.
  - rewrite Happ. simpl. rewrite String.eqb_refl. apply orb_true_r.
Qed.

(** ** [formatName] *)

Lemma append_empty (s t : string) : s +:+ t = "" -> s = "" /\ t = "".
Proof.
  destruct s as [|c s].
  - intros Ht. split; [reflexivity|exact Ht].
  - intros Hst. discriminate Hst.
Qed.

(** Joining parts none of which is empty gives the empty string only for
    no part at all. *)
Lemma Join_empty (parts : list string) (sep : string) :
  Forall (fun part => part <> "") parts ->
  Join parts sep = "" -> parts = [].
Proof.
  destruct parts as [|a rest]; [reflexivity|].
  intros Hne Hjoin. apply List.Forall_inv in Hne.
  exfalso. apply Hne. simpl in Hjoin.
  destruct rest; [exact Hjoin|].
  apply append_empty in Hjoin. apply Hjoin.
Qed.

Lemma renderedParts_nonempty (name : pkix.Name) :
  Forall (fun part => part <> "") (renderedParts name).
Proof.
  unfold renderedParts.
  repeat (apply List.Forall_app; split);
    try (apply List.Forall_forall; intros part Hin;
         apply in_map_iff in Hin as (v & <- & _); discriminate).
  destruct (String.eqb (pkix.CommonName name) "").
  - constructor.
  - constructor; [discriminate|constructor].
Qed.

(** X2.  [formatName] returns the empty string exactly for a name with an
    empty common name and no organization, unit, country, province or
    locality value; any value at all, even an empty one, gives a non-empty
    rendering. *)
Theorem formatName_empty_iff (name : pkix.Name) :
  formatName name = "" <->
  pkix.CommonName name = "" /\ pkix.Organization name = [] /\
  pkix.OrganizationalUnit name = [] /\ pkix.Country name = [] /\
  pkix.Province name = [] /\ pkix.Locality name = [].
Proof.
  rewrite formatName_parts. split.
  - intros Hjoin. apply Join_empty in Hjoin; [|apply renderedParts_nonempty].
    unfold renderedParts in Hjoin.
    destruct (String.eqb_spec (pkix.CommonName name) "") as [Hcn|];
      [|discriminate].
    cbn [app] in Hjoin.
    repeat (apply app_eq_nil in Hjoin as [?%map_eq_nil Hjoin]).
    apply map_eq_nil in Hjoin. repeat split; assumption.
  - intros (Hcn & HO & HOU & HC & HST & HL).
    unfold renderedParts. rewrite Hcn, HO, HOU, HC, HST, HL. reflexivity.
Qed.

(** ** The key usage lines *)

Lemma land_pow2_testbit (a i : Z) :
  0 <= i -> (Z.land a (Z.shiftl 1 i) =? 0) = negb (Z.testbit a i).
Proof.
  intros Hi. rewrite Z.shiftl_1_l.
  destruct (Z.testbit a i) eqn:Hbit; cbn [negb].
  - apply Z.eqb_neq. intros Hz.
    assert (Hb : Z.testbit (Z.land a (2 ^ i)) i = true)
      by (rewrite Z.land_spec, Hbit, Z.pow2_bits_true by lia; reflexivity).
    rewrite Hz, Z.bits_0 in Hb. discriminate.
  - apply Z.eqb_eq. apply Z.bits_inj'. intros j Hj.
    rewrite Z.land_spec, Z.bits_0.
    destruct (Z.eq_dec i j) as [<-|Hne].
    + rewrite Hbit. reflexivity.
    + rewrite Z.pow2_bits_false by lia. apply andb_false_r.
Qed.

(** X3.  For every key usage value, the decoder prints one line per set bit
    among bits 0 to 8, in the order of the bits, and nothing for any other
    bit: the lines depend only on the nine low bits. *)
Theorem keyUsageLines_bits (keyUsage : Z) :
  keyUsageLines keyUsage
  = flat_map (fun '(bit, label) =>
                if Z.testbit keyUsage bit then [Println label] else [])
      keyUsageNames
  /\ keyUsageLines (Z.land keyUsage 511) = keyUsageLines keyUsage.
Proof.
  assert (Hlines : forall ku,
    keyUsageLines ku
    = flat_map (fun '(bit, label) =>
                  if Z.testbit ku bit then [Println label] else [])
        keyUsageNames).
  { intros ku. unfold keyUsageLines, keyUsageLine, keyUsageNames.
    unfold x509.KeyUsageDigitalSignature, x509.KeyUsageContentCommitment,
      x509.KeyUsageKeyEncipherment, x509.KeyUsageDataEncipherment,
      x509.KeyUsageKeyAgreement, x509.KeyUsageCertSign, x509.KeyUsageCRLSign,
      x509.KeyUsageEncipherOnly, x509.KeyUsageDecipherOnly.
    rewrite !land_pow2_testbit by lia. rewrite !negb_involutive.
    cbn [flat_map]. rewrite app_nil_r. reflexivity. }
  split; [apply Hlines|].
  rewrite !Hlines. unfold keyUsageNames. cbn [flat_map].
  change 511 with (Z.ones 9).
  rewrite !Z.land_spec, !Z.ones_spec_low by lia.
  rewrite !andb_true_r. reflexivity.
Qed.

(** ** Reading the alternative names *)

(** X4.  The names collected are the lines up to the first blank line (or
    up to the end of the input): they are a prefix of the lines, none of
    them is blank, what follows them is nothing or starts with a blank line,
    and no other list has these properties.  Unless the answer is "y" or
    "yes", no name is collected at all. *)
Theorem readSANs_until_blank (addSANs : string) (lines : list string) :
  (exists rest,
     lines = readSANs lines ++ rest /\
     Forall (fun san => san <> "") (readSANs lines) /\
     (rest = [] \/ exists rest', rest = "" :: rest')) /\
  (forall sans rest,
     lines = sans ++ rest ->
     Forall (fun san => san <> "") sans ->
     (rest = [] \/ exists rest', rest = "" :: rest') ->
     sans = readSANs lines) /\
  (addSANs <> "y" -> addSANs <> "yes" -> main_sans addSANs lines = []) /\
  (addSANs = "y" \/ addSANs = "yes" -> main_sans addSANs lines = readSANs lines).
Proof.
  split; [|split; [|split]].
  - induction lines as [|san lines (rest & Heq & Hne & Hrest)]; simpl.
    + exists []. repeat split; [constructor|left; reflexivity].
    + destruct (String.eqb_spec san "") as [->|Hsan].
      * exists ("" :: lines). repeat split; [constructor|right; eauto].
      * exists rest. simpl. rewrite <- Heq.
        repeat split; [constructor; assumption|exact Hrest].
  - intros sans. revert lines.
    induction sans as [|san sans IH]; intros lines rest Heq Hne Hrest.
    + simpl in Heq. subst lines.
      destruct Hrest as [->|[rest' ->]]; reflexivity.
    + subst lines. simpl. inversion Hne as [|? ? Hsan Hne']; subst.
      destruct (String.eqb_spec san "") as [|_]; [contradiction|].
      f_equal. apply (IH _ rest); [reflexivity|assumption|assumption].
  - intros Hy Hyes. unfold main_sans.
    destruct (String.eqb_spec addSANs "y"); [contradiction|].
    destruct (String.eqb_spec addSANs "yes"); [contradiction|]. reflexivity.
  - intros [-> | ->]; reflexivity.
Qed.

Lemma readSANs_until_blank_witness :
  "n" <> "y" /\ "n" <> "yes" /\
  main_sans "n" ["www.example.com"; ""] = [].
Proof.
  assert (Hy : "n" <> "y") by discriminate.
  assert (Hyes : "n" <> "yes") by discriminate.
  split; [exact Hy|]. split; [exact Hyes|].
  exact (proj1 (proj2 (proj2 (readSANs_until_blank "n" ["www.example.com"; ""])))
           Hy Hyes).
Defined.

(** ** The key size and the validity at the prompt *)

Section PromptFacts.
Context `{Fmt} `{Stringers} `{Decoders} `{System}.

(** X5.  Whatever is answered and however [Sscanf] behaves, the size handed
    to the key generator is 2048, 3072 or 4096.  The notice "Invalid key
    size" is written exactly when a number was scanned from a non-empty
    answer and is none of the three; an answer from which nothing is scanned
    falls back to 2048 without a notice. *)
Theorem key_size_always_allowed (keySizeStr : string) :
  allowedKeySize (main_keySize keySizeStr) /\
  (keySizeNotice keySizeStr = [Println "Invalid key size. Using default: 2048"]
   <-> keySizeStr <> "" /\
       exists n, Sscanf_d keySizeStr = Some n /\ ~ allowedKeySize n) /\
  (keySizeStr = "" \/ Sscanf_d keySizeStr = None ->
   keySizeNotice keySizeStr = [] /\ main_keySize keySizeStr = 2048).
Proof.
  unfold main_keySize, keySizeNotice, allowedKeySize.
  pose proof (validSizes_true 2048) as H2048.
  assert (Hdef : mapIndex validSizes 2048 = true) by (apply H2048; lia).
  destruct (String.eqb_spec keySizeStr "") as [->|Hne]; cbn [negb].
  - split; [lia|]. split; [|intros _; split; reflexivity].
    split; [discriminate|]. intros [Hc _]. contradiction.
  - destruct (Sscanf_d keySizeStr) as [n|].
    + pose proof (validSizes_true n) as Hn.
      destruct (mapIndex validSizes n) eqn:Ev; cbn [negb].
      * split; [apply Hn; reflexivity|]. split.
        -- split; [discriminate|].
           intros (_ & m & [= <-] & Hnot). exfalso. apply Hnot, Hn. reflexivity.
        -- intros [Hc|Hc]; [contradiction|discriminate].
      * split; [lia|]. split.
        -- split; [|reflexivity]. intros _. split; [exact Hne|].
           exists n. split; [reflexivity|]. intros Hc. apply Hn in Hc. discriminate.
        -- intros [Hc|Hc]; [contradiction|discriminate].
    + rewrite Hdef. cbn [negb]. split; [lia|]. split.
      * split; [discriminate|]. intros (_ & m & [=] & _).
      * intros _. split; reflexivity.
Qed.

(** X6.  Without [-s], when the value of [-days] is positive (as its default
    365 is), the validity is positive whatever is answered at the prompts;
    a scanned number that is zero or negative is replaced by 365, not by
    the value of [-days]. *)
Theorem validity_positive_at_prompt (flags : Flags) (createSelfsigned : bool)
    (validDaysStr : string) :
  selfSignedFlag flags = false ->
  0 < daysFlag flags ->
  0 < main_validDays flags createSelfsigned validDaysStr /\
  (forall n, createSelfsigned = true -> validDaysStr <> "" ->
             Sscanf_d validDaysStr = Some n -> n <= 0 ->
             main_validDays flags createSelfsigned validDaysStr = 365 /\
             validDaysNotice flags validDaysStr
             = [Println "Invalid validity period. Using default: 365 days"]).
Proof.
  intros Hs Hd. unfold main_validDays, validDaysNotice. rewrite Hs.
  cbn [negb]. rewrite andb_true_r. split.
  - destruct createSelfsigned; [|exact Hd].
    destruct (String.eqb validDaysStr ""); cbn [negb]; [exact Hd|].
    destruct (Sscanf_d validDaysStr) as [n|].
    + destruct (Z.leb_spec n 0); lia.
    + destruct (Z.leb_spec (daysFlag flags) 0); lia.
  - intros n -> Hne Hscan Hn.
    destruct (String.eqb_spec validDaysStr "") as [|_]; [contradiction|].
    cbn [negb]. rewrite Hscan.
    destruct (Z.leb_spec n 0) as [_|]; [|lia]. split; reflexivity.
Qed.

End PromptFacts.

Lemma key_size_always_allowed_witness :
  ("" = "" \/ @Sscanf_d decimalFmt "" = None) /\
  @keySizeNotice decimalFmt "" = [] /\ @main_keySize decimalFmt "" = 2048.
Proof.
  assert (Hblank : "" = "" \/ @Sscanf_d decimalFmt "" = None)
    by (left; reflexivity).
  split; [exact Hblank|].
  exact (proj2 (proj2 (@key_size_always_allowed decimalFmt "")) Hblank).
Defined.

Lemma validity_positive_at_prompt_witness :
  selfSignedFlag (mkFlags false 730 "") = false /\
  0 < daysFlag (mkFlags false 730 "") /\
  0 < @main_validDays decimalFmt (mkFlags false 730 "") true "0".
Proof.
  assert (Hs : selfSignedFlag (mkFlags false 730 "") = false) by reflexivity.
  assert (Hd : 0 < daysFlag (mkFlags false 730 "")) by reflexivity.
  split; [exact Hs|]. split; [exact Hd|].
  exact (proj1 (@validity_positive_at_prompt decimalFmt (mkFlags false 730 "")
                  true "0" Hs Hd)).
Defined.

(** ** The set of DNS names of the certificate *)

(** X7.  Every name supplied is a DNS name of the certificate; a common name
    that contains a dot always is one; nothing else is; and when the names
    supplied are pairwise different, so are the DNS names of the
    certificate (the common name is never entered twice). *)
Theorem certificate_dns_names_set serialNumber subj notBefore validDays
    (sans : list string) (cn : string) :
  let names :=
    x509.DNSNames
      (main_certTemplate serialNumber subj notBefore validDays sans cn) in
  (forall san, In san sans -> In san names) /\
  (hasDot cn -> In cn names) /\
  (forall name, In name names -> In name sans \/ (name = cn /\ hasDot cn)) /\
  (List.NoDup sans -> List.NoDup names).
Proof.
  cbv zeta. rewrite main_certTemplate_DNSNames.
  pose proof (contains_In sans cn) as Hin.
  pose proof (strings_Contains_dot cn) as Hdot.
  destruct (contains sans cn) eqn:Ec, (strings_Contains cn ".") eqn:Ed;
    cbn [negb andb].
  - repeat split; auto. intros _. apply Hin. reflexivity.
  - repeat split; auto. intros Hd. apply Hdot in Hd. discriminate.
  - repeat split.
    + intros san Hs. apply in_or_app. left. exact Hs.
    + intros _. apply in_or_app. right. left. reflexivity.
    + intros name Hn. apply in_app_or in Hn as [Hn|[<-|[]]]; [left; exact Hn|].
      right. split; [reflexivity|]. apply Hdot. reflexivity.
    + intros Hnd. apply List.NoDup_app; [exact Hnd| |].
      * constructor; [intros []|constructor].
      * intros x Hx [<-|[]]. apply Hin in Hx. discriminate.
  - repeat split; auto. intros Hd. apply Hdot in Hd. discriminate.
Qed.

Lemma certificate_dns_names_set_witness :
  In "www.example.com" exampleSANs /\
  In "www.example.com"
    (x509.DNSNames
       (main_certTemplate 77 exampleSubject exampleNow 730 exampleSANs
          "example.com")).
Proof.
  assert (Hin : In "www.example.com" exampleSANs) by (right; left; reflexivity).
  split; [exact Hin|].
  exact (proj1 (certificate_dns_names_set 77 exampleSubject exampleNow 730
                  exampleSANs "example.com") "www.example.com" Hin).
Defined.

(** ** The names that the request decoder reads *)

(** The loop of lines 188-192: the names of the values of class 2 and tag 2,
    in order, after the names already found. *)
Lemma dnsNames_loop (rawValues : list asn1.RawValue) (dnsNames : list string) :
  fold_left
    (fun dnsNames rv =>
       if (asn1.Class rv =? 2) && (asn1.Tag rv =? 2)
       then dnsNames ++ [string_of_bytes (asn1.Bytes rv)]
       else dnsNames)
    rawValues dnsNames
  = dnsNames
    ++ map (fun rv => string_of_bytes (asn1.Bytes rv))
         (List.filter (fun rv => (asn1.Class rv =? 2) && (asn1.Tag rv =? 2))
            rawValues).
Proof.
  revert dnsNames.
  induction rawValues as [|rv rawValues IH]; intros dnsNames; simpl.
  - rewrite app_nil_r. reflexivity.
  - rewrite IH. destruct ((asn1.Class rv =? 2) && (asn1.Tag rv =? 2)); simpl.
    + rewrite <- app_assoc. reflexivity.
    + reflexivity.
Qed.

Lemma extensionDNSNames_acc (ext : pkix.Extension) (dnsNames : list string) :
  extensionDNSNames ext dnsNames = dnsNames ++ extensionDNSNames ext [].
Proof.
  unfold extensionDNSNames.
  destruct (x509.oidEqual _ _); [|rewrite app_nil_r; reflexivity].
  destruct (asn1.UnmarshalRawValue (pkix.Value ext)) as [[seq rest]|msg];
    [|rewrite app_nil_r; reflexivity].
  destruct (len rest =? 0); [|rewrite app_nil_r; reflexivity].
  destruct ((asn1.Class seq =? asn1.ClassUniversal)
            && (asn1.Tag seq =? asn1.TagSequence));
    [|rewrite app_nil_r; reflexivity].
  destruct (asn1.UnmarshalRawValues (asn1.Bytes seq)) as [[rawValues rest']|msg];
    [|rewrite app_nil_r; reflexivity].
  destruct (len rest' =? 0); [|rewrite app_nil_r; reflexivity].
  rewrite (dnsNames_loop rawValues dnsNames), (dnsNames_loop rawValues []).
  reflexivity.
Qed.

(** X8.  The names reported for a request are the names read from each
    extension alone, one extension after the other in the order of the
    request: an extension never removes or reorders names found before it,
    two subjectAltName extensions both contribute, and the request's
    subject, algorithm and extra extensions play no part. *)
Theorem csr_names_by_extension (csr : x509.CertificateRequest)
    (ext : pkix.Extension) (dnsNames : list string) :
  csrDNSNames csr
  = flat_map (fun ext => extensionDNSNames ext []) (x509.csrExtensions csr) /\
  extensionDNSNames ext dnsNames = dnsNames ++ extensionDNSNames ext [].
Proof.
  split; [|apply extensionDNSNames_acc].
  unfold csrDNSNames.
  assert (Hgen : forall exts acc,
    fold_left (fun dnsNames ext => extensionDNSNames ext dnsNames) exts acc
    = acc ++ flat_map (fun ext => extensionDNSNames ext []) exts).
  { induction exts as [|e exts IH]; intros acc; simpl.
    - rewrite app_nil_r. reflexivity.
    - rewrite IH, (extensionDNSNames_acc e acc), <- app_assoc. reflexivity. }
  apply Hgen.
Qed.

(** [Unmarshal] into a [RawValue] reads back a DER sequence whole. *)
Lemma UnmarshalRawValue_sequence (constructed : bool) (content : list byte) :
  len content < 2 ^ 31 ->
  asn1.UnmarshalRawValue (DER.tlv 0 constructed 16 content)
  = Ok (asn1.mkRawValue 0 16 constructed content
          (DER.tlv 0 constructed 16 content), []).
Proof.
  intros Hlen. pose proof (len_nonneg content) as Hnn.
  assert (Hhdr :
    asn1.parseTagAndLength (DER.tlv 0 constructed 16 content)
    = Ok (asn1.mkTagAndLength 0 16 (len content) constructed, content)).
  { unfold DER.tlv.
    pose proof (parseTagAndLength_header_ok (DER.identifier 0 constructed 16)
                  (len content) content) as Hok.
    rewrite Hok; [destruct constructed; reflexivity|lia|].
    destruct constructed; vm_compute; discriminate. }
  unfold asn1.UnmarshalRawValue, asn1.parseFieldRawValue.
  destruct (DER.tlv 0 constructed 16 content) as [|b0 bs] eqn:Etlv;
    [discriminate|].
  rewrite Hhdr.
  cbn [bind asn1.tl_length asn1.tl_class asn1.tl_tag asn1.tl_isCompound].
  unfold asn1.invalidLength.
  destruct (Z.ltb_spec (len content) 0) as [|_]; [lia|].
  destruct (Z.ltb_spec (len content) (len content)) as [|_]; [lia|].
  cbn [orb].
  replace (Z.to_nat (len content)) with (length content) by (unfold len; lia).
  rewrite take_ge, drop_ge by lia.
  cbn [length]. rewrite Nat.sub_0_r.
  rewrite take_ge by (cbn [length]; lia).
  reflexivity.
Qed.

(** What [Unmarshal] into a slice accepts is a constructed DER sequence,
    followed by [rest]. *)
Lemma UnmarshalRawValues_canonical (bytes : list byte) rawValues rest :
  asn1.UnmarshalRawValues bytes = Ok (rawValues, rest) ->
  exists content, bytes = DER.tlv 0 true 16 content ++ rest.
Proof.
  unfold asn1.UnmarshalRawValues, asn1.parseFieldRawValues.
  destruct bytes as [|b0 bytes]; [discriminate|].
  destruct (asn1.parseTagAndLength (b0 :: bytes)) as [[t after]|msg] eqn:E;
    cbn [bind]; [|discriminate].
  destruct (Z.eqb_spec (asn1.tl_class t) asn1.ClassUniversal) as [Hc|];
    [|discriminate].
  destruct (Z.eqb_spec (asn1.tl_tag t) asn1.TagSequence) as [Ht|];
    [|discriminate].
  destruct (asn1.tl_isCompound t) eqn:Hcomp; [|discriminate].
  cbn [andb negb orb Bool.eqb].
  unfold asn1.invalidLength.
  destruct (Z.ltb_spec (asn1.tl_length t) 0) as [|Hnn]; [discriminate|].
  destruct (Z.ltb_spec (len after) (asn1.tl_length t)) as [|Hle]; [discriminate|].
  cbn [orb].
  destruct (asn1.parseSequenceOf _) as [vals|msg]; cbn [bind]; [|discriminate].
  intros [= <- <-].
  exists (take (Z.to_nat (asn1.tl_length t)) after).
  rewrite (parseTagAndLength_canonical _ _ _ E)
    by (rewrite Ht; reflexivity).
  rewrite Hc, Ht, Hcomp. unfold DER.tlv. cbn [app]. f_equal.
  assert (Hlen : len (take (Z.to_nat (asn1.tl_length t)) after) = asn1.tl_length t).
  { unfold len in *. rewrite length_take. lia. }
  rewrite Hlen, <- app_assoc, take_drop. reflexivity.
Qed.

Lemma len_sequenceOfNames (sans : list string) :
  len (concat (map DER.dNSName sans)) < len (DER.sequenceOfNames sans).
Proof.
  unfold DER.sequenceOfNames, DER.tlv.
  change (?a :: ?l ++ ?k) with ([a] ++ l ++ k).
  rewrite !len_app.
  pose proof (len_nonneg (DER.lengthOctets (len (concat (map DER.dNSName sans))))).
  change (len [DER.identifier 0 true 16]) with 1. lia.
Qed.

Lemma names_of_parsed (sans : list string) :
  map (fun rv => string_of_bytes (asn1.Bytes rv))
    (List.filter (fun rv => (asn1.Class rv =? 2) && (asn1.Tag rv =? 2))
       (map parsedDNSValue sans))
  = sans.
Proof.
  induction sans as [|san sans IH]; [reflexivity|].
  cbn [map List.filter parsedDNSValue asn1.Class asn1.Tag asn1.Bytes Z.eqb
       Pos.eqb andb].
  rewrite IH. unfold string_of_bytes, bytes_of_string.
  rewrite string_of_list_byte_of_string. reflexivity.
Qed.

(** X9.  What the request decoder does read: when the value of a
    subjectAltName extension is a sequence whose content is itself the
    sequence of the names (one more level of wrapping than [main] writes),
    the names are appended in order to those already found. *)
Theorem csr_decoder_reads_nested_sequence (ext : pkix.Extension)
    (constructed : bool) (sans dnsNames : list string) :
  pkix.Id ext = [2; 5; 29; 17] ->
  pkix.Value ext = DER.tlv 0 constructed 16 (DER.sequenceOfNames sans) ->
  len (DER.sequenceOfNames sans) < 2 ^ 31 ->
  extensionDNSNames ext dnsNames = dnsNames ++ sans.
Proof.
  intros Hid Hval Hlen. unfold extensionDNSNames.
  rewrite Hid, Hval.
  change (x509.oidEqual [2; 5; 29; 17] oidSubjectAltName) with true. cbv iota.
  rewrite UnmarshalRawValue_sequence by exact Hlen.
  cbn [len length Z.of_nat Z.eqb asn1.Class asn1.Tag asn1.Bytes].
  change ((0 =? asn1.ClassUniversal) && (16 =? asn1.TagSequence)) with true.
  cbv iota.
  pose proof (len_sequenceOfNames sans) as Hin.
  rewrite UnmarshalRawValues_sequenceOfNames by lia.
  cbn [len length Z.of_nat Z.eqb].
  rewrite dnsNames_loop, names_of_parsed. reflexivity.
Qed.

Lemma csr_decoder_reads_nested_sequence_witness :
  extensionDNSNames
    {| pkix.Id := [2; 5; 29; 17];
       pkix.Critical := false;
       pkix.Value := DER.tlv 0 true 16 (DER.sequenceOfNames exampleSANs) |}
    ["mail.example.com"]
  = ["mail.example.com"] ++ exampleSANs.
Proof.
  apply (csr_decoder_reads_nested_sequence _ true exampleSANs);
    [reflexivity|reflexivity|vm_compute; reflexivity].
Defined.

(** X10.  And nothing else: an extension that adds a name has the
    identifier 2.5.29.17 and a value that is a DER sequence (universal class,
    tag 16) whose whole content is one constructed DER sequence. *)
Theorem csr_decoder_requires_nested_sequence (ext : pkix.Extension)
    (dnsNames : list string) :
  extensionDNSNames ext dnsNames <> dnsNames ->
  x509.oidEqual (pkix.Id ext) oidSubjectAltName = true /\
  exists constructed content,
    pkix.Value ext = DER.tlv 0 constructed 16 (DER.tlv 0 true 16 content).
Proof.
  unfold extensionDNSNames.
  destruct (x509.oidEqual _ _); [|intros Hc; contradiction].
  destruct (asn1.UnmarshalRawValue (pkix.Value ext)) as [[seq rest]|msg] eqn:E;
    [|intros Hc; contradiction].
  rewrite len_eqb_0. destruct rest; [|intros Hc; contradiction].
  destruct (Z.eqb_spec (asn1.Class seq) asn1.ClassUniversal) as [Hc|];
    [|intros Hn; contradiction].
  destruct (Z.eqb_spec (asn1.Tag seq) asn1.TagSequence) as [Ht|];
    [|intros Hn; contradiction].
  cbn [andb].
  destruct (asn1.UnmarshalRawValues (asn1.Bytes seq)) as [[rawValues rest]|msg]
    eqn:E2; [|intros Hn; contradiction].
  rewrite len_eqb_0. destruct rest; [|intros Hn; contradiction].
  intros _. split; [reflexivity|].
  apply UnmarshalRawValue_canonical in E; [|rewrite Ht; reflexivity].
  apply UnmarshalRawValues_canonical in E2 as [content E2].
  rewrite app_nil_r in E, E2. rewrite Hc, Ht, E2 in E.
  exists (asn1.IsCompound seq), content. exact E.
Qed.

Lemma csr_decoder_requires_nested_sequence_witness :
  exists constructed content,
    DER.tlv 0 true 16 (DER.sequenceOfNames ["a.b"])
    = DER.tlv 0 constructed 16 (DER.tlv 0 true 16 content).
Proof.
  apply (csr_decoder_requires_nested_sequence
           {| pkix.Id := [2; 5; 29; 17];
              pkix.Critical := false;
              pkix.Value := DER.tlv 0 true 16 (DER.sequenceOfNames ["a.b"]) |}
           []).
  vm_compute. discriminate.
Defined.

(** X11.  The extension that [main] builds round-trips through
    [asn1.Unmarshal] into a slice of raw values: building it never fails,
    and reading its value back gives one value of class 2 and tag 2 per
    name, in order, with the bytes of the name, and nothing left over. *)
Theorem san_extension_round_trip (sans : list string) :
  len (concat (map DER.dNSName sans)) < 2 ^ 31 ->
  exists ext rawValues,
    sanExtension sans = Ok ext /\
    asn1.UnmarshalRawValues (pkix.Value ext) = Ok (rawValues, []) /\
    map (fun rv => (asn1.Class rv, asn1.Tag rv, string_of_bytes (asn1.Bytes rv)))
      rawValues
    = map (fun san => (2, 2, san)) sans.
Proof.
  intros Hlen.
  exists {| pkix.Id := [2; 5; 29; 17];
            pkix.Critical := false;
            pkix.Value := DER.sequenceOfNames sans |}, (map parsedDNSValue sans).
  split; [apply sanExtension_value; lia|].
  split; [apply UnmarshalRawValues_sequenceOfNames; exact Hlen|].
  rewrite map_map. apply map_ext. intros san.
  unfold parsedDNSValue, string_of_bytes, bytes_of_string.
  cbn [asn1.Class asn1.Tag asn1.Bytes].
  rewrite string_of_list_byte_of_string. reflexivity.
Qed.

Lemma san_extension_round_trip_witness :
  exists ext rawValues,
    sanExtension exampleSANs = Ok ext /\
    asn1.UnmarshalRawValues (pkix.Value ext) = Ok (rawValues, []) /\
    map (fun rv => (asn1.Class rv, asn1.Tag rv, string_of_bytes (asn1.Bytes rv)))
      rawValues
    = map (fun san => (2, 2, san)) exampleSANs.
Proof.
  apply (san_extension_round_trip exampleSANs). vm_compute. reflexivity.
Defined.

(** ** The run as a whole: which files it touches *)

Lemma touchesOnly_ret {A} (paths : string -> Prop) (a : A) :
  touchesOnly paths (ret a).
Proof.
  intros w. cbn. split; [reflexivity|].
  split; [exists []; rewrite app_nil_r; reflexivity|left; reflexivity].
Qed.

Lemma touchesOnly_bind {A B} (paths : string -> Prop) (m : M A) (k : A -> M B) :
  touchesOnly paths m -> (forall a, touchesOnly paths (k a)) ->
  touchesOnly paths (bindM m k).
Proof.
  intros Hm Hk w. unfold bindM.
  destruct (Hm w) as (Hf & [out Hout] & Hc).
  destruct (m w) as [a w1|code w1]; cbn in *.
  - destruct (Hk a w1) as (Hf' & [out' Hout'] & Hc').
    split; [intros p Hp; rewrite Hf', Hf by exact Hp; reflexivity|].
    split; [|exact Hc'].
    exists (out ++ out'). rewrite Hout', Hout, app_assoc. reflexivity.
  - split; [exact Hf|]. split; [exists out; exact Hout|exact Hc].
Qed.

Lemma touchesOnly_weaken {A} (paths paths' : string -> Prop) (m : M A) :
  (forall p, paths p -> paths' p) -> touchesOnly paths m -> touchesOnly paths' m.
Proof.
  intros Hsub Hm w. destruct (Hm w) as (Hf & Hout & Hc).
  split; [|split; assumption].
  intros p Hp. apply Hf. intros Hc'. apply Hp, Hsub, Hc'.
Qed.

Lemma touchesOnly_Print (paths : string -> Prop) (s : string) :
  touchesOnly paths (Print s).
Proof.
  intros w. cbn. split; [reflexivity|].
  split; [exists [s]; reflexivity|left; reflexivity].
Qed.

Lemma touchesOnly_PrintAll (paths : string -> Prop) (ss : list string) :
  touchesOnly paths (PrintAll ss).
Proof.
  intros w. cbn. split; [reflexivity|].
  split; [exists ss; reflexivity|left; reflexivity].
Qed.

Lemma touchesOnly_orExit {A} (paths : string -> Prop) (r : result A)
    (report : string) :
  touchesOnly paths (orExit r report).
Proof.
  intros w. unfold orExit. destruct r as [a|err]; cbn.
  - split; [reflexivity|].
    split; [exists []; rewrite app_nil_r; reflexivity|left; reflexivity].
  - split; [reflexivity|].
    split; [eexists; reflexivity|right; reflexivity].
Qed.

Section RunFacts.
Context `{Fmt} `{Stringers} `{Decoders} `{System}.

Lemma touchesOnly_createFile (paths : string -> Prop) (path report : string) :
  paths path -> touchesOnly paths (createFile path report).
Proof.
  intros Hpath w. unfold createFile.
  destruct (Create_error path) as [err|]; cbn.
  - split; [reflexivity|].
    split; [eexists; reflexivity|right; reflexivity].
  - split.
    + intros p Hp. apply lookup_insert_ne. intros ->. contradiction.
    + split; [exists []; rewrite app_nil_r; reflexivity|left; reflexivity].
Qed.

Lemma touchesOnly_encodeTo (paths : string -> Prop) (path : string)
    (block : pem.Block) (report : string) :
  paths path -> touchesOnly paths (encodeTo path block report).
Proof.
  intros Hpath w. unfold encodeTo.
  destruct (Write_error path (pem_EncodeToBytes block)) as [[err written]|]; cbn.
  - split.
    + intros p Hp. apply lookup_insert_ne. intros ->. contradiction.
    + split; [eexists; reflexivity|right; reflexivity].
  - split.
    + intros p Hp. apply lookup_insert_ne. intros ->. contradiction.
    + split; [exists []; rewrite app_nil_r; reflexivity|left; reflexivity].
Qed.

Lemma touchesOnly_main_build (paths : string -> Prop) (a : Answers) :
  touchesOnly paths (main_build a).
Proof.
  unfold main_build.
  apply touchesOnly_bind; [apply touchesOnly_Print|intros _].
  apply touchesOnly_bind; [apply touchesOnly_orExit|intros privateKey].
  apply touchesOnly_bind; [apply touchesOnly_orExit|intros template].
  apply touchesOnly_bind.
  - destruct (0 <? len _); [apply touchesOnly_Print|apply touchesOnly_ret].
  - intros _. apply touchesOnly_bind; [apply touchesOnly_orExit|intros csrBytes].
    apply touchesOnly_ret.
Qed.

Lemma touchesOnly_main_save (flags : Flags) (a : Answers)
    (privateKey : rsa.PrivateKey) (csrBytes : list byte) :
  touchesOnly (fun p => p = keyPathOf flags a \/ p = csrPathOf flags a)
    (main_save flags a privateKey csrBytes).
Proof.
  unfold main_save.
  apply touchesOnly_bind.
  - destruct (negb _); [apply touchesOnly_orExit|apply touchesOnly_ret].
  - intros _.
    apply touchesOnly_bind;
      [apply touchesOnly_createFile; left; reflexivity|intros _].
    apply touchesOnly_bind;
      [apply touchesOnly_encodeTo; left; reflexivity|intros _].
    apply touchesOnly_bind;
      [apply touchesOnly_createFile; right; reflexivity|intros _].
    apply touchesOnly_bind;
      [apply touchesOnly_encodeTo; right; reflexivity|intros _].
    apply touchesOnly_bind; [apply touchesOnly_Print|intros _].
    apply touchesOnly_bind; [apply touchesOnly_Print|intros _].
    apply touchesOnly_Print.
Qed.

Lemma touchesOnly_main_certificate (flags : Flags) (a : Answers)
    (privateKey : rsa.PrivateKey) :
  touchesOnly
    (fun p => main_createSelfsigned flags (selfSigned a) = true
              /\ p = crtPathOf flags a)
    (main_certificate flags a privateKey).
Proof.
  unfold main_certificate.
  destruct (main_createSelfsigned flags (selfSigned a));
    [|apply touchesOnly_Print].
  apply touchesOnly_bind; [apply touchesOnly_orExit|intros serialNumber].
  apply touchesOnly_bind; [apply touchesOnly_orExit|intros derBytes].
  apply touchesOnly_bind;
    [apply touchesOnly_createFile; split; reflexivity|intros _].
  apply touchesOnly_bind;
    [apply touchesOnly_encodeTo; split; reflexivity|intros _].
  apply touchesOnly_bind; [apply touchesOnly_Print|intros _].
  apply touchesOnly_Print.
Qed.

(** X12.  A run of the generation path changes no file other than the key
    file and the request file and, when a certificate is asked for, the
    certificate file; what it writes to standard output comes after what
    was there and starts with the prompts; and it ends with code 0 or 1. *)
Theorem generation_touches_only_its_files (flags : Flags) (a : Answers)
    (w : World) :
  (forall p,
     p <> keyPathOf flags a -> p <> csrPathOf flags a ->
     (main_createSelfsigned flags (selfSigned a) = true ->
      p <> crtPathOf flags a) ->
     files (worldOf (main_generation flags a w)) !! p = files w !! p) /\
  (exists out,
     stdout (worldOf (main_generation flags a w))
     = stdout w ++ promptOutput flags a ++ out) /\
  (codeOf (main_generation flags a w) = 0
   \/ codeOf (main_generation flags a w) = 1).
Proof.
  set (paths := fun p =>
         p = keyPathOf flags a \/ p = csrPathOf flags a
         \/ (main_createSelfsigned flags (selfSigned a) = true
             /\ p = crtPathOf flags a)).
  assert (Hrest : touchesOnly paths
    (run* built := main_build a in
     run* _s := main_save flags a (fst built) (snd built) in
     run* _c := main_certificate flags a (fst built) in
     Print (Println "Keep your private key file secure and do not share it with anyone."))).
  { apply touchesOnly_bind; [apply touchesOnly_main_build|intros built].
    apply touchesOnly_bind.
    - apply (touchesOnly_weaken _ _ _ (fun p Hp =>
               match Hp with
               | or_introl Hk => or_introl Hk
               | or_intror Hc => or_intror (or_introl Hc)
               end)).
      apply touchesOnly_main_save.
    - intros _. apply touchesOnly_bind; [|intros _; apply touchesOnly_Print].
      apply (touchesOnly_weaken _ _ _ (fun p Hp => or_intror (or_intror Hp))).
      apply touchesOnly_main_certificate. }
  destruct (Hrest (mkWorld (files w) (stdout w ++ promptOutput flags a)))
    as (Hf & [out Hout] & Hc).
  change (main_generation flags a w) with
    ((run* built := main_build a in
      run* _s := main_save flags a (fst built) (snd built) in
      run* _c := main_certificate flags a (fst built) in
      Print (Println "Keep your private key file secure and do not share it with anyone."))
       (mkWorld (files w) (stdout w ++ promptOutput flags a))).
  split; [|split; [|exact Hc]].
  - intros p Hk Hcsr Hcrt. rewrite Hf; [reflexivity|].
    intros [Hp|[Hp|[Hs Hp]]]; [exact (Hk Hp)|exact (Hcsr Hp)|exact (Hcrt Hs Hp)].
  - exists out. rewrite Hout. cbn [stdout]. rewrite <- app_assoc. reflexivity.
Qed.

End RunFacts.

Lemma generation_touches_only_its_files_witness :
  "notes.txt" <> @keyPathOf exampleSystem selfSignedFlags exampleAnswers /\
  files (worldOf (@main_generation decimalFmt plainStringers exampleSystem
                    selfSignedFlags exampleAnswers
                    (mkWorld {["notes.txt" := []]} [])))
    !! "notes.txt" = Some [].
Proof.
  assert (Hk : "notes.txt" <> @keyPathOf exampleSystem selfSignedFlags exampleAnswers)
    by (vm_compute; discriminate).
  split; [exact Hk|].
  rewrite (proj1 (@generation_touches_only_its_files decimalFmt plainStringers
                    exampleSystem selfSignedFlags exampleAnswers
                    (mkWorld {["notes.txt" := []]} [])) "notes.txt");
    [reflexivity|exact Hk|vm_compute; discriminate|intros _; vm_compute; discriminate].
Defined.

(** ** The modes that only print *)

Section ModeFacts.
Context `{Fmt} `{Stringers} `{Decoders} `{System}.

(** X13.  With [-h], [--help], [-v], [--version] or [--decode], the run
    writes no file and reads no answer.  Help wins over version, and version
    over decode: with a help flag the output is the help text and with a
    version flag (and no help flag) the version line, whatever [--decode]
    names.  The exit code is 1 exactly when the file named by [--decode] is
    looked at and [decodeFile] returns an error, and then the only output is
    the line that reports the error; otherwise the code is 0. *)
Theorem inspection_modes_write_no_file (cl : CommandLine) (a : Answers)
    (w : World) :
  inspects cl = true ->
  files (worldOf (main cl a w)) = files w /\
  main cl a w = main cl bareAnswers w /\
  (helpFlag cl || shortHelpFlag cl = true ->
   main cl a w = Next tt (mkWorld (files w) (stdout w ++ printHelp))) /\
  (helpFlag cl || shortHelpFlag cl = false ->
   versionFlag cl || shortVersionFlag cl = true ->
   main cl a w
   = Next tt (mkWorld (files w) (stdout w ++ ["CertForge " +:+ version +:+ nl]))) /\
  (forall err,
     helpFlag cl || shortHelpFlag cl || versionFlag cl || shortVersionFlag cl
       = false ->
     decodeFile (decodeFlag cl) = Err err ->
     main cl a w
     = Exit 1 (mkWorld (files w) (stdout w ++ ["Error: " +:+ err +:+ nl]))) /\
  (codeOf (main cl a w) = 1 ->
   helpFlag cl || shortHelpFlag cl || versionFlag cl || shortVersionFlag cl
     = false /\
   exists err, decodeFile (decodeFlag cl) = Err err) /\
  (codeOf (main cl a w) = 0 \/ codeOf (main cl a w) = 1).
Proof.
  unfold inspects, main. intros Hmode.
  destruct (helpFlag cl || shortHelpFlag cl) eqn:Eh; cbn [orb] in *.
  { cbn. repeat split; try discriminate; auto. }
  destruct (versionFlag cl || shortVersionFlag cl) eqn:Ev.
  { cbn.
    repeat split; try discriminate; auto. }
  assert (Hd : negb (String.eqb (decodeFlag cl) "") = true).
  { destruct (helpFlag cl), (shortHelpFlag cl), (versionFlag cl),
      (shortVersionFlag cl); try discriminate. exact Hmode. }
  rewrite Hd.
  assert (Hnone : helpFlag cl || shortHelpFlag cl || versionFlag cl
                  || shortVersionFlag cl = false).
  { rewrite <- orb_assoc, Ev, orb_false_r. exact Eh. }
  destruct (decodeFile (decodeFlag cl)) as [out|err]; cbn.
  - repeat split; try discriminate; auto.
  - repeat split; try discriminate; auto.
    + intros err' _ [= <-]. reflexivity.
    + exists err. reflexivity.
Qed.

End ModeFacts.

Lemma inspection_modes_write_no_file_witness :
  inspects helpCommand = true /\
  @main decimalFmt plainStringers memoryDecoders exampleSystem helpCommand
    exampleAnswers emptyWorld
  = Next tt (mkWorld ∅ printHelp).
Proof.
  assert (Hmode : inspects helpCommand = true) by reflexivity.
  split; [exact Hmode|].
  exact (proj1 (proj2 (proj2
           (@inspection_modes_write_no_file decimalFmt plainStringers
              memoryDecoders exampleSystem helpCommand exampleAnswers
              emptyWorld Hmode))) eq_refl).
Defined.

(** ** The run as a whole: failures and success *)

(** [asn1.Marshal] of a slice of raw values returns no error, so the
    template is always built. *)
Lemma main_template_ok (subj : pkix.Name) (sans : list string) :
  exists template, main_template subj sans = Ok template.
Proof.
  unfold main_template, sanExtension, asn1.Marshal.
  destruct (0 <? len sans); cbn [bind]; eexists; reflexivity.
Qed.

Lemma bindM_Next {A B} (m : M A) (k : A -> M B) (w : World) (a : A) (w' : World) :
  m w = Next a w' -> bindM m k w = k a w'.
Proof. unfold bindM. intros ->. reflexivity. Qed.

Lemma bindM_Exit {A B} (m : M A) (k : A -> M B) (w : World) (code : Z)
    (w' : World) :
  m w = Exit code w' -> bindM m k w = Exit code w'.
Proof. unfold bindM. intros ->. reflexivity. Qed.

Section OutcomeFacts.
Context `{Fmt} `{Stringers} `{Decoders} `{System}.

(** What is left to run once the prompts are written. *)
Lemma main_generation_after_prompts (flags : Flags) (a : Answers) (w : World) :
  main_generation flags a w
  = (run* built := main_build a in
     run* _s := main_save flags a (fst built) (snd built) in
     run* _c := main_certificate flags a (fst built) in
     Print (Println "Keep your private key file secure and do not share it with anyone."))
      (mkWorld (files w) (stdout w ++ promptOutput flags a)).
Proof. reflexivity. Qed.

(** [main_build] changes no file; it ends the run exactly when the key or
    the request cannot be made. *)
Lemma main_build_outcome (a : Answers) (w : World) :
  files (worldOf (main_build a w)) = files w /\
  match main_build a w with
  | Next built _ =>
      GenerateKey (main_keySize (keySizeStr a)) = Ok (fst built) /\
      exists template,
        main_template (main_subj a) (main_sans (addSANs a) (sanLines a))
          = Ok template /\
        CreateCertificateRequest template (fst built) = Ok (snd built)
  | Exit code _ =>
      code = 1 /\
      ((exists err, GenerateKey (main_keySize (keySizeStr a)) = Err err)
       \/ exists privateKey template err,
            GenerateKey (main_keySize (keySizeStr a)) = Ok privateKey /\
            main_template (main_subj a) (main_sans (addSANs a) (sanLines a))
              = Ok template /\
            CreateCertificateRequest template privateKey = Err err)
  end.
Proof.
  unfold main_build, bindM, Print, orExit, ret.
  destruct (GenerateKey (main_keySize (keySizeStr a))) as [privateKey|err] eqn:Eg.
  2:{ cbn. split; [reflexivity|]. split; [reflexivity|]. left. eauto. }
  destruct (main_template_ok (main_subj a) (main_sans (addSANs a) (sanLines a)))
    as [template Et].
  rewrite Et.
  destruct (0 <? len (main_sans (addSANs a) (sanLines a)));
    destruct (CreateCertificateRequest template privateKey) as [csrBytes|err]
      eqn:Ec; cbn;
    (split; [reflexivity|]);
    try (split; [reflexivity|]; exists template; split; [reflexivity|exact Ec]);
    (split; [reflexivity|]; right; exists privateKey, template, err;
     repeat split; assumption).
Qed.

(** The three steps that can end the run while files are being made. *)
Lemma mkdir_step (flags : Flags) (w : World) :
  let m :=
    if negb (String.eqb (outputDirFlag flags) "")
    then orExit (match MkdirAll_error (outputDirFlag flags) with
                 | Some err => Err err
                 | None => Ok tt
                 end) "Error creating output directory: "
    else ret tt in
  (m w = Next tt w /\
   (outputDirFlag flags <> "" -> MkdirAll_error (outputDirFlag flags) = None))
  \/ (exists err w',
        m w = Exit 1 w' /\ files w' = files w /\
        outputDirFlag flags <> "" /\
        MkdirAll_error (outputDirFlag flags) = Some err).
Proof.
  cbv zeta.
  destruct (String.eqb_spec (outputDirFlag flags) "") as [Hd|Hd]; cbn [negb].
  - left. split; [reflexivity|]. intros Hc. contradiction.
  - unfold orExit.
    destruct (MkdirAll_error (outputDirFlag flags)) as [err|].
    + right. eexists err, _. repeat split. exact Hd.
    + left. split; reflexivity.
Qed.

Lemma createFile_step (path report : string) (w : World) :
  (createFile path report w
   = Next tt (mkWorld (<[path := []]> (files w)) (stdout w)) /\
   Create_error path = None)
  \/ (exists err w',
        createFile path report w = Exit 1 w' /\ files w' = files w /\
        Create_error path = Some err).
Proof.
  unfold createFile. destruct (Create_error path) as [err|].
  - right. eexists err, _. repeat split.
  - left. split; reflexivity.
Qed.

Lemma encodeTo_step (path : string) (block : pem.Block) (report : string)
    (w : World) :
  (encodeTo path block report w
   = Next tt (mkWorld (<[path := pem_EncodeToBytes block]> (files w)) (stdout w))
   /\ Write_error path (pem_EncodeToBytes block) = None)
  \/ (exists failure w',
        encodeTo path block report w = Exit 1 w' /\
        Write_error path (pem_EncodeToBytes block) = Some failure).
Proof.
  unfold encodeTo.
  destruct (Write_error path (pem_EncodeToBytes block)) as [[err written]|].
  - right. eexists (err, written), _. split; reflexivity.
  - left. split; reflexivity.
Qed.

(** [main_save] returns exactly when its five calls succeed; when it ends
    the run the code is 1, and no file has changed if the failure is that
    of the directory or of the creation of the key file. *)
Lemma main_save_outcome (flags : Flags) (a : Answers)
    (privateKey : rsa.PrivateKey) (csrBytes : list byte) (w : World) :
  match main_save flags a privateKey csrBytes w with
  | Next _ _ =>
      (outputDirFlag flags <> "" -> MkdirAll_error (outputDirFlag flags) = None) /\
      Create_error (keyPathOf flags a) = None /\
      Write_error (keyPathOf flags a) (keyPEM privateKey) = None /\
      Create_error (csrPathOf flags a) = None /\
      Write_error (csrPathOf flags a) (csrPEM csrBytes) = None
  | Exit code w' =>
      code = 1 /\
      ((exists err, outputDirFlag flags <> "" /\
                    MkdirAll_error (outputDirFlag flags) = Some err)
       \/ (exists err, Create_error (keyPathOf flags a) = Some err) ->
       files w' = files w)
  end.
Proof.
  unfold main_save, keyPEM, csrPEM. cbv zeta.
  destruct (mkdir_step flags w) as [[Hm Hdir]|(err & w' & Hm & Hf & Hd & He)];
    cbv zeta in Hm.
  2:{ rewrite (bindM_Exit _ _ _ _ _ Hm). split; [reflexivity|]. intros _. exact Hf. }
  rewrite (bindM_Next _ _ _ _ _ Hm).
  destruct (createFile_step (keyPathOf flags a) "Error creating key file: " w)
    as [[Hc Hck]|(err & w' & Hc & Hf & He)].
  2:{ rewrite (bindM_Exit _ _ _ _ _ Hc). split; [reflexivity|]. intros _. exact Hf. }
  rewrite (bindM_Next _ _ _ _ _ Hc).
  assert (Hlate :
    (exists err, outputDirFlag flags <> "" /\
                 MkdirAll_error (outputDirFlag flags) = Some err)
    \/ (exists err, Create_error (keyPathOf flags a) = Some err) -> False).
  { intros [(err & Hne & He)|[err He]].
    - rewrite Hdir in He by exact Hne. discriminate.
    - rewrite Hck in He. discriminate. }
  match goal with
  | |- context [bindM (encodeTo ?p ?b ?r) _ ?w0] =>
      destruct (encodeTo_step p b r w0) as [[He Hwk]|(failure & w' & He & _)]
  end.
  2:{ rewrite (bindM_Exit _ _ _ _ _ He). split; [reflexivity|].
      intros Hc'. destruct (Hlate Hc'). }
  rewrite (bindM_Next _ _ _ _ _ He).
  match goal with
  | |- context [bindM (createFile ?p ?r) _ ?w0] =>
      destruct (createFile_step p r w0) as [[Hc2 Hcc]|(err & w' & Hc2 & _ & _)]
  end.
  2:{ rewrite (bindM_Exit _ _ _ _ _ Hc2). split; [reflexivity|].
      intros Hc'. destruct (Hlate Hc'). }
  rewrite (bindM_Next _ _ _ _ _ Hc2).
  match goal with
  | |- context [bindM (encodeTo ?p ?b ?r) _ ?w0] =>
      destruct (encodeTo_step p b r w0) as [[He2 Hwc]|(failure & w' & He2 & _)]
  end.
  2:{ rewrite (bindM_Exit _ _ _ _ _ He2). split; [reflexivity|].
      intros Hc'. destruct (Hlate Hc'). }
  rewrite (bindM_Next _ _ _ _ _ He2).
  unfold bindM, Print. repeat split; assumption.
Qed.

(** When every call succeeds, [main_save] leaves the two files written and
    reports success. *)
Lemma main_save_clean (flags : Flags) (a : Answers)
    (privateKey : rsa.PrivateKey) (csrBytes : list byte) (w : World) :
  (outputDirFlag flags <> "" -> MkdirAll_error (outputDirFlag flags) = None) ->
  Create_error (keyPathOf flags a) = None ->
  Write_error (keyPathOf flags a) (keyPEM privateKey) = None ->
  Create_error (csrPathOf flags a) = None ->
  Write_error (csrPathOf flags a) (csrPEM csrBytes) = None ->
  main_save flags a privateKey csrBytes w
  = Next tt
      (mkWorld
         (<[csrPathOf flags a := csrPEM csrBytes]>
            (<[csrPathOf flags a := []]>
               (<[keyPathOf flags a := keyPEM privateKey]>
                  (<[keyPathOf flags a := []]> (files w)))))
         (stdout w
          ++ [Println (nl +:+ "Success!");
              "Private key saved to: " +:+ keyPathOf flags a +:+ nl;
              "CSR saved to: " +:+ csrPathOf flags a +:+ nl])).
Proof.
  unfold keyPEM, csrPEM. intros Hdir Hck Hwk Hcc Hwc.
  unfold main_save.
  rewrite (bindM_Next _ _ w tt w).
  2:{ destruct (String.eqb_spec (outputDirFlag flags) ""); cbn [negb];
        [reflexivity|]. rewrite Hdir by assumption. reflexivity. }
  erewrite bindM_Next by (unfold createFile; rewrite Hck; reflexivity).
  erewrite bindM_Next
    by (unfold encodeTo; cbn [files stdout]; rewrite Hwk; reflexivity).
  erewrite bindM_Next by (unfold createFile; rewrite Hcc; reflexivity).
  erewrite bindM_Next
    by (unfold encodeTo; cbn [files stdout]; rewrite Hwc; reflexivity).
  unfold bindM, Print, write. cbn [files stdout].
  rewrite <- !app_assoc. reflexivity.
Qed.

(** The run of a request for which every call up to the certificate
    succeeds: what is left is the certificate and the closing line. *)
Lemma main_generation_saved (flags : Flags) (a : Answers)
    (privateKey : rsa.PrivateKey) (csrBytes : list byte) (w : World) :
  savesCleanly flags a privateKey csrBytes ->
  exists out,
    In (Println (nl +:+ "Success!")) out /\
    main_generation flags a w
    = (run* _c := main_certificate flags a privateKey in
       Print (Println "Keep your private key file secure and do not share it with anyone."))
        (mkWorld
           (<[csrPathOf flags a := csrPEM csrBytes]>
              (<[csrPathOf flags a := []]>
                 (<[keyPathOf flags a := keyPEM privateKey]>
                    (<[keyPathOf flags a := []]> (files w)))))
           (stdout w ++ out)).
Proof.
  intros (Hg & (template & Ht & Hc) & Hdir & Hck & Hwk & Hcc & Hwc).
  rewrite main_generation_after_prompts.
  set (w0 := mkWorld (files w) (stdout w ++ promptOutput flags a)).
  unfold bindM at 1.
  assert (Hb : exists out1,
    main_build a w0 = Next (privateKey, csrBytes)
                        (mkWorld (files w) (stdout w ++ out1))).
  { unfold main_build, bindM, Print, orExit, ret, write.
    rewrite Hg, Ht. cbn [files stdout].
    destruct (0 <? len (main_sans (addSANs a) (sanLines a)));
      rewrite Hc; cbn [files stdout w0];
      rewrite <- ?app_assoc; eexists; reflexivity. }
  destruct Hb as [out1 ->].
  unfold bindM at 1. cbn [fst snd].
  rewrite (main_save_clean flags a privateKey csrBytes _ Hdir Hck Hwk Hcc Hwc).
  cbn [files stdout]. rewrite <- app_assoc.
  eexists. split; [|reflexivity].
  apply in_or_app. right. left. reflexivity.
Qed.

(** The certificate step, when every call succeeds. *)
Lemma main_certificate_clean (flags : Flags) (a : Answers)
    (privateKey : rsa.PrivateKey) (derBytes : list byte) (w : World) :
  main_createSelfsigned flags (selfSigned a) = true ->
  certifiesCleanly flags a privateKey derBytes ->
  exists out,
    main_certificate flags a privateKey w
    = Next tt
        (mkWorld
           (<[crtPathOf flags a := crtPEM derBytes]>
              (<[crtPathOf flags a := []]> (files w)))
           (stdout w ++ out)).
Proof.
  intros Hs (serialNumber & Hr & Hc & Hcc & Hwc).
  unfold certTemplateOf, crtPEM in *. rewrite Hs in Hc.
  unfold main_certificate, bindM, createFile, encodeTo, Print, orExit, ret, write.
  rewrite Hs, Hr, Hc, Hcc. cbn [files stdout]. rewrite Hwc. cbn [files stdout].
  rewrite <- app_assoc. eexists. reflexivity.
Qed.

(** The certificate step ends the run exactly when one of its calls
    fails. *)
Lemma main_certificate_outcome (flags : Flags) (a : Answers)
    (privateKey : rsa.PrivateKey) (w : World) :
  main_createSelfsigned flags (selfSigned a) = true ->
  match main_certificate flags a privateKey w with
  | Next _ _ => exists derBytes, certifiesCleanly flags a privateKey derBytes
  | Exit code _ =>
      code = 1 /\ forall derBytes, ~ certifiesCleanly flags a privateKey derBytes
  end.
Proof.
  intros Hs. unfold certifiesCleanly, certTemplateOf, crtPEM.
  unfold main_certificate, bindM, createFile, encodeTo, Print, orExit, ret, write.
  rewrite Hs.
  destruct (rand_Int (Z.shiftl 1 128)) as [serialNumber|err] eqn:Er.
  2:{ split; [reflexivity|]. intros derBytes (s & [=] & _). }
  destruct (CreateCertificate _ _ _ _) as [derBytes|err] eqn:Ec.
  2:{ split; [reflexivity|]. intros d (s & [= <-] & Hc & _).
      rewrite Ec in Hc. discriminate. }
  destruct (Create_error (crtPathOf flags a)) as [err|] eqn:Ecc.
  { split; [reflexivity|]. intros d (s & _ & _ & [=] & _). }
  cbn [files stdout].
  destruct (Write_error (crtPathOf flags a) _) as [[err written]|] eqn:Ewc.
  { split; [reflexivity|]. intros d (s & [= <-] & Hc & _ & Hw).
    rewrite Ec in Hc. injection Hc as <-. rewrite Ewc in Hw. discriminate. }
  exists derBytes, serialNumber. repeat split; assumption.
Qed.

(** X14.  When a call made before any file is created fails (the key
    generation, the making of the request, the making of the output
    directory, or the creation of the key file), the run ends with code 1
    and every file is as it was. *)
Theorem failure_before_files_leaves_none (flags : Flags) (a : Answers)
    (w : World) :
  failsBeforeFiles flags a ->
  files (worldOf (main_generation flags a w)) = files w /\
  codeOf (main_generation flags a w) = 1.
Proof.
  intros Hfail. rewrite main_generation_after_prompts.
  set (w0 := mkWorld (files w) (stdout w ++ promptOutput flags a)).
  change (files w) with (files w0).
  destruct (main_build_outcome a w0) as [Hfiles Hout].
  destruct (main_build a w0) as [[privateKey csrBytes] w1|code w1] eqn:Eb;
    cbn [worldOf fst snd] in *.
  2:{ rewrite (bindM_Exit _ _ _ _ _ Eb). destruct Hout as [-> _].
      split; [exact Hfiles|reflexivity]. }
  rewrite (bindM_Next _ _ _ _ _ Eb). cbn [fst snd].
  destruct Hout as (Hg & template & Ht & Hc).
  rewrite <- Hfiles.
  assert (Hlate :
    (exists err, outputDirFlag flags <> "" /\
                 MkdirAll_error (outputDirFlag flags) = Some err)
    \/ (exists err, Create_error (keyPathOf flags a) = Some err)).
  { destruct Hfail as [[err He]|[(k & t & err & Hk & Ht' & He)|[Hm|Hk]]].
    - rewrite Hg in He. discriminate.
    - rewrite Hg in Hk. injection Hk as <-. rewrite Ht in Ht'.
      injection Ht' as <-. rewrite Hc in He. discriminate.
    - left. destruct Hm as (err & Hne & He). eauto.
    - right. exact Hk. }
  pose proof (main_save_outcome flags a privateKey csrBytes w1) as Hsave.
  destruct (main_save flags a privateKey csrBytes w1) as [[] w2|code w2] eqn:Es.
  - exfalso. destruct Hsave as (Hdir & Hck & _).
    destruct Hlate as [(err & Hne & He)|[err He]].
    + rewrite Hdir in He by exact Hne. discriminate.
    + rewrite Hck in He. discriminate.
  - rewrite (bindM_Exit _ _ _ _ _ Es).
    destruct Hsave as [-> Hf]. cbn [worldOf codeOf].
    split; [exact (Hf Hlate)|reflexivity].
Qed.

(** X15.  When the key and the request were saved and a certificate is
    asked for, a failure of the certificate step (the serial number, the
    signing, the creation or the writing of the certificate file) ends the
    run with code 1 after "Success!" was printed, and leaves the key file
    and the request file complete: nothing is cleaned up. *)
Theorem certificate_failure_keeps_saved_files (flags : Flags) (a : Answers)
    (privateKey : rsa.PrivateKey) (csrBytes : list byte) (w : World) :
  savesCleanly flags a privateKey csrBytes ->
  main_createSelfsigned flags (selfSigned a) = true ->
  (forall derBytes, ~ certifiesCleanly flags a privateKey derBytes) ->
  keyPathOf flags a <> csrPathOf flags a ->
  crtPathOf flags a <> keyPathOf flags a ->
  crtPathOf flags a <> csrPathOf flags a ->
  codeOf (main_generation flags a w) = 1 /\
  files (worldOf (main_generation flags a w)) !! keyPathOf flags a
    = Some (keyPEM privateKey) /\
  files (worldOf (main_generation flags a w)) !! csrPathOf flags a
    = Some (csrPEM csrBytes) /\
  In (Println (nl +:+ "Success!")) (stdout (worldOf (main_generation flags a w))).
Proof.
  intros Hsave Hs Hfail Hkc Hck Hcc.
  destruct (main_generation_saved flags a privateKey csrBytes w Hsave)
    as (out & Hin & ->).
  set (w2 := mkWorld _ (stdout w ++ out)).
  pose proof (main_certificate_outcome flags a privateKey w2 Hs) as Hout.
  destruct (touchesOnly_main_certificate flags a privateKey w2)
    as (Hframe & [out' Hstd] & _).
  destruct (main_certificate flags a privateKey w2) as [[] w3|code w3] eqn:Ec;
    cbn [worldOf codeOf] in *.
  { destruct Hout as [derBytes Hd]. exfalso. exact (Hfail derBytes Hd). }
  rewrite (bindM_Exit _ _ _ _ _ Ec). cbn [worldOf codeOf].
  destruct Hout as [-> _]. split; [reflexivity|].
  split; [|split].
  - rewrite Hframe by (intros [_ Hp]; exact (Hck (eq_sym Hp))).
    unfold w2. cbn [files].
    rewrite !lookup_insert_ne by (intros Hp; exact (Hkc (eq_sym Hp))).
    apply lookup_insert_eq.
  - rewrite Hframe by (intros [_ Hp]; exact (Hcc (eq_sym Hp))).
    unfold w2. cbn [files]. apply lookup_insert_eq.
  - rewrite Hstd. unfold w2. cbn [stdout].
    apply in_or_app. left. apply in_or_app. right. exact Hin.
Qed.

(** X16.  The generation path ends with code 0 exactly when every call up
    to the writing of the request file succeeds and, when a certificate is
    asked for, every call of the certificate step succeeds too. *)
Theorem generation_exit_code (flags : Flags) (a : Answers) (w : World) :
  codeOf (main_generation flags a w) = 0 <->
  exists privateKey csrBytes,
    savesCleanly flags a privateKey csrBytes /\
    (main_createSelfsigned flags (selfSigned a) = true ->
     exists derBytes, certifiesCleanly flags a privateKey derBytes).
Proof.
  split.
  - rewrite main_generation_after_prompts.
    set (w0 := mkWorld (files w) (stdout w ++ promptOutput flags a)).
    destruct (main_build_outcome a w0) as [_ Hout].
    destruct (main_build a w0) as [[privateKey csrBytes] w1|code w1] eqn:Eb;
      cbn [fst snd] in *.
    2:{ rewrite (bindM_Exit _ _ _ _ _ Eb). destruct Hout as [-> _]. discriminate. }
    rewrite (bindM_Next _ _ _ _ _ Eb). cbn [fst snd].
    destruct Hout as (Hg & Hreq).
    pose proof (main_save_outcome flags a privateKey csrBytes w1) as Hsave.
    destruct (main_save flags a privateKey csrBytes w1) as [[] w2|code w2] eqn:Es.
    2:{ rewrite (bindM_Exit _ _ _ _ _ Es). destruct Hsave as [-> _]. discriminate. }
    rewrite (bindM_Next _ _ _ _ _ Es).
    destruct Hsave as (Hdir & Hck & Hwk & Hcc & Hwc).
    intros Hcode.
    exists privateKey, csrBytes.
    split; [repeat split; assumption|].
    intros Hs.
    pose proof (main_certificate_outcome flags a privateKey w2 Hs) as Hcert.
    destruct (main_certificate flags a privateKey w2) as [[] w3|code w3] eqn:Ec.
    + exact Hcert.
    + rewrite (bindM_Exit _ _ _ _ _ Ec) in Hcode.
      destruct Hcert as [-> _]. discriminate.
  - intros (privateKey & csrBytes & Hsave & Hcert).
    destruct (main_generation_saved flags a privateKey csrBytes w Hsave)
      as (out & _ & ->).
    destruct (main_createSelfsigned flags (selfSigned a)) eqn:Hs.
    + destruct (Hcert eq_refl) as [derBytes Hd].
      destruct (main_certificate_clean flags a privateKey derBytes
                  (mkWorld
                     (<[csrPathOf flags a := csrPEM csrBytes]>
                        (<[csrPathOf flags a := []]>
                           (<[keyPathOf flags a := keyPEM privateKey]>
                              (<[keyPathOf flags a := []]> (files w)))))
                     (stdout w ++ out)) Hs Hd) as [out' Hrun].
      rewrite (bindM_Next _ _ _ _ _ Hrun). reflexivity.
    + unfold bindM, main_certificate. rewrite Hs. reflexivity.
Qed.

(** The world at the end of a run in which every call succeeds. *)
Lemma successful_run_world (flags : Flags) (a : Answers)
    (privateKey : rsa.PrivateKey) (csrBytes : list byte) (w : World) :
  savesCleanly flags a privateKey csrBytes ->
  let saved :=
    <[csrPathOf flags a := csrPEM csrBytes]>
      (<[csrPathOf flags a := []]>
         (<[keyPathOf flags a := keyPEM privateKey]>
            (<[keyPathOf flags a := []]> (files w)))) in
  let closing :=
    Println "Keep your private key file secure and do not share it with anyone." in
  (main_createSelfsigned flags (selfSigned a) = false ->
   exists out,
     main_generation flags a w
     = Next tt (mkWorld saved (stdout w ++ out ++ [closing]))) /\
  (forall derBytes,
     main_createSelfsigned flags (selfSigned a) = true ->
     certifiesCleanly flags a privateKey derBytes ->
     exists out,
       main_generation flags a w
       = Next tt
           (mkWorld
              (<[crtPathOf flags a := crtPEM derBytes]>
                 (<[crtPathOf flags a := []]> saved))
              (stdout w ++ out ++ [closing]))).
Proof.
  intros Hsave. cbv zeta.
  destruct (main_generation_saved flags a privateKey csrBytes w Hsave)
    as (out & _ & ->).
  split.
  - intros Hs. unfold bindM, main_certificate. rewrite Hs.
    unfold Print, write. cbn [files stdout].
    eexists (out ++ [_]). rewrite !app_assoc. reflexivity.
  - intros derBytes Hs Hd.
    match goal with
    | |- context [bindM _ _ ?w2] =>
        destruct (main_certificate_clean flags a privateKey derBytes w2 Hs Hd)
          as [out' Hrun]
    end.
    rewrite (bindM_Next _ _ _ _ _ Hrun). unfold Print, write.
    cbn [files stdout]. exists (out ++ out'). rewrite !app_assoc. reflexivity.
Qed.

(** X17.  When every call succeeds and the three paths differ, the key file
    holds the PEM block "RSA PRIVATE KEY" of the key that was generated,
    the request file the block "CERTIFICATE REQUEST" of the request made
    with that key, and the certificate file, when a certificate is asked
    for, the block "CERTIFICATE" of the certificate signed with that key;
    when none is asked for, the certificate path is left as it was.  The
    last line written is the advice to keep the key secure. *)
Theorem successful_run_files (flags : Flags) (a : Answers)
    (privateKey : rsa.PrivateKey) (csrBytes : list byte) (w : World) :
  savesCleanly flags a privateKey csrBytes ->
  keyPathOf flags a <> csrPathOf flags a ->
  crtPathOf flags a <> keyPathOf flags a ->
  crtPathOf flags a <> csrPathOf flags a ->
  let w' := worldOf (main_generation flags a w) in
  (main_createSelfsigned flags (selfSigned a) = false ->
   codeOf (main_generation flags a w) = 0 /\
   files w' !! keyPathOf flags a = Some (keyPEM privateKey) /\
   files w' !! csrPathOf flags a = Some (csrPEM csrBytes) /\
   files w' !! crtPathOf flags a = files w !! crtPathOf flags a /\
   last (stdout w')
   = Some (Println "Keep your private key file secure and do not share it with anyone.")) /\
  (forall derBytes,
     main_createSelfsigned flags (selfSigned a) = true ->
     certifiesCleanly flags a privateKey derBytes ->
     codeOf (main_generation flags a w) = 0 /\
     files w' !! keyPathOf flags a = Some (keyPEM privateKey) /\
     files w' !! csrPathOf flags a = Some (csrPEM csrBytes) /\
     files w' !! crtPathOf flags a = Some (crtPEM derBytes) /\
     last (stdout w')
     = Some (Println "Keep your private key file secure and do not share it with anyone.")).
Proof.
  intros Hsave Hkc Hck Hcc. cbv zeta.
  destruct (successful_run_world flags a privateKey csrBytes w Hsave)
    as [Hcsr Hcrt].
  split.
  - intros Hs. destruct (Hcsr Hs) as [out ->]. cbn [worldOf codeOf files stdout].
    split; [reflexivity|].
    split; [rewrite !lookup_insert_ne by (intros Hp; exact (Hkc (eq_sym Hp)));
            apply lookup_insert_eq|].
    split; [apply lookup_insert_eq|].
    split; [|rewrite !app_assoc; apply last_snoc].
    rewrite !lookup_insert_ne
      by (intros Hp; first [exact (Hck (eq_sym Hp))|exact (Hcc (eq_sym Hp))]).
    reflexivity.
  - intros derBytes Hs Hd. destruct (Hcrt derBytes Hs Hd) as [out ->].
    cbn [worldOf codeOf files stdout].
    split; [reflexivity|].
    rewrite !(lookup_insert_ne _ (crtPathOf flags a) (keyPathOf flags a)) by exact Hck.
    rewrite !(lookup_insert_ne _ (crtPathOf flags a) (csrPathOf flags a)) by exact Hcc.
    split; [rewrite !lookup_insert_ne by (intros Hp; exact (Hkc (eq_sym Hp)));
            apply lookup_insert_eq|].
    split; [apply lookup_insert_eq|].
    split; [apply lookup_insert_eq|rewrite !app_assoc; apply last_snoc].
Qed.

(** X18.  The files of a successful run are files that [decodeFile] knows
    how to read.  When reading a path gives what the run left there and
    [pem.Decode] undoes [pem.Encode] on blocks of the known types, decoding
    the key file hands the bytes of the key to the PKCS#1 parser and prints
    the key summary, decoding the request file hands the request to the
    request parser, and decoding the certificate file hands the certificate
    to the certificate parser: no generated file is "unsupported". *)
Theorem generated_files_decode (flags : Flags) (a : Answers)
    (privateKey : rsa.PrivateKey) (csrBytes : list byte) (w : World) :
  savesCleanly flags a privateKey csrBytes ->
  keyPathOf flags a <> csrPathOf flags a ->
  crtPathOf flags a <> keyPathOf flags a ->
  crtPathOf flags a <> csrPathOf flags a ->
  (forall path data,
     files (worldOf (main_generation flags a w)) !! path = Some data ->
     ReadFile path = Ok data) ->
  (forall type bytes,
     knownBlockType type ->
     exists rest,
       pem_Decode (pem_EncodeToBytes (pem.mkBlock type bytes))
       = Some (pem.mkBlock type bytes, rest)) ->
  (main_createSelfsigned flags (selfSigned a) = false \/
   exists derBytes, certifiesCleanly flags a privateKey derBytes) ->
  decodeFile (keyPathOf flags a)
  = match ParsePKCS1PrivateKey (MarshalPKCS1PrivateKey privateKey) with
    | Ok key => Ok (printRSAKeyInfo key)
    | Err err => Err ("Failed to parse RSA private key: " +:+ err)
    end /\
  decodeFile (csrPathOf flags a)
  = match ParseCertificateRequest csrBytes with
    | Ok csr => Ok (printCSRInfo csr)
    | Err err => Err ("Failed to parse CSR: " +:+ err)
    end /\
  (forall derBytes,
     main_createSelfsigned flags (selfSigned a) = true ->
     certifiesCleanly flags a privateKey derBytes ->
     decodeFile (crtPathOf flags a)
     = match ParseCertificate derBytes with
       | Ok cert => Ok (printCertificateInfo cert)
       | Err err => Err ("Failed to parse certificate: " +:+ err)
       end).
Proof.
  intros Hsave Hkc Hck Hcc Hread Hpem Hmode.
  destruct (successful_run_world flags a privateKey csrBytes w Hsave)
    as [Hcsr Hcrt].
  assert (Hfiles :
    files (worldOf (main_generation flags a w)) !! keyPathOf flags a
      = Some (keyPEM privateKey) /\
    files (worldOf (main_generation flags a w)) !! csrPathOf flags a
      = Some (csrPEM csrBytes) /\
    (forall derBytes,
       main_createSelfsigned flags (selfSigned a) = true ->
       certifiesCleanly flags a privateKey derBytes ->
       files (worldOf (main_generation flags a w)) !! crtPathOf flags a
       = Some (crtPEM derBytes))).
  { destruct (main_createSelfsigned flags (selfSigned a)) eqn:Hs.
    - destruct Hmode as [[=]|[derBytes Hd]].
      destruct (Hcrt derBytes eq_refl Hd) as [out Hrun].
      rewrite Hrun. cbn [worldOf files].
      rewrite !(lookup_insert_ne _ (crtPathOf flags a) (keyPathOf flags a))
        by exact Hck.
      rewrite !(lookup_insert_ne _ (crtPathOf flags a) (csrPathOf flags a))
        by exact Hcc.
      split; [rewrite !lookup_insert_ne by (intros Hp; exact (Hkc (eq_sym Hp)));
              apply lookup_insert_eq|].
      split; [apply lookup_insert_eq|].
      intros d _ Hd'. rewrite lookup_insert_eq. f_equal.
      destruct Hd as (s & Hr & Hc & _), Hd' as (s' & Hr' & Hc' & _).
      rewrite Hr in Hr'. injection Hr' as <-. rewrite Hc in Hc'.
      injection Hc' as <-. reflexivity.
    - destruct (Hcsr eq_refl) as [out Hrun]. rewrite Hrun. cbn [worldOf files].
      split; [rewrite !lookup_insert_ne by (intros Hp; exact (Hkc (eq_sym Hp)));
              apply lookup_insert_eq|].
      split; [apply lookup_insert_eq|discriminate]. }
  destruct Hfiles as (Hk & Hc & Hr).
  split; [|split].
  - unfold decodeFile. rewrite (Hread _ _ Hk). unfold keyPEM.
    destruct (Hpem "RSA PRIVATE KEY" (MarshalPKCS1PrivateKey privateKey))
      as [rest ->]; [right; right; left; reflexivity|].
    reflexivity.
  - unfold decodeFile. rewrite (Hread _ _ Hc). unfold csrPEM.
    destruct (Hpem "CERTIFICATE REQUEST" csrBytes)
      as [rest ->]; [right; left; reflexivity|].
    reflexivity.
  - intros derBytes Hs Hd. unfold decodeFile.
    rewrite (Hread _ _ (Hr derBytes Hs Hd)). unfold crtPEM.
    destruct (Hpem "CERTIFICATE" derBytes) as [rest ->]; [left; reflexivity|].
    reflexivity.
Qed.

(** X19.  Without [-o], the three files are named by the prefix and the
    endings [.key], [.csr] and [.crt], so they are three different files
    and none overwrites another; a blank prefix gives [cert.key],
    [cert.csr] and [cert.crt]. *)
Theorem paths_without_output_dir (flags : Flags) (a : Answers) :
  outputDirFlag flags = "" ->
  keyPathOf flags a <> csrPathOf flags a /\
  crtPathOf flags a <> keyPathOf flags a /\
  crtPathOf flags a <> csrPathOf flags a /\
  (filePrefix a = "" ->
   main_paths flags a = ("cert.key", "cert.csr", "cert.crt")) /\
  (filePrefix a <> "" ->
   main_paths flags a
   = (filePrefix a +:+ ".key", filePrefix a +:+ ".csr", filePrefix a +:+ ".crt")).
Proof.
  intros Hdir. unfold keyPathOf, csrPathOf, crtPathOf, main_paths.
  rewrite Hdir. cbn [String.eqb negb fst snd].
  assert (Hcancel : forall s t u : string, s +:+ t = s +:+ u -> t = u).
  { induction s as [|c s IH]; intros t u Heq; [exact Heq|].
    change (String c (s +:+ t) = String c (s +:+ u)) in Heq.
    injection Heq as Heq. exact (IH _ _ Heq). }
  split; [intros Heq; apply Hcancel in Heq; discriminate|].
  split; [intros Heq; apply Hcancel in Heq; discriminate|].
  split; [intros Heq; apply Hcancel in Heq; discriminate|].
  unfold main_filePrefix.
  split.
  - intros ->. reflexivity.
  - intros Hne. destruct (String.eqb_spec (filePrefix a) ""); [contradiction|].
    reflexivity.
Qed.

End OutcomeFacts.

(** The example run saves its files cleanly, whoever signs. *)
Lemma exampleSystem_savesCleanly (certificate : result (list byte)) :
  @savesCleanly decimalFmt (exampleSystemWith certificate) selfSignedFlags
    exampleAnswers exampleKey
    (bytes_of_string "csr CN=example.com, O=Example Inc, OU=IT, C=US, ST=California, L=San Francisco").
Proof.
  split; [reflexivity|].
  split; [|repeat split; try reflexivity; intros Hc; exfalso; apply Hc; reflexivity].
  destruct (main_template_ok (main_subj exampleAnswers)
              (main_sans (addSANs exampleAnswers) (sanLines exampleAnswers)))
    as [template Ht].
  exists template. split; [exact Ht|].
  cbn [CreateCertificateRequest exampleSystemWith]. do 2 f_equal.
  revert Ht. unfold main_template.
  destruct (0 <? len _); cbn [bind].
  - unfold sanExtension, asn1.Marshal. cbn [bind]. intros [= <-]. reflexivity.
  - intros [= <-]. reflexivity.
Qed.

Lemma failure_before_files_leaves_none_witness :
  @failsBeforeFiles decimalFmt exampleSystem readOnlyFlags exampleAnswers /\
  files (worldOf (@main_generation decimalFmt plainStringers exampleSystem
                    readOnlyFlags exampleAnswers emptyWorld)) = ∅ /\
  codeOf (@main_generation decimalFmt plainStringers exampleSystem
            readOnlyFlags exampleAnswers emptyWorld) = 1.
Proof.
  assert (Hfail : @failsBeforeFiles decimalFmt exampleSystem readOnlyFlags
                    exampleAnswers).
  { right. right. left.
    exists "mkdir /readonly/certs: read-only file system".
    split; [discriminate|reflexivity]. }
  split; [exact Hfail|].
  exact (@failure_before_files_leaves_none decimalFmt plainStringers
           exampleSystem readOnlyFlags exampleAnswers emptyWorld Hfail).
Defined.


Lemma certificate_failure_keeps_saved_files_witness :
  codeOf (@main_generation decimalFmt plainStringers failingSigner
            selfSignedFlags exampleAnswers emptyWorld) = 1 /\
  files (worldOf (@main_generation decimalFmt plainStringers failingSigner
                    selfSignedFlags exampleAnswers emptyWorld))
    !! @keyPathOf failingSigner selfSignedFlags exampleAnswers
    = Some (@keyPEM failingSigner exampleKey) /\
  files (worldOf (@main_generation decimalFmt plainStringers failingSigner
                    selfSignedFlags exampleAnswers emptyWorld))
    !! @csrPathOf failingSigner selfSignedFlags exampleAnswers
    = Some (@csrPEM failingSigner
              (bytes_of_string "csr CN=example.com, O=Example Inc, OU=IT, C=US, ST=California, L=San Francisco")) /\
  In (Println (nl +:+ "Success!"))
    (stdout (worldOf (@main_generation decimalFmt plainStringers failingSigner
                        selfSignedFlags exampleAnswers emptyWorld))).
Proof.
  apply (@certificate_failure_keeps_saved_files decimalFmt plainStringers
           failingSigner selfSignedFlags exampleAnswers exampleKey _ emptyWorld).
  - apply exampleSystem_savesCleanly.
  - reflexivity.
  - intros derBytes (serialNumber & _ & Hc & _). discriminate Hc.
  - vm_compute. discriminate.
  - vm_compute. discriminate.
  - vm_compute. discriminate.
Defined.

Lemma generation_exit_code_witness :
  codeOf (@main_generation decimalFmt plainStringers exampleSystem
            selfSignedFlags exampleAnswers emptyWorld) = 0 /\
  exists privateKey csrBytes,
    @savesCleanly decimalFmt exampleSystem selfSignedFlags exampleAnswers
      privateKey csrBytes /\
    (@main_createSelfsigned selfSignedFlags (selfSigned exampleAnswers) = true ->
     exists derBytes,
       @certifiesCleanly decimalFmt exampleSystem selfSignedFlags exampleAnswers
         privateKey derBytes).
Proof.
  assert (Hcode : codeOf (@main_generation decimalFmt plainStringers exampleSystem
                            selfSignedFlags exampleAnswers emptyWorld) = 0)
    by (vm_compute; reflexivity).
  split; [exact Hcode|].
  exact (proj1 (@generation_exit_code decimalFmt plainStringers exampleSystem
                  selfSignedFlags exampleAnswers emptyWorld) Hcode).
Defined.

Lemma successful_run_files_witness :
  files (worldOf (@main_generation decimalFmt plainStringers exampleSystem
                    selfSignedFlags exampleAnswers emptyWorld))
    !! @crtPathOf exampleSystem selfSignedFlags exampleAnswers
  = Some (@crtPEM exampleSystem (bytes_of_string "certificate")).
Proof.
  destruct (@successful_run_files decimalFmt plainStringers exampleSystem
              selfSignedFlags exampleAnswers exampleKey _ emptyWorld
              (exampleSystem_savesCleanly _)) as [_ Hcrt];
    [vm_compute; discriminate|vm_compute; discriminate|vm_compute; discriminate|].
  destruct (Hcrt (bytes_of_string "certificate") eq_refl)
    as (_ & _ & _ & Hfile & _).
  { exists 77. repeat split. }
  exact Hfile.
Defined.

Lemma paths_without_output_dir_witness :
  outputDirFlag selfSignedFlags = "" /\
  @keyPathOf exampleSystem selfSignedFlags exampleAnswers
  <> @csrPathOf exampleSystem selfSignedFlags exampleAnswers.
Proof.
  assert (Hdir : outputDirFlag selfSignedFlags = "") by reflexivity.
  split; [exact Hdir|].
  exact (proj1 (@paths_without_output_dir exampleSystem selfSignedFlags
                  exampleAnswers Hdir)).
Defined.

Lemma generated_files_decode_witness :
  @decodeFile plainStringers decimalFmt (worldDecoders exampleRunWorld)
    (@keyPathOf exampleSystem selfSignedFlags exampleAnswers)
  = Ok (@printRSAKeyInfo plainStringers decimalFmt exampleKey).
Proof.
  destruct (@generated_files_decode decimalFmt plainStringers
              (worldDecoders exampleRunWorld) exampleSystem selfSignedFlags
              exampleAnswers exampleKey _ emptyWorld
              (exampleSystem_savesCleanly _)) as [Hkey _].
  - vm_compute. discriminate.
  - vm_compute. discriminate.
  - vm_compute. discriminate.
  - intros path data Hfile. cbn [ReadFile worldDecoders].
    unfold exampleRunWorld. rewrite Hfile. reflexivity.
  - intros type bytes [-> | [-> | [-> | ->]]]; eexists; reflexivity.
  - right. exists (bytes_of_string "certificate"), 77. repeat split.
  - exact Hkey.
Defined.

(** ** The questions that are asked *)

Lemma in_by_eqb (s : string) (l : list string) :
  In s l <-> existsb (String.eqb s) l = true.
Proof.
  rewrite existsb_exists. split.
  - intros Hin. exists s. split; [exact Hin|apply String.eqb_refl].
  - intros (x & Hin & Heq). apply String.eqb_eq in Heq. subst x. exact Hin.
Qed.

Section PromptFlow.
Context `{Fmt} `{Stringers} `{Decoders} `{System}.

Lemma keySizeNotice_cases (keySizeStr : string) :
  keySizeNotice keySizeStr = []
  \/ keySizeNotice keySizeStr = [Println "Invalid key size. Using default: 2048"].
Proof.
  unfold keySizeNotice.
  destruct (negb _); [|left; reflexivity].
  destruct (negb _); [right|left]; reflexivity.
Qed.

Lemma validDaysNotice_cases (flags : Flags) (validDaysStr : string) :
  validDaysNotice flags validDaysStr = []
  \/ validDaysNotice flags validDaysStr
     = [Println "Invalid validity period. Using default: 365 days"].
Proof.
  unfold validDaysNotice.
  destruct (negb _); [|left; reflexivity].
  destruct (_ <=? 0); [right|left]; reflexivity.
Qed.

(** X20.  Which questions a run asks.  The question about a self-signed
    certificate is asked exactly when [-s] is not given; the validity is
    asked for exactly when [-s] is not given and that question was answered
    "y" or "yes" (so with [-s] the value of [-days] is never asked about);
    and the instruction to enter the alternative names is written exactly
    when the question about them was answered "y" or "yes". *)
Theorem prompts_asked (flags : Flags) (a : Answers) :
  (In (nl +:+ "Do you want to create a self-signed certificate? [y/N]: ")
      (promptOutput flags a)
   <-> selfSignedFlag flags = false) /\
  (In "Certificate validity in days [default: 365]: " (promptOutput flags a)
   <-> selfSignedFlag flags = false /\
       (selfSigned a = "y" \/ selfSigned a = "yes")) /\
  (In (Println "Enter Subject Alternative Names (one per line, blank line to finish):")
      (promptOutput flags a)
   <-> addSANs a = "y" \/ addSANs a = "yes").
Proof.
  assert (Hyes : forall s, String.eqb s "y" || String.eqb s "yes" = true
                           <-> s = "y" \/ s = "yes").
  { intros s. rewrite orb_true_iff, !String.eqb_eq. reflexivity. }
  unfold promptOutput, main_createSelfsigned.
  pose proof (Hyes (selfSigned a)) as Hself.
  pose proof (Hyes (addSANs a)) as Hsan.
  destruct (String.eqb (selfSigned a) "y" || String.eqb (selfSigned a) "yes");
    destruct (String.eqb (addSANs a) "y" || String.eqb (addSANs a) "yes");
    destruct (selfSignedFlag flags); cbn [negb andb];
    destruct (keySizeNotice_cases (keySizeStr a)) as [-> | ->];
    destruct (validDaysNotice_cases flags (validDaysStr a)) as [Hv|Hv];
    rewrite ?Hv;
    (split; [|split]);
    (split;
     [intros Hin; apply in_by_eqb in Hin; vm_compute in Hin;
      first [discriminate Hin
            |split; first [reflexivity|apply Hself; reflexivity]
            |reflexivity
            |apply Hsan; reflexivity]
     |intros Hc; apply in_by_eqb; vm_compute;
      first [reflexivity
            |exfalso; first [discriminate Hc
                            |destruct Hc as [Hc _]; discriminate Hc
                            |destruct Hc as [_ Hc]; apply Hself in Hc;
                             discriminate Hc
                            |apply Hsan in Hc; discriminate Hc]]]).
Qed.

End PromptFlow.

(** ** The extended key usages that are named *)

Section UsageFacts.
Context `{Stringers} `{Fmt}.

(** X21.  The section "Extended Key Usage" is printed exactly when the
    certificate lists a usage.  Under the heading comes one line for each
    usage that the tool names (server and client authentication, code
    signing, email protection, time stamping, OCSP signing), in the order of
    the certificate; a usage it does not name gives no line, so a
    certificate that lists only such usages gets the heading and nothing
    under it. *)
Theorem extKeyUsage_section (usages : list x509.ExtKeyUsage) :
  (extKeyUsageLines usages = [] <-> usages = []) /\
  (usages <> [] ->
   extKeyUsageLines usages
   = Println (nl +:+ "Extended Key Usage:")
     :: flat_map extKeyUsageLine (List.filter namedUsage usages) /\
   len (extKeyUsageLines usages) = 1 + len (List.filter namedUsage usages)) /\
  (usages <> [] -> List.filter namedUsage usages = [] ->
   extKeyUsageLines usages = [Println (nl +:+ "Extended Key Usage:")]).
Proof.
  assert (Hnamed : forall us,
    flat_map extKeyUsageLine us
    = flat_map extKeyUsageLine (List.filter namedUsage us)).
  { induction us as [|u us IH]; [reflexivity|].
    destruct u; cbn [flat_map List.filter namedUsage extKeyUsageLine app];
      rewrite IH; reflexivity. }
  assert (Hcount : forall us,
    len (flat_map extKeyUsageLine (List.filter namedUsage us))
    = len (List.filter namedUsage us)).
  { induction us as [|u us IH]; [reflexivity|].
    destruct u; cbn [flat_map List.filter namedUsage extKeyUsageLine app];
      try exact IH;
      unfold len in *; cbn [length]; lia. }
  unfold extKeyUsageLines.
  destruct usages as [|u usages].
  - split; [split; reflexivity|]. split; intros Hc; contradiction.
  - replace (0 <? len (u :: usages)) with true
      by (unfold len; cbn [length]; symmetry; apply Z.ltb_lt; lia).
    split; [split; discriminate|].
    split.
    + intros _. rewrite Hnamed. split; [reflexivity|].
      change (len (?x :: ?l)) with (len ([x] ++ l)).
      rewrite len_app, Hcount. reflexivity.
    + intros _ Hnone. rewrite Hnamed, Hnone. reflexivity.
Qed.

End UsageFacts.

Lemma extKeyUsage_section_witness :
  [x509.ExtKeyUsageAny; x509.ExtKeyUsageIPSECUser] <> [] /\
  extKeyUsageLines [x509.ExtKeyUsageAny; x509.ExtKeyUsageIPSECUser]
  = [Println (nl +:+ "Extended Key Usage:")].
Proof.
  assert (Hne : [x509.ExtKeyUsageAny; x509.ExtKeyUsageIPSECUser] <> [])
    by discriminate.
  split; [exact Hne|].
  exact (proj2 (proj2 (extKeyUsage_section
                         [x509.ExtKeyUsageAny; x509.ExtKeyUsageIPSECUser]))
           Hne eq_refl).
Defined.
